(** * AgentCommunicationMcp: task queues, relationships, mailbox polling,
      the JSON-RPC dispatcher and the stdio proxy

    A shallow embedding of the coordination engine of the repository:
    - [Task]                   src/core/Task.js
    - [TaskQueue]              src/core/TaskQueue.js
    - [RelationshipManager]    src/core/RelationshipManager.js
    - [CommunicationProtocol]  src/communication/CommunicationProtocol.js
    - [MCPAgentServer]         src/mcp-server.js
    - [MCPProxy]               src/mcp-proxy.js

    The JavaScript code is asynchronous but single-threaded; every method is
    embedded as a function in a state-and-exception monad over a [World]
    made of the agents' directories on disk and of the in-memory maps of the
    server objects.  Every [await] is run to completion before the next
    statement, so one call is one monadic computation. *)

From Stdlib Require Import String Ascii List Bool Arith ZArith Lia Permutation.

From stdpp Require Import base option list gmap strings.

Import ListNotations.

Local Open Scope string_scope.

Local Open Scope list_scope.

(** ** JavaScript helpers *)

Module JS.

(** Truthiness of a string value; the empty string also stands for an absent
    ([undefined]) or [null] property of a JSON document. *)
Definition truthy (s : string) : bool := negb (String.eqb s "").

(** [a || b] on strings. *)
Definition or_else (a b : string) : string := if truthy a then a else b.

(** [o || null] on a nullable string property. *)
Definition or_null (o : option string) : option string :=
  match o with
  | Some s => if truthy s then Some s else None
  | None => None
  end.

(** [Array.prototype.includes] on an array of strings. *)
Definition includes (l : list string) (x : string) : bool :=
  existsb (String.eqb x) l.

(** [Array.prototype.findIndex]; [None] is the JavaScript [-1]. *)
Fixpoint findIndex {A : Type} (p : A -> bool) (l : list A) : option nat :=
  match l with
  | [] => None
  | x :: r => if p x then Some 0 else option_map S (findIndex p r)
  end.

(** [l.findIndex(p)] together with the element [l[index]] it designates. *)
Fixpoint find_at {A : Type} (p : A -> bool) (l : list A) : option (nat * A) :=
  match l with
  | [] => None
  | x :: r =>
      if p x then Some (0, x)
      else option_map (fun ix => (S (fst ix), snd ix)) (find_at p r)
  end.

(** [l.splice(i, 1)]: the array without its element of index [i]. *)
Definition splice1 {A : Type} (i : nat) (l : list A) : list A :=
  firstn i l ++ skipn (S i) l.

(** [l.push(x)]. *)
Definition push {A : Type} (l : list A) (x : A) : list A := l ++ [x].

(** [s.endsWith(suffix)]. *)
Definition endsWith (s suffix : string) : bool :=
  let n := String.length s in
  let k := String.length suffix in
  Nat.leb k n && String.eqb (String.substring (n - k) k s) suffix.

(** [l.join(sep)]. *)
Fixpoint join (sep : string) (l : list string) : string :=
  match l with
  | [] => ""
  | [x] => x
  | x :: r => String.append x (String.append sep (join sep r))
  end.

End JS.

(** ** Results and the state-and-exception monad *)

Inductive Res (A : Type) : Type :=
| Ok (a : A)
| Throw (message : string).

Arguments Ok {A} a.

Arguments Throw {A} message.

Definition M (S A : Type) : Type := S -> Res A * S.

Definition ret {S A : Type} (a : A) : M S A := fun s => (Ok a, s).

Definition throw {S A : Type} (message : string) : M S A :=
  fun s => (Throw message, s).

Definition bind {S A B : Type} (m : M S A) (k : A -> M S B) : M S B :=
  fun s =>
    match m s with
    | (Ok a, s') => k a s'
    | (Throw e, s') => (Throw e, s')
    end.

(** [try { m } catch (error) { h error }]: the effects of [m] up to the
    throw are kept, as in JavaScript. *)
Definition try_catch {S A : Type} (m : M S A) (h : string -> M S A) : M S A :=
  fun s =>
    match m s with
    | (Ok a, s') => (Ok a, s')
    | (Throw e, s') => h e s'
    end.

Definition get {S : Type} : M S S := fun s => (Ok s, s).

Definition modify {S : Type} (f : S -> S) : M S unit := fun s => (Ok tt, f s).

Notation "'let*' x ':=' m 'in' k" := (bind m (fun x => k))
  (at level 10, x pattern, m at level 100, k at level 200).

Notation "m1 ';;' m2" := (bind m1 (fun _ => m2))
  (at level 100, m2 at level 200, right associativity).

(** [for (const x of l) { body x }]. *)
Fixpoint forEach {S A : Type} (l : list A) (body : A -> M S unit) : M S unit :=
  match l with
  | [] => ret tt
  | x :: r => body x ;; forEach r body
  end.

(** The three states of a file whose content is a JSON document of type [A]:
    absent ([ENOENT]), present but not parsable as such a document, or
    holding the document. *)
Inductive File (A : Type) : Type :=
| Missing
| Corrupt
| Content (a : A).

Arguments Missing {A}.

Arguments Corrupt {A}.

Arguments Content {A} a.

(** ** Task (src/core/Task.js) *)

Module Task.

(** The [metadata] object.  [None] is an absent or [null] property;
    [extra] holds the properties the code never reads. *)
Record Metadata : Type := mkMetadata {
  estimated_effort : option string;
  tags : list string;
  communication_thread : option string;
  blockReason : option string;
  extra : list (string * string)
}.

Definition empty_metadata : Metadata :=
  mkMetadata None [] None None [].

(** A task object, and also a task document of a collection file; in a
    document the empty string stands for an absent property. *)
Record t : Type := mk {
  id : string;
  type : string;
  title : string;
  description : string;
  priority : string;
  status : string;
  created_at : string;
  updated_at : string;
  agent_id : string;
  created_by : string;
  target_agent_id : option string;
  reference_task_id : option string;
  dependencies : list string;
  deliverables : list string;
  metadata : Metadata
}.

Definition set_status (s : string) (x : t) : t :=
  mk (id x) (type x) (title x) (description x) (priority x) s
     (created_at x) (updated_at x) (agent_id x) (created_by x)
     (target_agent_id x) (reference_task_id x) (dependencies x)
     (deliverables x) (metadata x).

Definition set_updated_at (s : string) (x : t) : t :=
  mk (id x) (type x) (title x) (description x) (priority x) (status x)
     (created_at x) s (agent_id x) (created_by x)
     (target_agent_id x) (reference_task_id x) (dependencies x)
     (deliverables x) (metadata x).

Definition set_deliverables (d : list string) (x : t) : t :=
  mk (id x) (type x) (title x) (description x) (priority x) (status x)
     (created_at x) (updated_at x) (agent_id x) (created_by x)
     (target_agent_id x) (reference_task_id x) (dependencies x)
     d (metadata x).

Definition set_metadata (m : Metadata) (x : t) : t :=
  mk (id x) (type x) (title x) (description x) (priority x) (status x)
     (created_at x) (updated_at x) (agent_id x) (created_by x)
     (target_agent_id x) (reference_task_id x) (dependencies x)
     (deliverables x) m.

Definition set_blockReason (r : option string) (m : Metadata) : Metadata :=
  mkMetadata (estimated_effort m) (tags m) (communication_thread m) r (extra m).

(** [constructor(options)], given the identifier [uuid] that [uuidv4()]
    returns when [options.id] is falsy and the time [now] that
    [new Date().toISOString()] returns.  The defaults that the constructor
    writes into [metadata] ([null], [[]], [null]) are the absent values of
    [Metadata], and the spread [...options.metadata] keeps every property
    that is present, so [metadata] is carried over. *)
Definition new (uuid now : string) (options : t) : t :=
  mk (JS.or_else (id options) uuid)
     (JS.or_else (type options) "implementation")
     (title options)
     (description options)
     (JS.or_else (priority options) "medium")
     (JS.or_else (status options) "pending")
     (JS.or_else (created_at options) now)
     (JS.or_else (updated_at options) now)
     (agent_id options)
     (JS.or_else (created_by options) (agent_id options))
     (JS.or_null (target_agent_id options))
     (JS.or_null (reference_task_id options))
     (dependencies options)
     (deliverables options)
     (metadata options).

(** [updateStatus(newStatus)]. *)
Definition updateStatus (now newStatus : string) (x : t) : t :=
  set_updated_at now (set_status newStatus x).

(** [addDeliverable(deliverable)]. *)
Definition addDeliverable (now deliverable : string) (x : t) : t :=
  if negb (JS.includes (deliverables x) deliverable)
  then set_updated_at now
         (set_deliverables (JS.push (deliverables x) deliverable) x)
  else x.

(** [isReady(completedTaskIds)]. *)
Definition isReady (completedTaskIds : list string) (x : t) : bool :=
  forallb (fun depId => JS.includes completedTaskIds depId) (dependencies x).

Definition is_some_truthy (o : option string) : bool :=
  match o with
  | Some s => JS.truthy s
  | None => false
  end.

(** [validate()]: the list of error messages; [isValid] is its emptiness. *)
Definition validate (x : t) : list string :=
  (if negb (JS.truthy (id x)) then ["Task ID is required"] else []) ++
  (if negb (JS.truthy (title x)) then ["Task title is required"] else []) ++
  (if negb (JS.truthy (agent_id x)) then ["Agent ID is required"] else []) ++
  (if negb (JS.truthy (created_by x))
   then ["Task creator (created_by) is required"] else []) ++
  (if negb (JS.includes ["implementation"; "request"; "response"] (type x))
   then ["Task type must be implementation, request, or response"] else []) ++
  (if negb (JS.includes ["high"; "medium"; "low"] (priority x))
   then ["Task priority must be high, medium, or low"] else []) ++
  (if negb (JS.includes ["pending"; "in_progress"; "completed"; "blocked"]
                        (status x))
   then ["Task status must be pending, in_progress, completed, or blocked"]
   else []) ++
  (if String.eqb (type x) "request" && negb (is_some_truthy (target_agent_id x))
   then ["Request tasks must have a target_agent_id"] else []) ++
  (if String.eqb (type x) "response"
      && negb (is_some_truthy (reference_task_id x))
   then ["Response tasks must have a reference_task_id"] else []).

Definition isValid (x : t) : bool :=
  match validate x with
  | [] => true
  | _ => false
  end.

Definition set_dependencies (d : list string) (x : t) : t :=
  mk (id x) (type x) (title x) (description x) (priority x) (status x)
     (created_at x) (updated_at x) (agent_id x) (created_by x)
     (target_agent_id x) (reference_task_id x) d
     (deliverables x) (metadata x).

(** [addDependency(taskId)]. *)
Definition addDependency (now taskId : string) (x : t) : t :=
  if negb (JS.includes (dependencies x) taskId)
  then set_updated_at now
         (set_dependencies (JS.push (dependencies x) taskId) x)
  else x.

(** [removeDependency(taskId)]: [indexOf], then [splice(index, 1)]. *)
Definition removeDependency (now taskId : string) (x : t) : t :=
  match JS.findIndex (fun d => String.eqb d taskId) (dependencies x) with
  | Some index =>
      set_updated_at now
        (set_dependencies (JS.splice1 index (dependencies x)) x)
  | None => x
  end.

(** The [responseData] of [createResponse]: the properties it reads, the
    empty string for an absent [description]. *)
Record ResponseData : Type := mkResponseData {
  rd_description : string;
  rd_deliverables : list string;
  rd_metadata : Metadata
}.

Definition set_communication_thread (c : option string) (m : Metadata)
  : Metadata :=
  mkMetadata (estimated_effort m) (tags m) c (blockReason m) (extra m).

(** [createResponse(respondingAgentId, responseData)], given what
    [uuidv4()] and [new Date().toISOString()] return in the constructor. *)
Definition createResponse (uuid now respondingAgentId : string)
    (responseData : ResponseData) (x : t) : Res t :=
  if negb (String.eqb (type x) "request")
  then Throw "Can only create responses for request tasks"
  else
    Ok (new uuid now
          (mk "" "response"
              (String.append "Response to: " (title x))
              (JS.or_else (rd_description responseData)
                 (String.append "Response to request: " (description x)))
              (priority x) "" "" ""
              respondingAgentId respondingAgentId
              (Some (agent_id x)) (Some (id x))
              [] (rd_deliverables responseData)
              (set_communication_thread
                 (Some match communication_thread (metadata x) with
                       | Some thread => JS.or_else thread (id x)
                       | None => id x
                       end)
                 (rd_metadata responseData)))).

End Task.

(** ** Documents of an agent directory *)

Module Relationship.

(** One entry of a category of [relationships.json]. *)
Record t : Type := mk {
  agentId : string;
  type : string;
  established : string;
  status : string;
  lastUpdated : option string
}.

End Relationship.

Module Relationships.

(** [relationships.json]: the four named lists. *)
Record t : Type := mk {
  consumers : list Relationship.t;
  producers : list Relationship.t;
  bidirectional : list Relationship.t;
  optional : list Relationship.t
}.

Definition empty : t := mk [] [] [] [].

End Relationships.

(** A free-form JSON object: property names with the text of their values. *)
Definition JsonObject : Type := list (string * string).

Module McpConfig.

(** [mcp_config.json]; [rest] holds the properties the code never reads
    ([mcpEndpoint], [settings]). *)
Record t : Type := mk {
  agentId : string;
  capabilities : option JsonObject;
  connectedAt : option string;
  lastUpdated : option string;
  messageTypes : list string;
  rest : JsonObject
}.

End McpConfig.

Module Message.

(** A mailbox message; [details] and [data] hold JSON text. *)
Record t : Type := mk {
  id : string;
  type : string;
  timestamp : string;
  from_agent_id : string;
  to_agent_id : string;
  task_id : string;
  task_data : option Task.t;
  original_task_id : string;
  response_task_id : string;
  status : string;
  details : string;
  data : string
}.

End Message.

(** A directory of message files: file names with their content, [None] for
    a file that cannot be read or parsed, in the order in which [fs.readdir]
    lists them. *)
Definition Mailbox : Type := list (string * option Message.t).

(** The directory [<basePath>/<agentId>] with its sub-directories [tasks],
    [tasks/requests/incoming], [tasks/requests/incoming/processed] and
    [tasks/requests/outgoing]; they are created together, so that the whole
    tree exists or none of it. *)
Record AgentDir : Type := mkAgentDir {
  context_md : File string;
  active_json : File (list Task.t);
  pending_json : File (list Task.t);
  completed_json : File (list Task.t);
  relationships_json : File Relationships.t;
  mcp_config_json : File McpConfig.t;
  incoming : Mailbox;
  processed : Mailbox;
  outgoing : Mailbox
}.

Definition empty_dir : AgentDir :=
  mkAgentDir Missing Missing Missing Missing Missing Missing [] [] [].

(** An entry of [MCPAgentServer.connectedAgents]. *)
Module AgentInfo.

Record t : Type := mk {
  agentId : string;
  capabilities : JsonObject;
  connectedAt : string;
  lastActivity : string;
  registrationCount : nat
}.

End AgentInfo.

(** Lines written to the console by the polling cycle. *)
Inductive Event : Type :=
| MessageProcessed (messageId agentId : string)
| ErrorHandlingMessage (messageId agentId : string)
| NoMessageHandlers (agentId : string)
| NoHandlerForType (messageType agentId : string)
| ErrorProcessingFile (messageFile agentId : string)
| ErrorReadingIncoming (agentId : string)
| ErrorProcessingAgent (agentId : string)
| ErrorArchiving (messageId : string)
| ErrorDeleting (messagePath : string).

(** ** The world: disk, environment and object state *)

Record World : Type := mkWorld {
  (** the directories under [basePath], by agent id *)
  fs : gmap string AgentDir;
  (** what [new Date().toISOString()] returns *)
  clock : string;
  (** the identifiers [uuidv4()] hands out, and how many it has handed out *)
  uuid_source : nat -> string;
  draws : nat;
  (** whether [fs.rename] / [fs.unlink] of a path fail *)
  rename_fails : string -> bool;
  unlink_fails : string -> bool;
  (** [MCPAgentServer.connectedAgents] *)
  connectedAgents : gmap string AgentInfo.t;
  (** [CommunicationProtocol.registeredAgents], in insertion order, and the
      keys of [CommunicationProtocol.messageHandlers] *)
  registeredAgents : list string;
  messageHandlers : list string;
  (** the console lines written by [pollForMessages],
      [processIncomingMessages], [handleMessage] and [archiveMessage],
      oldest first; the progress lines of the other functions are not
      recorded, the program never reads the console *)
  console : list Event
}.

Definition set_fs (f : gmap string AgentDir) (w : World) : World :=
  mkWorld f (clock w) (uuid_source w) (draws w) (rename_fails w)
          (unlink_fails w) (connectedAgents w) (registeredAgents w)
          (messageHandlers w) (console w).

Definition set_clock (c : string) (w : World) : World :=
  mkWorld (fs w) c (uuid_source w) (draws w) (rename_fails w)
          (unlink_fails w) (connectedAgents w) (registeredAgents w)
          (messageHandlers w) (console w).

Definition set_draws (n : nat) (w : World) : World :=
  mkWorld (fs w) (clock w) (uuid_source w) n (rename_fails w)
          (unlink_fails w) (connectedAgents w) (registeredAgents w)
          (messageHandlers w) (console w).

Definition set_connectedAgents (c : gmap string AgentInfo.t) (w : World)
  : World :=
  mkWorld (fs w) (clock w) (uuid_source w) (draws w) (rename_fails w)
          (unlink_fails w) c (registeredAgents w)
          (messageHandlers w) (console w).

Definition set_protocol (r h : list string) (w : World) : World :=
  mkWorld (fs w) (clock w) (uuid_source w) (draws w) (rename_fails w)
          (unlink_fails w) (connectedAgents w) r h (console w).

Definition set_console (c : list Event) (w : World) : World :=
  mkWorld (fs w) (clock w) (uuid_source w) (draws w) (rename_fails w)
          (unlink_fails w) (connectedAgents w) (registeredAgents w)
          (messageHandlers w) c.

(** [new Date().toISOString()]. *)
Definition Date_now : M World string := fun w => (Ok (clock w), w).

(** [uuidv4()]. *)
Definition uuidv4 : M World string :=
  fun w => (Ok (uuid_source w (draws w)), set_draws (S (draws w)) w).

(** [console.log] / [console.error] of the polling cycle. *)
Definition log (e : Event) : M World unit :=
  modify (fun w => set_console (console w ++ [e]) w).

(** [l.map(f)] for an effectful [f]. *)
Fixpoint mapM {S A B : Type} (f : A -> M S B) (l : list A) : M S (list B) :=
  match l with
  | [] => ret []
  | x :: r => let* y := f x in let* ys := mapM f r in ret (y :: ys)
  end.

(** [Task.fromJSON(data)], that is [new Task(data)]: [uuidv4()] is called
    only when [data.id] is falsy. *)
Definition Task_fromJSON (data : Task.t) : M World Task.t :=
  let* uuid := (if JS.truthy (Task.id data) then ret "" else uuidv4) in
  let* now := Date_now in
  ret (Task.new uuid now data).

(** The three collection files of an agent. *)
Inductive Collection : Type := active | pending | completed.

#[global] Instance Collection_eq_dec : EqDecision Collection.
Proof. solve_decision. Defined.

Definition collection_eqb (c d : Collection) : bool :=
  match c, d with
  | active, active | pending, pending | completed, completed => true
  | _, _ => false
  end.

Definition file_of (c : Collection) (d : AgentDir) : File (list Task.t) :=
  match c with
  | active => active_json d
  | pending => pending_json d
  | completed => completed_json d
  end.

Definition with_file (c : Collection) (f : File (list Task.t)) (d : AgentDir)
  : AgentDir :=
  match c with
  | active =>
      mkAgentDir (context_md d) f (pending_json d) (completed_json d)
        (relationships_json d) (mcp_config_json d)
        (incoming d) (processed d) (outgoing d)
  | pending =>
      mkAgentDir (context_md d) (active_json d) f (completed_json d)
        (relationships_json d) (mcp_config_json d)
        (incoming d) (processed d) (outgoing d)
  | completed =>
      mkAgentDir (context_md d) (active_json d) (pending_json d) f
        (relationships_json d) (mcp_config_json d)
        (incoming d) (processed d) (outgoing d)
  end.

(** [fs.readFile] of a collection file followed by [JSON.parse]; every file
    of a directory that does not exist is absent. *)
Definition read_collection (agentId : string) (c : Collection) (w : World)
  : File (list Task.t) :=
  match fs w !! agentId with
  | Some d => file_of c d
  | None => Missing
  end.

(** [fs.writeFile] of a collection file; it fails with [ENOENT] when the
    directory does not exist. *)
Definition write_collection (agentId : string) (c : Collection)
    (tasks : list Task.t) : M World unit :=
  fun w =>
    match fs w !! agentId with
    | Some d =>
        (Ok tt, set_fs (<[agentId := with_file c (Content tasks) d]> (fs w)) w)
    | None => (Throw "ENOENT: no such file or directory", w)
    end.

(** The documents held by a collection file, none when it is absent or
    unreadable: what a [try { JSON.parse(await fs.readFile(path)) }] with an
    empty [catch] leaves in a variable initialised to [[]]. *)
Definition docs (agent : string) (c : Collection) (w : World) : list Task.t :=
  match read_collection agent c w with
  | Content l => l
  | _ => []
  end.

(** ** TaskQueue (src/core/TaskQueue.js)

    A queue is built on an [Agent]; the agent is identified here by its id,
    from which its paths derive. *)

Module TaskQueue.

(** [loadTasks(filePath)]. *)
Definition loadTasks (agent : string) (c : Collection) : M World (list Task.t) :=
  fun w =>
    match read_collection agent c w with
    | Content tasksData => mapM Task_fromJSON tasksData w
    | Missing => (Ok [], w)
    | Corrupt => (Throw "Unexpected token in JSON", w)
    end.

(** [saveTasks(filePath, tasks)]. *)
Definition saveTasks (agent : string) (c : Collection) (tasks : list Task.t)
  : M World unit :=
  write_collection agent c tasks.

Definition getActiveTasks (agent : string) := loadTasks agent active.
Definition getPendingTasks (agent : string) := loadTasks agent pending.
Definition getCompletedTasks (agent : string) := loadTasks agent completed.

(** [addTask(task)]; the argument is a [Task] object, so that the
    [instanceof] test passes. *)
Definition addTask (agent : string) (task : Task.t) : M World Task.t :=
  if negb (Task.isValid task)
  then throw (String.append "Invalid task: "
                            (JS.join ", " (Task.validate task)))
  else
    let* pendingTasks := getPendingTasks agent in
    saveTasks agent pending (JS.push pendingTasks task) ;;
    ret task.

(** [activateTask(taskId)]. *)
Definition activateTask (agent taskId : string) : M World Task.t :=
  let* pendingTasks := getPendingTasks agent in
  match JS.find_at (fun task => String.eqb (Task.id task) taskId)
                   pendingTasks with
  | None =>
      throw (String.append "Task "
               (String.append taskId " not found in pending queue"))
  | Some (taskIndex, task) =>
      let* completedTasks := getCompletedTasks agent in
      let completedTaskIds := map Task.id completedTasks in
      if negb (Task.isReady completedTaskIds task)
      then throw (String.append "Task "
                    (String.append taskId " dependencies not met"))
      else
        saveTasks agent pending (JS.splice1 taskIndex pendingTasks) ;;
        let* now := Date_now in
        let task := Task.updateStatus now "in_progress" task in
        let* activeTasks := getActiveTasks agent in
        saveTasks agent active (JS.push activeTasks task) ;;
        ret task
  end.

(** [completeTask(taskId, deliverables)]. *)
Definition completeTask (agent taskId : string) (deliverables : list string)
  : M World Task.t :=
  let* activeTasks := getActiveTasks agent in
  match JS.find_at (fun task => String.eqb (Task.id task) taskId)
                   activeTasks with
  | None =>
      throw (String.append "Task "
               (String.append taskId " not found in active queue"))
  | Some (taskIndex, task) =>
      let* now := Date_now in
      let task := Task.updateStatus now "completed" task in
      let task :=
        fold_left (fun task deliverable =>
                     Task.addDeliverable now deliverable task)
                  deliverables task in
      saveTasks agent active (JS.splice1 taskIndex activeTasks) ;;
      let* completedTasks := getCompletedTasks agent in
      saveTasks agent completed (JS.push completedTasks task) ;;
      ret task
  end.

(** The array [l] after the object found by [l.find(task => task.id ===
    taskId)], at index [i], has been mutated into [task]. *)
Definition mutated {A : Type} (i : nat) (task : A) (l : list A) : list A :=
  firstn i l ++ task :: skipn (S i) l.

(** [blockTask(taskId, reason)]. *)
Definition blockTask (agent taskId reason : string) : M World Task.t :=
  let* activeTasks := getActiveTasks agent in
  match JS.find_at (fun task => String.eqb (Task.id task) taskId)
                   activeTasks with
  | None =>
      throw (String.append "Task "
               (String.append taskId " not found in active queue"))
  | Some (i, task) =>
      let* now := Date_now in
      let task := Task.updateStatus now "blocked" task in
      let task :=
        if JS.truthy reason
        then Task.set_metadata
               (Task.set_blockReason (Some reason) (Task.metadata task))
               task
        else task in
      saveTasks agent active (mutated i task activeTasks) ;;
      ret task
  end.

(** [unblockTask(taskId)]. *)
Definition unblockTask (agent taskId : string) : M World Task.t :=
  let* activeTasks := getActiveTasks agent in
  match JS.find_at (fun task => String.eqb (Task.id task) taskId)
                   activeTasks with
  | None =>
      throw (String.append "Task "
               (String.append taskId " not found in active queue"))
  | Some (i, task) =>
      let* now := Date_now in
      let task := Task.updateStatus now "in_progress" task in
      let task :=
        Task.set_metadata
          (Task.set_blockReason None (Task.metadata task)) task in
      saveTasks agent active (mutated i task activeTasks) ;;
      ret task
  end.

(** [getReadyTasks()]. *)
Definition getReadyTasks (agent : string) : M World (list Task.t) :=
  let* pendingTasks := getPendingTasks agent in
  let* completedTasks := getCompletedTasks agent in
  let completedTaskIds := map Task.id completedTasks in
  ret (List.filter (fun task => Task.isReady completedTaskIds task)
                   pendingTasks).

End TaskQueue.

(** ** Agent (src/core/Agent.js): the files of an agent *)

Module Agent.

(** Rewrite one file of the directory of [agent]; [ENOENT] when there is no
    such directory. *)
Definition write_dir (agent : string) (f : AgentDir -> AgentDir)
  : M World unit :=
  fun w =>
    match fs w !! agent with
    | Some d => (Ok tt, set_fs (<[agent := f d]> (fs w)) w)
    | None => (Throw "ENOENT: no such file or directory", w)
    end.

Definition with_context (s : File string) (d : AgentDir) : AgentDir :=
  mkAgentDir s (active_json d) (pending_json d) (completed_json d)
    (relationships_json d) (mcp_config_json d)
    (incoming d) (processed d) (outgoing d).

Definition with_relationships (r : File Relationships.t) (d : AgentDir)
  : AgentDir :=
  mkAgentDir (context_md d) (active_json d) (pending_json d)
    (completed_json d) r (mcp_config_json d)
    (incoming d) (processed d) (outgoing d).

Definition with_mcp_config (c : File McpConfig.t) (d : AgentDir) : AgentDir :=
  mkAgentDir (context_md d) (active_json d) (pending_json d)
    (completed_json d) (relationships_json d) c
    (incoming d) (processed d) (outgoing d).

Definition with_mail (i p o : Mailbox) (d : AgentDir) : AgentDir :=
  mkAgentDir (context_md d) (active_json d) (pending_json d)
    (completed_json d) (relationships_json d) (mcp_config_json d) i p o.

(** [readContext()]. *)
Definition readContext (agent : string) : M World string :=
  fun w =>
    match fs w !! agent with
    | Some d =>
        match context_md d with
        | Content s => (Ok s, w)
        | _ => (Throw "ENOENT: no such file or directory", w)
        end
    | None => (Throw "ENOENT: no such file or directory", w)
    end.

Definition nl : string := String (ascii_of_nat 10) EmptyString.

(** [updateContext(newContent)]. *)
Definition updateContext (agent newContent : string) : M World unit :=
  let* timestamp := Date_now in
  let updatedContent :=
    String.append newContent
      (String.append nl (String.append nl
         (String.append "_Last updated: "
            (String.append timestamp (String.append "_" nl))))) in
  write_dir agent (with_context (Content updatedContent)).

(** [appendToContext(content)]. *)
Definition appendToContext (agent content : string) : M World unit :=
  let* currentContext := readContext agent in
  let* timestamp := Date_now in
  let newContent :=
    String.append currentContext
      (String.append nl (String.append nl
         (String.append "## "
            (String.append timestamp (String.append nl content))))) in
  updateContext agent newContent.

(** [getRelationships()]. *)
Definition getRelationships (agent : string) : M World Relationships.t :=
  fun w =>
    match fs w !! agent with
    | Some d =>
        match relationships_json d with
        | Content r => (Ok r, w)
        | Missing => (Throw "ENOENT: no such file or directory", w)
        | Corrupt => (Throw "Unexpected token in JSON", w)
        end
    | None => (Throw "ENOENT: no such file or directory", w)
    end.

(** [updateRelationships(relationships)]. *)
Definition updateRelationships (agent : string) (r : Relationships.t)
  : M World unit :=
  write_dir agent (with_relationships (Content r)).

End Agent.

(** ** RelationshipManager (src/core/RelationshipManager.js) *)

Inductive Category : Type :=
| consumers | producers | bidirectional | optional.

#[global] Instance Category_eq_dec : EqDecision Category.
Proof. solve_decision. Defined.

(** [relationships[category]]. *)
Definition category (k : Category) (r : Relationships.t)
  : list Relationship.t :=
  match k with
  | consumers => Relationships.consumers r
  | producers => Relationships.producers r
  | bidirectional => Relationships.bidirectional r
  | optional => Relationships.optional r
  end.

(** [relationships[category].push(entry)]. *)
Definition push_to (k : Category) (e : Relationship.t) (r : Relationships.t)
  : Relationships.t :=
  match k with
  | consumers =>
      Relationships.mk (JS.push (Relationships.consumers r) e)
        (Relationships.producers r) (Relationships.bidirectional r)
        (Relationships.optional r)
  | producers =>
      Relationships.mk (Relationships.consumers r)
        (JS.push (Relationships.producers r) e)
        (Relationships.bidirectional r) (Relationships.optional r)
  | bidirectional =>
      Relationships.mk (Relationships.consumers r)
        (Relationships.producers r)
        (JS.push (Relationships.bidirectional r) e)
        (Relationships.optional r)
  | optional =>
      Relationships.mk (Relationships.consumers r)
        (Relationships.producers r) (Relationships.bidirectional r)
        (JS.push (Relationships.optional r) e)
  end.

Module RelationshipManager.

(** The body shared by the four [add...] methods, which differ in the
    category and in the line appended to the context. *)
Definition add (k : Category) (contextLine : string)
    (agent otherAgentId relationshipType : string) : M World unit :=
  let* relationships := Agent.getRelationships agent in
  match find (fun c => String.eqb (Relationship.agentId c) otherAgentId)
             (category k relationships) with
  | Some existing => ret tt
  | None =>
      let* now := Date_now in
      let relationships :=
        push_to k (Relationship.mk otherAgentId relationshipType now
                     "active" None)
                relationships in
      Agent.updateRelationships agent relationships ;;
      Agent.appendToContext agent contextLine
  end.

(** [addConsumer(consumerAgentId, relationshipType = 'direct')]. *)
Definition addConsumer (agent consumerAgentId relationshipType : string)
  : M World unit :=
  add consumers
    (String.append "Added consumer relationship with "
       (String.append consumerAgentId
          (String.append " (" (String.append relationshipType ")"))))
    agent consumerAgentId relationshipType.

(** [addProducer(producerAgentId, relationshipType = 'direct')]. *)
Definition addProducer (agent producerAgentId relationshipType : string)
  : M World unit :=
  add producers
    (String.append "Added producer relationship with "
       (String.append producerAgentId
          (String.append " (" (String.append relationshipType ")"))))
    agent producerAgentId relationshipType.

(** [addBidirectionalRelationship(otherAgentId, relationshipType =
    'bidirectional')]. *)
Definition addBidirectionalRelationship
    (agent otherAgentId relationshipType : string) : M World unit :=
  add bidirectional
    (String.append "Added bidirectional relationship with " otherAgentId)
    agent otherAgentId relationshipType.

(** [addOptionalRelationship(otherAgentId, relationshipType = 'optional')]. *)
Definition addOptionalRelationship
    (agent otherAgentId relationshipType : string) : M World unit :=
  add optional
    (String.append "Added optional relationship with " otherAgentId)
    agent otherAgentId relationshipType.

(** The [add...] method of a category, with its default type. *)
Definition addRelationship (k : Category) (agent otherAgentId : string)
  : M World unit :=
  match k with
  | consumers => addConsumer agent otherAgentId "direct"
  | producers => addProducer agent otherAgentId "direct"
  | bidirectional =>
      addBidirectionalRelationship agent otherAgentId "bidirectional"
  | optional => addOptionalRelationship agent otherAgentId "optional"
  end.

(** One of the four blocks of [removeRelationship]: the category without
    its first entry for [otherAgentId], and whether there was one. *)
Definition remove_from (otherAgentId : string) (l : list Relationship.t)
  : list Relationship.t * bool :=
  match JS.findIndex
          (fun c => String.eqb (Relationship.agentId c) otherAgentId) l with
  | Some index => (JS.splice1 index l, true)
  | None => (l, false)
  end.

(** [removeRelationship(otherAgentId)]. *)
Definition removeRelationship (agent otherAgentId : string) : M World bool :=
  let* relationships := Agent.getRelationships agent in
  let c := remove_from otherAgentId (Relationships.consumers relationships) in
  let p := remove_from otherAgentId (Relationships.producers relationships) in
  let b :=
    remove_from otherAgentId (Relationships.bidirectional relationships) in
  let o := remove_from otherAgentId (Relationships.optional relationships) in
  let removed := snd c || snd p || snd b || snd o in
  if removed
  then
    Agent.updateRelationships agent
      (Relationships.mk (fst c) (fst p) (fst b) (fst o)) ;;
    Agent.appendToContext agent
      (String.append "Removed relationship with " otherAgentId) ;;
    ret true
  else ret false.

End RelationshipManager.

(** ** MCPAgentServer (src/mcp-server.js): tasks *)

Module MCPAgentServer.

(** The line feed and the double quote of the template strings. *)
Definition nl : string := String (ascii_of_nat 10) EmptyString.
Definition dq : string := String (ascii_of_nat 34) EmptyString.

(** A template string [`a${b}c...`]. *)
Definition template (parts : list string) : string :=
  fold_right String.append EmptyString parts.

(** [createTask(agentId, taskData, createdBy)]; [createdBy] is the empty
    string when the caller passes none. *)
Definition createTask (agentId : string) (taskData : Task.t)
    (createdBy : string) : M World string :=
  let* taskId := uuidv4 in
  let* now := Date_now in
  let task :=
    Task.mk taskId
      (JS.or_else (Task.type taskData) "implementation")
      (Task.title taskData)
      (Task.description taskData)
      (JS.or_else (Task.priority taskData) "medium")
      "pending"
      now now
      agentId
      (JS.or_else createdBy (JS.or_else (Task.created_by taskData) agentId))
      (JS.or_null (Task.target_agent_id taskData))
      (JS.or_null (Task.reference_task_id taskData))
      (Task.dependencies taskData)
      (Task.deliverables taskData)
      (Task.metadata taskData) in
  let* pendingTasks :=
    (fun w => (Ok (docs agentId pending w), w)) in
  write_collection agentId pending (JS.push pendingTasks task) ;;
  ret taskId.

(** The body of the [try] block of [updateTaskStatus] for one collection
    file: [Some task] when the task was found there (the [break]). *)
Definition updateTaskStatus_in (agentId taskId status : string)
    (deliverables : list string) (fileName : Collection)
  : M World (option Task.t) :=
  fun w =>
    match read_collection agentId fileName w with
    | Content tasks =>
        match JS.find_at (fun t => String.eqb (Task.id t) taskId) tasks with
        | Some (taskIndex, task) =>
            (let* now := Date_now in
             let task := Task.set_updated_at now (Task.set_status status task) in
             let task :=
               if Nat.ltb 0 (length deliverables)
               then Task.set_deliverables
                      (Task.deliverables task ++ deliverables) task
               else task in
             if String.eqb status "completed"
                && negb (collection_eqb fileName completed)
             then
               write_collection agentId fileName (JS.splice1 taskIndex tasks) ;;
               let* completedTasks :=
                 (fun w => (Ok (docs agentId completed w), w)) in
               write_collection agentId completed
                 (JS.push completedTasks task) ;;
               ret (Some task)
             else
               write_collection agentId fileName
                 (TaskQueue.mutated taskIndex task tasks) ;;
               ret (Some task)) w
        | None => (Ok None, w)
        end
    | Missing => (Throw "ENOENT: no such file or directory", w)
    | Corrupt => (Throw "Unexpected token in JSON", w)
    end.

(** The [for (const fileName of taskFiles)] loop of [updateTaskStatus]. *)
Fixpoint updateTaskStatus_loop (agentId taskId status : string)
    (deliverables : list string) (taskFiles : list Collection)
  : M World (option Task.t) :=
  match taskFiles with
  | [] => ret None
  | fileName :: rest =>
      let* found :=
        try_catch
          (updateTaskStatus_in agentId taskId status deliverables fileName)
          (fun _ => ret None) in
      match found with
      | Some task => ret (Some task)
      | None =>
          updateTaskStatus_loop agentId taskId status deliverables rest
      end
  end.

(** [updateTaskStatus(agentId, taskId, status, deliverables)]. *)
Definition updateTaskStatus (agentId taskId status : string)
    (deliverables : list string) : M World Task.t :=
  let* found :=
    updateTaskStatus_loop agentId taskId status deliverables
      [active; pending; completed] in
  match found with
  | Some task => ret task
  | None =>
      throw (template ["Task "; taskId; " not found for agent "; agentId])
  end.

(** The [metadata] of the suggested incorporation task: the original
    metadata with [tags] extended, and three more properties. *)
Record IncorporationMetadata : Type := mkIncorporationMetadata {
  inherited : Task.Metadata;
  incorporation_task : bool;
  original_task_id : string;
  metadata_completed_by : string
}.

Record OriginalTask : Type := mkOriginalTask {
  original_id : string;
  original_title : string;
  original_description : string;
  original_priority : string;
  original_deliverables : list string;
  original_metadata : Task.Metadata
}.

Record SuggestedTask : Type := mkSuggestedTask {
  title : string;
  description : string;
  priority : string;
  agent_id : string;
  created_by : string;
  target_agent_id : string;
  reference_task_id : string;
  deliverables : list string;
  metadata : IncorporationMetadata
}.

Record IncorporationGuidance : Type := mkIncorporationGuidance {
  guidance_message : string;
  creator_agent : string;
  completed_by : string;
  original_task : OriginalTask;
  suggested_incorporation_task : SuggestedTask;
  implementation_steps : list string
}.

(** The response of [task/update]; [incorporation_guidance] is [None] when
    the properties [incorporation_needed] and [incorporation_guidance] are
    not set. *)
Record TaskUpdateResponse : Type := mkTaskUpdateResponse {
  success : bool;
  message : string;
  task : Task.t;
  incorporation_guidance : option IncorporationGuidance
}.

Definition incorporation_needed (r : TaskUpdateResponse) : bool :=
  match incorporation_guidance r with
  | Some _ => true
  | None => false
  end.

Definition set_tags (l : list string) (m : Task.Metadata) : Task.Metadata :=
  Task.mkMetadata (Task.estimated_effort m) l (Task.communication_thread m)
    (Task.blockReason m) (Task.extra m).

(** The array [implementation_steps] of the guidance. *)
Definition guidance_steps (creator : string) (deliverables : list string)
  : list string :=
  [template ["1. Create a new task for agent "; dq; creator; dq;
             " using the suggested_incorporation_task data"];
   template ["2. Use the task/create method with agentId="; dq; creator; dq];
   template ["3. The incorporation task will help "; creator;
             " review and integrate the deliverables: ";
             JS.join ", " deliverables]].

(** The object assigned to [response.incorporation_guidance]. *)
Definition guidance (agentId : string) (task : Task.t)
  : IncorporationGuidance :=
  let creator := Task.created_by task in
  mkIncorporationGuidance
    (template ["This task was created by "; creator;
               ". Consider creating an incorporation task for them to review and integrate your changes."])
    creator
    agentId
    (mkOriginalTask (Task.id task) (Task.title task) (Task.description task)
       (Task.priority task) (Task.deliverables task) (Task.metadata task))
    (mkSuggestedTask
       (template ["Incorporate changes from: "; Task.title task])
       (template ["Task "; dq; Task.title task; dq; " has been completed by ";
                  agentId;
                  ". Please review and incorporate the following deliverables:";
                  nl; nl;
                  JS.join nl
                    (map (fun d => template ["- "; d])
                         (Task.deliverables task));
                  nl; nl; "Original task description: ";
                  Task.description task])
       (Task.priority task)
       creator
       agentId
       creator
       (Task.id task)
       (Task.deliverables task)
       (mkIncorporationMetadata
          (set_tags (Task.tags (Task.metadata task)
                       ++ ["incorporation"; "review"])
                    (Task.metadata task))
          true (Task.id task) agentId))
    (guidance_steps creator (Task.deliverables task)).

(** The parameters of [task/update]; [deliverables] is [[]] when absent. *)
Record TaskUpdateParams : Type := mkTaskUpdateParams {
  p_agentId : string;
  p_taskId : string;
  p_status : string;
  p_deliverables : list string
}.

(** The handler registered under [task/update] (and [task-update]). *)
Definition task_update (params : TaskUpdateParams)
  : M World TaskUpdateResponse :=
  let agentId := p_agentId params in
  let taskId := p_taskId params in
  let status := p_status params in
  let deliverables := p_deliverables params in
  if negb (JS.truthy agentId) || negb (JS.truthy taskId)
     || negb (JS.truthy status)
  then throw "Agent ID, task ID, and status are required"
  else
    let* task := updateTaskStatus agentId taskId status deliverables in
    let response :=
      mkTaskUpdateResponse true
        (template ["Task "; taskId; " status updated to "; status])
        task None in
    if String.eqb status "completed"
       && JS.truthy (Task.created_by task)
       && negb (String.eqb (Task.created_by task) agentId)
    then ret (mkTaskUpdateResponse (success response) (message response)
                (task) (Some (guidance agentId task)))
    else ret response.

(** The parameters of [relationship/add]. *)
Record RelationshipAddParams : Type := mkRelationshipAddParams {
  ra_agentId : string;
  ra_targetAgentId : string;
  ra_relationshipType : string
}.

(** The category that [addRelationship] pushes to for a relationship type;
    none for any other string. *)
Definition category_of (relationshipType : string) : option Category :=
  if String.eqb relationshipType "consumer" then Some consumers
  else if String.eqb relationshipType "producer" then Some producers
  else if String.eqb relationshipType "bidirectional" then Some bidirectional
  else if String.eqb relationshipType "optional" then Some optional
  else None.

(** The relationships read by [addRelationship]: the content of
    [relationships.json], or the four empty lists when it cannot be read. *)
Definition relationships_or_default (agentId : string) (w : World)
  : Relationships.t :=
  match fs w !! agentId with
  | Some d =>
      match relationships_json d with
      | Content r => r
      | _ => Relationships.empty
      end
  | None => Relationships.empty
  end.

(** [addRelationship(agentId, targetAgentId, relationshipType)]. *)
Definition addRelationship (agentId targetAgentId relationshipType : string)
  : M World unit :=
  let* relationships :=
    (fun w => (Ok (relationships_or_default agentId w), w)) in
  let* now := Date_now in
  let relationship :=
    Relationship.mk targetAgentId relationshipType now "active" None in
  let relationships :=
    match category_of relationshipType with
    | Some k => push_to k relationship relationships
    | None => relationships
    end in
  Agent.write_dir agentId (Agent.with_relationships (Content relationships)).

(** The handler registered under [relationship/add]; it returns the
    [message] of its response. *)
Definition relationship_add (params : RelationshipAddParams)
  : M World string :=
  let agentId := ra_agentId params in
  let targetAgentId := ra_targetAgentId params in
  let relationshipType := ra_relationshipType params in
  if negb (JS.truthy agentId) || negb (JS.truthy targetAgentId)
     || negb (JS.truthy relationshipType)
  then throw "Agent ID, target agent ID, and relationship type are required"
  else
    addRelationship agentId targetAgentId relationshipType ;;
    ret (template ["Relationship added between "; agentId; " and ";
                   targetAgentId]).

(** [JSON.stringify(o, null, 2)] of an object whose property values are
    given by their text. *)
Definition stringify (o : JsonObject) : string :=
  match o with
  | [] => "{}"
  | _ =>
      template
        ["{"; nl;
         JS.join (String.append "," nl)
           (map (fun kv => template ["  "; dq; fst kv; dq; ": "; snd kv]) o);
         nl; "}"]
  end.

Definition messageTypes : list string :=
  ["TASK_REQUEST"; "TASK_RESPONSE"; "STATUS_UPDATE";
   "DEPENDENCY_NOTIFICATION"; "INTEGRATION_TEST";
   "COMPLETION_NOTIFICATION"; "CONTEXT_SYNC"].

(** What [registerAgent] returns. *)
Record Registration : Type := mkRegistration {
  registration_message : string;
  wasUpdated : bool
}.

(** The four [fs.mkdir(..., { recursive: true })]: the tree of the agent is
    created when it does not exist. *)
Definition mkdir_agent (agentId : string) : M World unit :=
  modify (fun w =>
            match fs w !! agentId with
            | Some _ => w
            | None => set_fs (<[agentId := empty_dir]> (fs w)) w
            end).

(** [try { await fs.access(path) } catch { await fs.writeFile(path,
    content) }] for one file of the agent. *)
Definition init_file {A : Type} (agentId : string)
    (file : AgentDir -> File A) (with_it : File A -> AgentDir -> AgentDir)
    (content : A) : M World unit :=
  fun w =>
    match fs w !! agentId with
    | Some d =>
        match file d with
        | Missing => Agent.write_dir agentId (with_it (Content content)) w
        | _ => (Ok tt, w)
        end
    | None => Agent.write_dir agentId (with_it (Content content)) w
    end.

(** The default content of [context.md]. *)
Definition defaultContext (agentId now : string) (capabilities : JsonObject)
  : string :=
  template ["# Agent "; agentId; " Context"; nl; nl;
            "## Current State"; nl;
            "- Status: Connected to MCP Server"; nl;
            "- Registered: "; now; nl; nl;
            "## Capabilities"; nl; stringify capabilities; nl; nl;
            "## Knowledge Base"; nl; nl;
            "## Recent Activities"; nl; nl;
            "## Notes"; nl].

(** The configuration written for a new agent, or when the existing one
    cannot be read. *)
Definition freshConfig (agentId now : string) (capabilities : JsonObject)
  : McpConfig.t :=
  McpConfig.mk agentId (Some capabilities) (Some now) None messageTypes [].

(** [JSON.parse(await fs.readFile(mcpConfigPath))]. *)
Definition readConfig (agentId : string) : M World McpConfig.t :=
  fun w =>
    match fs w !! agentId with
    | Some d =>
        match mcp_config_json d with
        | Content c => (Ok c, w)
        | Missing => (Throw "ENOENT: no such file or directory", w)
        | Corrupt => (Throw "Unexpected token in JSON", w)
        end
    | None => (Throw "ENOENT: no such file or directory", w)
    end.

(** [registerAgent(agentId, capabilities, forceUpdate = false)]. *)
Definition registerAgent (agentId : string) (capabilities : JsonObject)
    (forceUpdate : bool) : M World Registration :=
  let* w0 := get in
  let existingAgent := connectedAgents w0 !! agentId in
  let isExisting :=
    match existingAgent with Some _ => true | None => false end in
  if isExisting && negb forceUpdate
  then ret (mkRegistration
              (template ["Agent "; agentId; " already registered"]) false)
  else
    mkdir_agent agentId ;;
    let* now := Date_now in
    init_file agentId context_md Agent.with_context
      (defaultContext agentId now capabilities) ;;
    init_file agentId active_json (with_file active) [] ;;
    init_file agentId pending_json (with_file pending) [] ;;
    init_file agentId completed_json (with_file completed) [] ;;
    init_file agentId relationships_json Agent.with_relationships
      Relationships.empty ;;
    let* mcpConfig :=
      (if isExisting
       then
         try_catch
           (let* existingConfig := readConfig agentId in
            let* now := Date_now in
            ret (McpConfig.mk (McpConfig.agentId existingConfig)
                   (Some capabilities)
                   (McpConfig.connectedAt existingConfig)
                   (Some now)
                   (McpConfig.messageTypes existingConfig)
                   (McpConfig.rest existingConfig)))
           (fun _ =>
              let* now := Date_now in
              ret (freshConfig agentId now capabilities))
       else
         let* now := Date_now in
         ret (freshConfig agentId now capabilities)) in
    Agent.write_dir agentId (Agent.with_mcp_config (Content mcpConfig)) ;;
    let* now := Date_now in
    modify (fun w =>
              set_connectedAgents
                (<[agentId :=
                     AgentInfo.mk agentId capabilities
                       match existingAgent with
                       | Some e => AgentInfo.connectedAt e
                       | None => now
                       end
                       now
                       match existingAgent with
                       | Some e =>
                           (if Nat.eqb (AgentInfo.registrationCount e) 0
                            then 1 else AgentInfo.registrationCount e) + 1
                       | None => 1
                       end]> (connectedAgents w)) w) ;;
    ret (mkRegistration
           (template ["Agent "; agentId;
                      if isExisting then " updated" else " registered";
                      " successfully"])
           isExisting).

(** The parameters of [agent/register], with their defaults applied. *)
Record RegisterParams : Type := mkRegisterParams {
  rp_agentId : string;
  rp_capabilities : JsonObject;
  rp_forceUpdate : bool
}.

(** The handler registered under [agent/register]. *)
Definition agent_register (params : RegisterParams) : M World Registration :=
  if negb (JS.truthy (rp_agentId params))
  then throw "Agent ID is required"
  else registerAgent (rp_agentId params) (rp_capabilities params)
         (rp_forceUpdate params).

(** The function objects created by [setupHandlers], one for each
    [async (params) => { ... }] expression, named after the key under which
    it is first stored. *)
Inductive Handler : Type :=
| h_initialize | h_initialized | h_agent_register | h_task_create
| h_task_request | h_task_update | h_relationship_add | h_agent_status
| h_context_update | h_message_send | h_task_get | h_tools_list.

#[global] Instance Handler_eq_dec : EqDecision Handler.
Proof. solve_decision. Defined.

(** A JavaScript [Map] from strings to function objects; a stored [None]
    is a stored [undefined]. *)
Definition HandlerMap : Type := gmap string (option Handler).

Definition Map_set (k : string) (v : option Handler) (m : HandlerMap)
  : HandlerMap := <[k := v]> m.

(** [m.get(k)]: [None] is [undefined]. *)
Definition Map_get (k : string) (m : HandlerMap) : option Handler :=
  match m !! k with
  | Some v => v
  | None => None
  end.

Definition Map_has (k : string) (m : HandlerMap) : bool :=
  match m !! k with
  | Some _ => true
  | None => false
  end.

(** The alias block of [setupHandlers]: the new name and the legacy name of
    each line, in order. *)
Definition aliases : list (string * string) :=
  [("agent-register", "agent/register");
   ("agent-status", "agent/status");
   ("task-create", "task/create");
   ("task-get", "task/get");
   ("task-request", "task/request");
   ("task-update", "task/update");
   ("relationship-add", "relationship/add");
   ("context-update", "context/update");
   ("message-send", "message/send")].

(** [setupHandlers()], on the empty map of the constructor. *)
Definition setupHandlers (m : HandlerMap) : HandlerMap :=
  let m := Map_set "initialize" (Some h_initialize) m in
  let m := Map_set "initialized" (Some h_initialized) m in
  let m := Map_set "agent/register" (Some h_agent_register) m in
  let m := Map_set "task/create" (Some h_task_create) m in
  let m := Map_set "task/request" (Some h_task_request) m in
  let m := Map_set "task/update" (Some h_task_update) m in
  let m := Map_set "relationship/add" (Some h_relationship_add) m in
  let m := Map_set "agent/status" (Some h_agent_status) m in
  let m := Map_set "context/update" (Some h_context_update) m in
  let m := Map_set "message/send" (Some h_message_send) m in
  let m := Map_set "task/get" (Some h_task_get) m in
  let m := Map_set "tools/list" (Some h_tools_list) m in
  fold_left (fun m names => Map_set (fst names) (Map_get (snd names) m) m)
            aliases m.

(** [this.messageHandlers] of a constructed server. *)
Definition messageHandlers : HandlerMap := setupHandlers ∅.


(** The outcome of [handleMessage] as far as method resolution goes, for
    a request whose [method] is the string [method]: the error of an unknown
    method, or the handler that is invoked. *)
Definition resolve (method : string) : Res Handler :=
  if negb (JS.truthy method) || negb (Map_has method messageHandlers)
  then Throw (template ["Method not found: "; method])
  else
    match Map_get method messageHandlers with
    | Some h => Ok h
    | None => Throw "handler is not a function"
    end.

(** Method resolution for a request: [request.method] is a string, or the
    request has none, and the template prints [undefined]. *)
Definition resolve_request (method : option string) : Res Handler :=
  match method with
  | Some method => resolve method
  | None => Throw (template ["Method not found: "; "undefined"])
  end.

End MCPAgentServer.


(** ** MCPProxy (src/mcp-proxy.js) *)

Module MCPProxy.

(** The parameters of a request: absent, or an object of which the proxy
    reads [name] and [arguments] (their JSON text; [arguments] is [None]
    when falsy); [raw] is the JSON text of the whole object. *)
Record Params : Type := mkParams {
  name : string;
  arguments : option string;
  raw : string
}.

(** A parsed request; [id] is the empty string when absent or falsy. *)
Record Request : Type := mkRequest {
  id : string;
  method : string;
  params : option Params
}.

(** What the proxy answers to a request it serves itself. *)
Inductive LocalResult : Type :=
| InitializeResult
| ToolsList (tools : list string)
| ResourcesList
| PromptsList.

(** A line written to standard output. *)
Inductive Output : Type :=
| Result (id : string) (result : LocalResult)
| ToolCallResult (id : string) (text : string)
| ForwardedResult (id : string) (result : string)
| Error (id : option string) (code : Z) (message : string).

(** A call of [this.client.request(method, params)]. *)
Record Forwarded : Type := mkForwarded {
  server_method : string;
  server_params : option string
}.

(** The state of the proxy and what it has done: the flag
    [this.initialized], the lines written, and the requests sent to the
    shared server. *)
Record State : Type := mkState {
  initialized : bool;
  stdout : list Output;
  requests : list Forwarded
}.

(** The tools of the locally answered [tools/list]. *)
Definition tools : list string :=
  ["agent-register"; "agent-status"; "task-create"; "task-request";
   "task-update"; "relationship-add"; "context-update"; "message-send"].

(** [methodMap[toolName] || toolName], for a tool name that is not the name
    of a property of [Object.prototype]. *)
Definition methodMap (toolName : string) : string :=
  if String.eqb toolName "agent-register" then "agent/register"
  else if String.eqb toolName "agent-status" then "agent/status"
  else if String.eqb toolName "task-create" then "task/create"
  else if String.eqb toolName "task-request" then "task/request"
  else if String.eqb toolName "task-update" then "task/update"
  else if String.eqb toolName "relationship-add" then "relationship/add"
  else if String.eqb toolName "context-update" then "context/update"
  else if String.eqb toolName "message-send" then "message/send"
  else toolName.

Definition allowedBeforeInit : list string :=
  ["initialize"; "initialized"; "ping"].

Definition write (o : Output) : M State unit :=
  modify (fun s => mkState (initialized s) (stdout s ++ [o]) (requests s)).

Section WithServer.

(** The shared server behind the client: what [this.client.request]
    resolves to, or the message of the error it rejects with. *)
Variable server : string -> option string -> Res string.

(** [await this.client.request(method, params)]. *)
Definition client_request (method : string) (params : option string)
  : M State string :=
  fun s =>
    (server method params,
     mkState (initialized s) (stdout s)
       (requests s ++ [mkForwarded method params])).

(** The [try] block of [handleStdinMessage], for a message that parses. *)
Definition handle (request : Request) : M State unit :=
  if String.eqb (method request) "initialize"
  then write (Result (id request) InitializeResult)
  else if String.eqb (method request) "initialized"
  then modify (fun s => mkState true (stdout s) (requests s))
  else if String.eqb (method request) "tools/list"
  then write (Result (id request) (ToolsList tools))
  else if String.eqb (method request) "resources/list"
  then write (Result (id request) ResourcesList)
  else if String.eqb (method request) "prompts/list"
  then write (Result (id request) PromptsList)
  else if String.eqb (method request) "tools/call"
  then
    match params request with
    | None => throw "Cannot read properties of undefined (reading 'name')"
    | Some p =>
        let toolName := name p in
        let toolArgs :=
          match arguments p with Some a => a | None => "{}" end in
        let serverMethod := methodMap toolName in
        let* result := client_request serverMethod (Some toolArgs) in
        write (ToolCallResult (id request) result)
    end
  else
    let* s := get in
    if negb (initialized s)
       && negb (JS.includes allowedBeforeInit (method request))
    then throw "MCP not initialized"
    else
      let* result :=
        client_request (method request) (option_map raw (params request)) in
      write (ForwardedResult (id request) result).

(** [handleStdinMessage(message)]; the message is [None] when
    [JSON.parse] throws. *)
Definition handleStdinMessage (message : option Request) : M State unit :=
  try_catch
    match message with
    | Some request => handle request
    | None => throw "Unexpected token in JSON"
    end
    (fun error =>
       write (Error
                match message with
                | Some request =>
                    if JS.truthy (id request) then Some (id request)
                    else None
                | None => None
                end
                (-32603) error)).

End WithServer.

End MCPProxy.

(** ** Message directories *)

(** The content of the file [name] of a message directory. *)
Definition mail_lookup (name : string) (box : Mailbox)
  : option (option Message.t) :=
  option_map snd (find (fun e => String.eqb (fst e) name) box).

(** The directory without the file [name]. *)
Definition mail_remove (name : string) (box : Mailbox) : Mailbox :=
  List.filter (fun e => negb (String.eqb (fst e) name)) box.

(** The directory after [name] has been written, or renamed onto.  Where
    [fs.readdir] lists a file that was just written is the choice of the
    file system; it is listed last here, and what is stated of a directory
    after a write is stated up to the order of its listing. *)
Definition mail_put (name : string) (content : option Message.t)
    (box : Mailbox) : Mailbox :=
  mail_remove name box ++ [(name, content)].

(** ** CommunicationProtocol (src/communication/CommunicationProtocol.js) *)

Module CommunicationProtocol.

(** The seven bound methods of the object built by
    [setupDefaultMessageHandlers]. *)
Inductive MessageHandler : Type :=
| handleTaskRequest | handleTaskResponse | handleStatusUpdate
| handleDependencyNotification | handleIntegrationTest
| handleCompletionNotification | handleContextSync.

(** The own properties of the object [handlers] built by
    [setupDefaultMessageHandlers]. *)
Definition handler_for (type : string) : option MessageHandler :=
  if String.eqb type "TASK_REQUEST" then Some handleTaskRequest
  else if String.eqb type "TASK_RESPONSE" then Some handleTaskResponse
  else if String.eqb type "STATUS_UPDATE" then Some handleStatusUpdate
  else if String.eqb type "DEPENDENCY_NOTIFICATION"
  then Some handleDependencyNotification
  else if String.eqb type "INTEGRATION_TEST" then Some handleIntegrationTest
  else if String.eqb type "COMPLETION_NOTIFICATION"
  then Some handleCompletionNotification
  else if String.eqb type "CONTEXT_SYNC" then Some handleContextSync
  else None.

(** [map.set(key, value)] on the keys of a [Map], which keeps the place of
    a key that is present. *)
Definition Map_set_key (key : string) (keys : list string) : list string :=
  if JS.includes keys key then keys else keys ++ [key].

(** [map.delete(key)] on the keys of a [Map]. *)
Definition Map_delete_key (key : string) (keys : list string) : list string :=
  List.filter (fun k => negb (String.eqb k key)) keys.

(** [registerAgent(agent)]. *)
Definition registerAgent (agent : string) : M World unit :=
  modify (fun w =>
            set_protocol (Map_set_key agent (registeredAgents w))
                         (Map_set_key agent (messageHandlers w)) w).

(** [unregisterAgent(agent)]. *)
Definition unregisterAgent (agent : string) : M World unit :=
  modify (fun w =>
            set_protocol (Map_delete_key agent (registeredAgents w))
                         (Map_delete_key agent (messageHandlers w)) w).

(** The name of the file of a message. *)
Definition file_name (messageId : string) : string :=
  String.append messageId ".json".

(** The path of a file of the incoming directory of an agent, relative to
    the base path. *)
Definition incoming_path (agent name : string) : string :=
  String.append agent (String.append "/tasks/requests/incoming/" name).

(** [sendMessage(fromAgent, toAgent, message)]. *)
Definition sendMessage (fromAgent toAgent : string) (message : Message.t)
  : M World unit :=
  Agent.write_dir fromAgent
    (fun d => Agent.with_mail (incoming d) (processed d)
                (mail_put (file_name (Message.id message)) (Some message)
                          (outgoing d)) d) ;;
  Agent.write_dir toAgent
    (fun d => Agent.with_mail
                (mail_put (file_name (Message.id message)) (Some message)
                          (incoming d))
                (processed d) (outgoing d) d).

(** [sendTaskRequest(fromAgent, toAgent, task)]. *)
Definition sendTaskRequest (fromAgent toAgent : string) (task : Task.t)
  : M World unit :=
  let* id := uuidv4 in
  let* now := Date_now in
  sendMessage fromAgent toAgent
    (Message.mk id "TASK_REQUEST" now fromAgent toAgent (Task.id task)
       (Some task) "" "" "" "" "").

(** [sendTaskResponse(fromAgent, toAgent, responseTask, originalTaskId)]. *)
Definition sendTaskResponse (fromAgent toAgent : string)
    (responseTask : Task.t) (originalTaskId : string) : M World unit :=
  let* id := uuidv4 in
  let* now := Date_now in
  sendMessage fromAgent toAgent
    (Message.mk id "TASK_RESPONSE" now fromAgent toAgent ""
       None originalTaskId (Task.id responseTask) "" "" "").

(** [sendStatusUpdate(fromAgent, toAgent, taskId, status, details)]. *)
Definition sendStatusUpdate (fromAgent toAgent taskId status details : string)
  : M World unit :=
  let* id := uuidv4 in
  let* now := Date_now in
  sendMessage fromAgent toAgent
    (Message.mk id "STATUS_UPDATE" now fromAgent toAgent taskId
       None "" "" status details "").

(** The options of [new Task(undefined)]: no property at all. *)
Definition no_options : Task.t :=
  Task.mk "" "" "" "" "" "" "" "" "" "" None None [] [] Task.empty_metadata.

(** The seven handlers; the progress line each of them prints last is not
    recorded. *)
Definition run_handler (h : MessageHandler) (agent : string)
    (message : Message.t) : M World unit :=
  let from := Message.from_agent_id message in
  match h with
  | handleTaskRequest =>
      let* task :=
        Task_fromJSON match Message.task_data message with
                      | Some data => data
                      | None => no_options
                      end in
      TaskQueue.addTask agent task ;;
      Agent.appendToContext agent
        (MCPAgentServer.template
           ["Received task request: "; Task.title task; " from "; from])
  | handleTaskResponse =>
      Agent.appendToContext agent
        (MCPAgentServer.template
           ["Received task response for task ";
            Message.original_task_id message; " from "; from])
  | handleStatusUpdate =>
      Agent.appendToContext agent
        (MCPAgentServer.template
           ["Status update for task "; Message.task_id message; ": ";
            Message.status message; " from "; from])
  | handleDependencyNotification =>
      Agent.appendToContext agent
        (MCPAgentServer.template
           ["Dependency notification from "; from; ": ";
            Message.details message])
  | handleIntegrationTest =>
      Agent.appendToContext agent
        (MCPAgentServer.template
           ["Integration test request from "; from; ": ";
            Message.details message])
  | handleCompletionNotification =>
      Agent.appendToContext agent
        (MCPAgentServer.template
           ["Task completion notification from "; from; ": ";
            Message.details message])
  | handleContextSync =>
      Agent.appendToContext agent
        (MCPAgentServer.template
           ["Context sync from "; from; ": "; Message.details message])
  end.

(** The names of the properties of [Object.prototype], which every object
    literal inherits. *)
Definition Object_prototype : list string :=
  ["constructor"; "__defineGetter__"; "__defineSetter__"; "hasOwnProperty";
   "__lookupGetter__"; "__lookupSetter__"; "isPrototypeOf";
   "propertyIsEnumerable"; "toString"; "valueOf"; "__proto__";
   "toLocaleString"].

(** What [handlers[message.type]] yields when it is truthy: one of the seven
    own properties, or a property inherited from [Object.prototype]. *)
Inductive Property : Type :=
| OwnHandler (h : MessageHandler)
| Inherited (name : string).

(** [handlers[message.type]]; [None] is [undefined]. *)
Definition property_for (type : string) : option Property :=
  match handler_for type with
  | Some h => Some (OwnHandler h)
  | None =>
      if JS.includes Object_prototype type then Some (Inherited type)
      else None
  end.

(** [handler(agent, message)] for an inherited property, called without a
    receiver: [Object] and [Object.prototype.toString] return; the other
    functions convert the receiver to an object, and [__proto__] is no
    function, which is a [TypeError] in both cases. *)
Definition call_inherited (name : string) : M World unit :=
  if String.eqb name "constructor" || String.eqb name "toString"
  then ret tt
  else throw "TypeError".

(** [await handler(agent, message)]. *)
Definition call (handler : Property) (agent : string) (message : Message.t)
  : M World unit :=
  match handler with
  | OwnHandler h => run_handler h agent message
  | Inherited name => call_inherited name
  end.

(** [handleMessage(agent, message)]. *)
Definition handleMessage (agent : string) (message : Message.t)
  : M World unit :=
  let* w := get in
  if negb (JS.includes (messageHandlers w) agent)
  then log (NoMessageHandlers agent)
  else
    match property_for (Message.type message) with
    | None => log (NoHandlerForType (Message.type message) agent)
    | Some handler =>
        try_catch
          (call handler agent message ;;
           log (MessageProcessed (Message.id message) agent))
          (fun _ => log (ErrorHandlingMessage (Message.id message) agent))
    end.

(** [fs.rename(messagePath, processedPath)], after the [fs.mkdir] of the
    processed directory. *)
Definition rename_to_processed (agent name : string) : M World unit :=
  fun w =>
    match fs w !! agent with
    | Some d =>
        match mail_lookup name (incoming d) with
        | Some content =>
            if rename_fails w (incoming_path agent name)
            then (Throw "EPERM: operation not permitted", w)
            else
              Agent.write_dir agent
                (Agent.with_mail (mail_remove name (incoming d))
                   (mail_put name content (processed d)) (outgoing d)) w
        | None => (Throw "ENOENT: no such file or directory", w)
        end
    | None => (Throw "ENOENT: no such file or directory", w)
    end.

(** [fs.unlink(messagePath)]. *)
Definition unlink (agent name : string) : M World unit :=
  fun w =>
    match fs w !! agent with
    | Some d =>
        match mail_lookup name (incoming d) with
        | Some _ =>
            if unlink_fails w (incoming_path agent name)
            then (Throw "EPERM: operation not permitted", w)
            else
              Agent.write_dir agent
                (Agent.with_mail (mail_remove name (incoming d))
                   (processed d) (outgoing d)) w
        | None => (Throw "ENOENT: no such file or directory", w)
        end
    | None => (Throw "ENOENT: no such file or directory", w)
    end.

(** [archiveMessage(agent, messagePath, message)]. *)
Definition archiveMessage (agent name : string) (message : Message.t)
  : M World unit :=
  try_catch
    (rename_to_processed agent name)
    (fun _ =>
       log (ErrorArchiving (Message.id message)) ;;
       try_catch
         (unlink agent name)
         (fun _ => log (ErrorDeleting (incoming_path agent name)))).

(** [fs.readdir(agent.incomingRequestsPath)]: the names of the message
    files (the sub-directory [processed], whose name does not end in
    [.json], is not listed here). *)
Definition readdir (agent : string) : M World (list string) :=
  fun w =>
    match fs w !! agent with
    | Some d => (Ok (map fst (incoming d)), w)
    | None => (Throw "ENOENT: no such file or directory", w)
    end.

(** [JSON.parse(await fs.readFile(messagePath, 'utf8'))]. *)
Definition readMessage (agent name : string) : M World Message.t :=
  fun w =>
    match fs w !! agent with
    | Some d =>
        match mail_lookup name (incoming d) with
        | Some (Some message) => (Ok message, w)
        | Some None => (Throw "Unexpected token in JSON", w)
        | None => (Throw "ENOENT: no such file or directory", w)
        end
    | None => (Throw "ENOENT: no such file or directory", w)
    end.

(** The body of the loop of [processIncomingMessages]. *)
Definition processMessageFile (agent messageFile : string) : M World unit :=
  try_catch
    (let* message := readMessage agent messageFile in
     handleMessage agent message ;;
     archiveMessage agent messageFile message)
    (fun _ => log (ErrorProcessingFile messageFile agent)).

(** [processIncomingMessages(agent)]. *)
Definition processIncomingMessages (agent : string) : M World unit :=
  try_catch
    (let* files := readdir agent in
     let messageFiles :=
       List.filter (fun file => JS.endsWith file ".json") files in
     forEach messageFiles (processMessageFile agent))
    (fun error =>
       if String.prefix "ENOENT" error
       then ret tt
       else log (ErrorReadingIncoming agent)).

(** [pollForMessages()]. *)
Definition pollForMessages : M World unit :=
  let* w := get in
  forEach (registeredAgents w)
    (fun agent =>
       try_catch (processIncomingMessages agent)
                 (fun _ => log (ErrorProcessingAgent agent))).

End CommunicationProtocol.
(** ** Reading the collections of an agent *)

(** The ids of the documents of a collection. *)
Definition ids (agent : string) (c : Collection) (w : World) : list string :=
  map Task.id (docs agent c w).

(** No collection file of the agent holds unparsable content. *)
Definition readable (agent : string) (w : World) : Prop :=
  forall c, read_collection agent c w <> Corrupt.

(** Every stored task document carries an id. *)
Definition ids_truthy (agent : string) (w : World) : Prop :=
  forall c, Forall (fun d => JS.truthy (Task.id d) = true) (docs agent c w).

(** ** activateTask *)


(** ** Fixtures for the concrete runs *)

Module Fixture.

Definition task (id status creator : string) (deps delivs : list string)
  : Task.t :=
  Task.mk id "implementation" "T1" "the first task" "medium" status
    "2024-01-01T00:00:00.000Z" "2024-01-01T00:00:00.000Z" "a" creator
    None None deps delivs Task.empty_metadata.

Definition dir (act pend comp : list Task.t) : AgentDir :=
  mkAgentDir (Content "# Agent a Context") (Content act) (Content pend)
    (Content comp) (Content Relationships.empty) Missing [] [] [].

Definition world (dirs : list (string * AgentDir)) : World :=
  mkWorld (list_to_map dirs) "2024-06-01T12:00:00.000Z"
    (fun n => String.append "uuid-" (String (ascii_of_nat (48 + n)) ""))
    0 (fun _ => false) (fun _ => false) ∅ [] [] [].

(** Agent [a] with task [t1] pending, depending on the completed [t0]. *)
Definition w_ready : World :=
  world [("a", dir [] [task "t1" "pending" "a" ["t0"] []]
                   [task "t0" "completed" "a" [] []])].

(** Agent [a] with task [t1] pending, depending on the missing [t9]. *)
Definition w_unmet : World :=
  world [("a", dir [] [task "t1" "pending" "a" ["t9"] []]
                   [task "t0" "completed" "a" [] []])].

End Fixture.

(** ** The effect of a write, and where a task is found *)

(** The world after a successful [fs.writeFile] of a collection file. *)
Definition put_collection (agent : string) (c : Collection)
    (tasks : list Task.t) (w : World) : World :=
  match fs w !! agent with
  | Some d => set_fs (<[agent := with_file c (Content tasks) d]> (fs w)) w
  | None => w
  end.

(** The place of the first document with id [taskId] in a collection. *)
Definition find_in (agent taskId : string) (c : Collection) (w : World)
  : option (nat * Task.t) :=
  JS.find_at (fun t => String.eqb (Task.id t) taskId) (docs agent c w).

(** The collection in which [updateTaskStatus] finds a task: the first of
    active, pending, completed that holds a document with that id. *)
Definition located (agent taskId : string) (w : World)
  : option (Collection * nat * Task.t) :=
  match find_in agent taskId active w with
  | Some (i, t) => Some (active, i, t)
  | None =>
      match find_in agent taskId pending w with
      | Some (i, t) => Some (pending, i, t)
      | None =>
          match find_in agent taskId completed w with
          | Some (i, t) => Some (completed, i, t)
          | None => None
          end
      end
  end.

(** The document that [updateTaskStatus] writes back for the document [t]. *)
Definition updated_task (now status : string) (deliverables : list string)
    (t : Task.t) : Task.t :=
  let t := Task.set_updated_at now (Task.set_status status t) in
  if Nat.ltb 0 (length deliverables)
  then Task.set_deliverables (Task.deliverables t ++ deliverables) t
  else t.

(** Whether [updateTaskStatus] moves the task found in [c]. *)
Definition moves_to_completed (status : string) (c : Collection) : bool :=
  String.eqb status "completed" && negb (collection_eqb c completed).

(** The world that [updateTaskStatus] leaves when it finds the task at
    index [i] of collection [c]. *)
Definition after_update (agent status : string) (deliverables : list string)
    (c : Collection) (i : nat) (t : Task.t) (w : World) : World :=
  let task := updated_task (clock w) status deliverables t in
  if moves_to_completed status c
  then put_collection agent completed
         (JS.push (docs agent completed w) task)
         (put_collection agent c (JS.splice1 i (docs agent c w)) w)
  else put_collection agent c (TaskQueue.mutated i task (docs agent c w)) w.

(** The third collection, given two distinct ones. *)
Definition other_than (c d : Collection) : Collection :=
  match c, d with
  | active, pending | pending, active => completed
  | active, completed | completed, active => pending
  | pending, completed | completed, pending => active
  | _, _ => c
  end.

(** The number of task documents an agent holds. *)
Definition task_count (agent : string) (w : World) : nat :=
  length (docs agent active w) + length (docs agent pending w)
  + length (docs agent completed w).

(** ** All the ids of an agent, and its mailboxes *)

Definition all_ids (agent : string) (w : World) : list string :=
  ids agent active w ++ ids agent pending w ++ ids agent completed w.

(** The message directories of an agent. *)
Definition mailboxes (agent : string) (w : World)
  : option (Mailbox * Mailbox * Mailbox) :=
  option_map (fun d => (incoming d, processed d, outgoing d)) (fs w !! agent).

(** The double quote of the next steps. *)
Definition quote : string := String "034"%char EmptyString.

(** The scenario of the specification: a task created by [x] and owned by
    [y], with deliverable [d1], completed by [y]. *)
Definition w_scenario : World :=
  Fixture.world
    [("y", Fixture.dir [Fixture.task "t1" "in_progress" "x" [] ["d1"]] [] [])].

(** ** The queue operations, run *)

(** The [Task] objects that [loadTasks] builds from a collection file. *)
Definition loaded (agent : string) (c : Collection) (w : World)
  : list Task.t :=
  map (Task.new "" (clock w)) (docs agent c w).

(** The task that [activateTask] returns for the pending document [doc]. *)
Definition activated (w : World) (doc : Task.t) : Task.t :=
  Task.updateStatus (clock w) "in_progress" (Task.new "" (clock w) doc).

(** The task that [completeTask] returns for the active document [doc]. *)
Definition completed_task (w : World) (deliverables : list string)
    (doc : Task.t) : Task.t :=
  fold_left (fun task deliverable =>
               Task.addDeliverable (clock w) deliverable task)
            deliverables
            (Task.updateStatus (clock w) "completed"
               (Task.new "" (clock w) doc)).

(** The task that [blockTask] returns for the active document [doc]. *)
Definition blocked_task (w : World) (reason : string) (doc : Task.t)
  : Task.t :=
  let task := Task.updateStatus (clock w) "blocked"
                (Task.new "" (clock w) doc) in
  if JS.truthy reason
  then Task.set_metadata
         (Task.set_blockReason (Some reason) (Task.metadata task)) task
  else task.

(** The task that [unblockTask] returns for the active document [doc]. *)
Definition unblocked_task (w : World) (doc : Task.t) : Task.t :=
  let task := Task.updateStatus (clock w) "in_progress"
                (Task.new "" (clock w) doc) in
  Task.set_metadata (Task.set_blockReason None (Task.metadata task)) task.

(** ** Physical presence of a task in the collections *)

(** How many documents of collection [c] carry the id [t]. *)
Definition occurrences (agent : string) (c : Collection) (w : World)
    (t : string) : nat :=
  count_occ string_dec (ids agent c w) t.

(** In how many places of the three collection files a task with id [t] is
    physically present. *)
Definition holders (agent : string) (w : World) (t : string) : nat :=
  occurrences agent active w t + occurrences agent pending w t
  + occurrences agent completed w t.

(** What an operation does to the id lists of the three collections. *)
Inductive Movement : Type :=
| Stays
| Enqueued (t : string)
| Moved (src dst : Collection) (i : nat) (t : string).

Definition movement_holds (agent : string) (w w' : World) (mv : Movement)
  : Prop :=
  match mv with
  | Stays => forall c, ids agent c w' = ids agent c w
  | Enqueued t =>
      ids agent pending w' = ids agent pending w ++ [t] /\
      ids agent active w' = ids agent active w /\
      ids agent completed w' = ids agent completed w
  | Moved src dst i t =>
      src <> dst /\
      nth_error (ids agent src w) i = Some t /\
      ids agent src w' = JS.splice1 i (ids agent src w) /\
      ids agent dst w' = ids agent dst w ++ [t] /\
      ids agent (other_than src dst) w' = ids agent (other_than src dst) w
  end.

(** The invariant of a task queue: parsable files, documents with ids, and
    no id physically present twice. *)
Definition queue_inv (agent : string) (w : World) : Prop :=
  readable agent w /\ ids_truthy agent w /\
  forall t, holders agent w t <= 1.

(** The operations on the three collections of an agent: those of
    [TaskQueue] and the dispatcher's [task/update]. *)
Inductive QueueOp : Type :=
| AddTask (task : Task.t)
| ActivateTask (taskId : string)
| CompleteTask (taskId : string) (deliverables : list string)
| BlockTask (taskId reason : string)
| UnblockTask (taskId : string)
| TaskUpdate (taskId status : string) (deliverables : list string).

Definition run_op (agent : string) (op : QueueOp) : M World Task.t :=
  match op with
  | AddTask task => TaskQueue.addTask agent task
  | ActivateTask taskId => TaskQueue.activateTask agent taskId
  | CompleteTask taskId deliverables =>
      TaskQueue.completeTask agent taskId deliverables
  | BlockTask taskId reason => TaskQueue.blockTask agent taskId reason
  | UnblockTask taskId => TaskQueue.unblockTask agent taskId
  | TaskUpdate taskId status deliverables =>
      MCPAgentServer.updateTaskStatus agent taskId status deliverables
  end.


(** ** What the operations do, and the claims on them *)







(** ** Status of the stored tasks *)

(** Some document of the agent with id [t] has status [s]. *)
Definition has_status (agent : string) (w : World) (t s : string) : Prop :=
  exists c d, In d (docs agent c w) /\ Task.id d = t /\ Task.status d = s.

(** The statuses that the documents of a collection are meant to have. *)
Definition collection_status (c : Collection) (s : string) : Prop :=
  match c with
  | pending => s = "pending"
  | active => s = "in_progress" \/ s = "blocked"
  | completed => s = "completed"
  end.

Definition status_consistent (agent : string) (w : World) : Prop :=
  forall c d, In d (docs agent c w) -> collection_status c (Task.status d).

(** The transitions named by the specification. *)
Inductive allowed_transition : string -> string -> Prop :=
| pending_in_progress : allowed_transition "pending" "in_progress"
| in_progress_completed : allowed_transition "in_progress" "completed"
| in_progress_blocked : allowed_transition "in_progress" "blocked"
| blocked_in_progress : allowed_transition "blocked" "in_progress".

(** The transitions that the task queue performs: the above, and the
    completion of a blocked task. *)
Inductive queue_transition : string -> string -> Prop :=
| allowed s s' : allowed_transition s s' -> queue_transition s s'
| blocked_completed : queue_transition "blocked" "completed".

Definition all_docs (agent : string) (w : World) : list Task.t :=
  docs agent active w ++ docs agent pending w ++ docs agent completed w.

(** ** Where the documents of the new world come from *)

(** What an operation of the task queue does to the task it operates on:
    from which collection to which, and the status it sets. *)
Definition effect (op : QueueOp) (c c' : Collection) (s' : string) : Prop :=
  match op with
  | ActivateTask _ => c = pending /\ c' = active /\ s' = "in_progress"
  | CompleteTask _ _ => c = active /\ c' = completed /\ s' = "completed"
  | BlockTask _ _ => c = active /\ c' = active /\ s' = "blocked"
  | UnblockTask _ => c = active /\ c' = active /\ s' = "in_progress"
  | _ => False
  end.

(** The operations of [TaskQueue] proper. *)
Definition of_task_queue (op : QueueOp) : Prop :=
  match op with
  | TaskUpdate _ _ _ => False
  | _ => True
  end.

(** A document of the new world is an old document of the same collection
    with its id and status ([kept]), or the task operated on, or the task
    enqueued. *)
Definition kept (agent : string) (w : World) (c' : Collection) (d' : Task.t)
  : Prop :=
  exists d, In d (docs agent c' w) /\ Task.id d' = Task.id d /\
            Task.status d' = Task.status d.

Definition operated (agent : string) (op : QueueOp) (w : World)
    (c' : Collection) (d' : Task.t) : Prop :=
  exists c d, In d (docs agent c w) /\ Task.id d' = Task.id d /\
              effect op c c' (Task.status d').

(** ** Status transitions *)

(** The claim that an operation changes statuses along the transitions of
    the specification only. *)
Definition transitions_allowed (agent : string) (op : QueueOp) (w : World)
  : Prop :=
  forall r w' t s s',
    run_op agent op w = (r, w') ->
    has_status agent w t s -> has_status agent w' t s' ->
    s = s' \/ allowed_transition s s'.

(** ** Tool names *)




Definition has_slash (s : string) : bool :=
  existsb (Ascii.eqb "/"%char) (list_ascii_of_string s).

(** The methods of the handshake and of discovery, which are not domain
    operations. *)
Definition special_methods : list string :=
  ["initialize"; "initialized"; "tools/list"].

(** The domain operations of the method table: its slash-separated keys,
    the special methods apart. *)
Definition domain_operations : list string :=
  List.filter (fun k => has_slash k && negb (JS.includes special_methods k))
    (map fst (map_to_list MCPAgentServer.messageHandlers)).




(** ** Registration *)

(** A file after [init_file]: created when absent, otherwise untouched. *)
Definition initialised {A : Type} (content : A) (f : File A) : File A :=
  match f with
  | Missing => Content content
  | _ => f
  end.

(** The configuration that [registerAgent] writes. *)
Definition config_after (agentId now : string) (capabilities : JsonObject)
    (isExisting : bool) (f : File McpConfig.t) : McpConfig.t :=
  match isExisting, f with
  | true, Content c =>
      McpConfig.mk (McpConfig.agentId c) (Some capabilities)
        (McpConfig.connectedAt c) (Some now)
        (McpConfig.messageTypes c) (McpConfig.rest c)
  | _, _ => MCPAgentServer.freshConfig agentId now capabilities
  end.

(** The directory of the agent after [registerAgent] has gone through. *)
Definition dir_after_register (agentId now : string)
    (capabilities : JsonObject) (isExisting : bool) (d : AgentDir)
  : AgentDir :=
  mkAgentDir
    (initialised (MCPAgentServer.defaultContext agentId now capabilities)
                 (context_md d))
    (initialised [] (active_json d))
    (initialised [] (pending_json d))
    (initialised [] (completed_json d))
    (initialised Relationships.empty (relationships_json d))
    (Content (config_after agentId now capabilities isExisting
                (mcp_config_json d)))
    (incoming d) (processed d) (outgoing d).

(** The entry of [connectedAgents] after [registerAgent] has gone
    through. *)
Definition info_after (agentId now : string) (capabilities : JsonObject)
    (existingAgent : option AgentInfo.t) : AgentInfo.t :=
  AgentInfo.mk agentId capabilities
    match existingAgent with
    | Some e => AgentInfo.connectedAt e
    | None => now
    end
    now
    match existingAgent with
    | Some e =>
        (if Nat.eqb (AgentInfo.registrationCount e) 0
         then 1 else AgentInfo.registrationCount e) + 1
    | None => 1
    end.

(** The world after [registerAgent] has gone through. *)
Definition world_after_register (agentId : string)
    (capabilities : JsonObject) (w : World) : World :=
  let existingAgent := connectedAgents w !! agentId in
  let isExisting :=
    match existingAgent with Some _ => true | None => false end in
  let d := match fs w !! agentId with Some d => d | None => empty_dir end in
  set_connectedAgents
    (<[agentId := info_after agentId (clock w) capabilities existingAgent]>
       (connectedAgents w))
    (set_fs (<[agentId := dir_after_register agentId (clock w) capabilities
                            isExisting d]> (fs w)) w).

(** The state of an agent that registration must not touch: every file of
    context, tasks and relationships that exists, and the mailboxes. *)
Definition state_kept (d d' : AgentDir) : Prop :=
  (context_md d <> Missing -> context_md d' = context_md d) /\
  (forall c, file_of c d <> Missing -> file_of c d' = file_of c d) /\
  (relationships_json d <> Missing ->
   relationships_json d' = relationships_json d) /\
  incoming d' = incoming d /\ processed d' = processed d /\
  outgoing d' = outgoing d.

(** The claim that the second of two registrations, whatever its
    [forceUpdate], adds one to the registration counter. *)
Definition second_registration_counts (agentId : string)
    (capabilities1 capabilities2 : JsonObject) (forceUpdate : bool)
    (w0 : World) : Prop :=
  let w1 := snd (MCPAgentServer.registerAgent agentId capabilities1 false w0) in
  let w2 := snd (MCPAgentServer.registerAgent agentId capabilities2
                   forceUpdate w1) in
  exists i1 i2,
    connectedAgents w1 !! agentId = Some i1 /\
    connectedAgents w2 !! agentId = Some i2 /\
    AgentInfo.registrationCount i2 = AgentInfo.registrationCount i1 + 1.

(** The world in which agent [a] has registered once. *)
Definition w_registered : World :=
  set_clock "2024-06-02T08:00:00.000Z"
    (snd (MCPAgentServer.registerAgent "a" [("feature1", "true")] false
            (Fixture.world []))).

(** ** Relationships *)

(** The entries of category [k] for the peer [peer] in the registry of
    [agent]. *)
Definition entries_for (agent : string) (k : Category) (peer : string)
    (w : World) : list Relationship.t :=
  List.filter (fun e => String.eqb (Relationship.agentId e) peer)
    (category k (MCPAgentServer.relationships_or_default agent w)).

(** The relationship type that the dispatcher expects for a category. *)
Definition type_name (k : Category) : string :=
  match k with
  | consumers => "consumer"
  | producers => "producer"
  | bidirectional => "bidirectional"
  | optional => "optional"
  end.

(** Agent [a], registered, without relationships. *)
Definition w_alone : World :=
  Fixture.world [("a", Fixture.dir [] [] [])].

(** ** The proxy before the handshake *)

(** The proxy at start: not initialised, nothing written, nothing sent. *)
Definition proxy_start : MCPProxy.State := MCPProxy.mkState false [] [].

(** The claim that a request is rejected: one error line is written and
    nothing is sent to the shared server. *)
Definition rejected (s s' : MCPProxy.State) : Prop :=
  MCPProxy.requests s' = MCPProxy.requests s /\
  exists id code message,
    MCPProxy.stdout s' = MCPProxy.stdout s ++ [MCPProxy.Error id code message].

(** The claim that before the handshake every method other than
    [initialize], [initialized] and [ping] is rejected. *)
Definition rejects_before_handshake
    (server : string -> option string -> Res string)
    (request : MCPProxy.Request) : Prop :=
  ~ In (MCPProxy.method request) MCPProxy.allowedBeforeInit ->
  rejected proxy_start
    (snd (MCPProxy.handleStdinMessage server (Some request) proxy_start)).

(** The methods that the proxy answers itself, before any gate. *)
Definition answered_locally : list string :=
  ["initialize"; "tools/list"; "resources/list"; "prompts/list"].

(** A shared server that answers every request with [ok]. *)
Definition echo_server (method : string) (params : option string)
  : Res string := Ok "ok".

(** ** The polling cycle *)

(** The message files of a directory: the entries whose name ends in
    [.json]. *)
Definition json_files (box : Mailbox) : Mailbox :=
  List.filter (fun e => JS.endsWith (fst e) ".json") box.

Definition incoming_of (agent : string) (w : World) : Mailbox :=
  match fs w !! agent with
  | Some d => incoming d
  | None => []
  end.

Definition processed_of (agent : string) (w : World) : Mailbox :=
  match fs w !! agent with
  | Some d => processed d
  | None => []
  end.

(** The calls of a handler recorded on the console: the agent and the id
    of the message, for each [Message ... processed] and each [Error
    handling message ...] line. *)
Definition dispatches (console : list Event) : list (string * string) :=
  flat_map (fun e =>
              match e with
              | MessageProcessed m a => [(a, m)]
              | ErrorHandlingMessage m a => [(a, m)]
              | _ => []
              end) console.

(** The id of the message held by a file. *)
Definition message_id (e : string * option Message.t) : string :=
  match snd e with
  | Some m => Message.id m
  | None => ""
  end.

(** An incoming directory as the protocol fills it: distinct file names,
    and in every message file a message of one of the seven types. *)
Definition well_formed_mail (box : Mailbox) : Prop :=
  List.NoDup (map fst box) /\
  forall name content,
    In (name, content) (json_files box) ->
    exists m, content = Some m /\
              CommunicationProtocol.handler_for (Message.type m) <> None.

(** Deleting a file succeeds when renaming it has failed. *)
Definition no_double_fault (w : World) : Prop :=
  forall path, rename_fails w path = true -> unlink_fails w path = false.

(** What a handler may change: the files of context and tasks of its
    agent, and the count of identifiers drawn; neither a mailbox, nor
    another agent, nor the console, nor the protocol. *)
Definition handler_frame (agent : string) (w w' : World) : Prop :=
  (forall b, mailboxes b w' = mailboxes b w) /\
  (forall b, b <> agent -> fs w' !! b = fs w !! b) /\
  console w' = console w /\
  rename_fails w' = rename_fails w /\
  unlink_fails w' = unlink_fails w /\
  registeredAgents w' = registeredAgents w /\
  messageHandlers w' = messageHandlers w.

(** Every run of [m] is related by [R]. *)
Definition keeps {A : Type} (R : World -> World -> Prop) (m : M World A)
  : Prop :=
  forall w r w', m w = (r, w') -> R w w'.

(** What the processing of one message file does. *)
Definition consumed (agent name : string) (content : option Message.t)
    (messageId : string) (w w' : World) : Prop :=
  incoming_of agent w' = mail_remove name (incoming_of agent w) /\
  processed_of agent w'
  = (if rename_fails w (CommunicationProtocol.incoming_path agent name)
     then processed_of agent w
     else mail_put name content (processed_of agent w)) /\
  (forall b, b <> agent -> fs w' !! b = fs w !! b) /\
  dispatches (console w') = dispatches (console w) ++ [(agent, messageId)] /\
  rename_fails w' = rename_fails w /\
  unlink_fails w' = unlink_fails w /\
  registeredAgents w' = registeredAgents w /\
  messageHandlers w' = messageHandlers w.

(** The id of the message that a lookup yields. *)
Definition id_of (o : option (option Message.t)) : string :=
  match o with
  | Some (Some m) => Message.id m
  | _ => ""
  end.

(** The handler invocations one poll tick owes: for each registered agent,
    in order, one per message file of its incoming directory. *)
Definition owed_dispatches (w : World) : list (string * string) :=
  flat_map (fun a => map (fun e => (a, message_id e))
                         (json_files (incoming_of a w)))
           (registeredAgents w).

(** The world after the handler of the type of [m] has been called once
    for [agent]: what the handler has done is kept, whether it returned or
    threw, and the console tells which. *)
Definition handled_once (agent : string) (m : Message.t) (w : World)
  : World :=
  match CommunicationProtocol.handler_for (Message.type m) with
  | Some h =>
      let run := CommunicationProtocol.run_handler h agent m w in
      set_console
        (console (snd run)
         ++ [match fst run with
             | Ok _ => MessageProcessed (Message.id m) agent
             | Throw _ => ErrorHandlingMessage (Message.id m) agent
             end])
        (snd run)
  | None => w
  end.

(** The world after a message file has been consumed: its message handled
    once, then the file archived. *)
Definition consumed_file (agent : string) (w : World)
    (e : string * option Message.t) : World :=
  match snd e with
  | Some m =>
      snd (CommunicationProtocol.archiveMessage agent (fst e) m
             (handled_once agent m w))
  | None => w
  end.

(** The world after the message files of an agent have been consumed, in
    the order of the listing. *)
Definition consumed_mail (w : World) (agent : string) : World :=
  fold_left (consumed_file agent) (json_files (incoming_of agent w)) w.

(** One tick, message by message: the registered agents in order, the
    message files of each in order, each handled once and archived. *)
Definition tick_by_handlers (w : World) : World :=
  fold_left consumed_mail (registeredAgents w) w.

(** The claim on a tick for any content of the incoming directories: it
    returns with no message file left in the incoming directory of a
    registered agent, each file having had its handler called once. *)
Definition tick_consumes_all (w : World) : Prop :=
  exists w',
    CommunicationProtocol.pollForMessages w = (Ok tt, w') /\
    (forall a, In a (registeredAgents w) ->
       json_files (incoming_of a w') = []) /\
    dispatches (console w') = dispatches (console w) ++ owed_dispatches w.

(** The fate of a message file of [w] in [w']: in the processed directory
    with its content, or, when the rename fails, deleted and the processed
    directory as it was under that name. *)
Definition archived_or_deleted (agent : string)
    (e : string * option Message.t) (w w' : World) : Prop :=
  mail_lookup (fst e) (incoming_of agent w') = None /\
  mail_lookup (fst e) (processed_of agent w')
  = if rename_fails w (CommunicationProtocol.incoming_path agent (fst e))
    then mail_lookup (fst e) (processed_of agent w)
    else Some (snd e).

(** Two registered agents with mail: [a] holds a status update and a task
    request whose task has no title, so that its handler throws; [b] holds a
    context sync whose rename to the processed directory fails. *)
Definition mail (id type : string) (task_data : option Task.t)
  : string * option Message.t :=
  (CommunicationProtocol.file_name id,
   Some (Message.mk id type "2024-06-01T12:00:00.000Z" "x" "a" "t1"
           task_data "" "" "completed" "{}" "")).

Definition untitled : Task.t :=
  Task.mk "t7" "implementation" "" "" "medium" "pending"
    "2024-01-01T00:00:00.000Z" "2024-01-01T00:00:00.000Z" "a" "x"
    None None [] [] Task.empty_metadata.

Definition w_mail : World :=
  mkWorld
    (list_to_map
       [("a", mkAgentDir (Content "# Agent a Context") (Content [])
                (Content []) (Content []) (Content Relationships.empty)
                Missing
                [mail "m1" "STATUS_UPDATE" None;
                 mail "m2" "TASK_REQUEST" (Some untitled)] [] []);
        ("b", mkAgentDir (Content "# Agent b Context") (Content [])
                (Content []) (Content []) (Content Relationships.empty)
                Missing
                [mail "m3" "CONTEXT_SYNC" None] [] [])])
    "2024-06-01T12:00:00.000Z"
    (fun n => String.append "uuid-" (String (ascii_of_nat (48 + n)) ""))
    0
    (fun path => String.eqb path "b/tasks/requests/incoming/m3.json")
    (fun _ => false) ∅ ["a"; "b"] ["a"; "b"] [].

(** ** The protocol's maps, and sending *)

Definition outgoing_of (agent : string) (w : World) : Mailbox :=
  match fs w !! agent with
  | Some d => outgoing d
  | None => []
  end.

(** The two maps of the protocol hold the same keys, each once. *)
Definition protocol_inv (w : World) : Prop :=
  List.NoDup (registeredAgents w) /\ List.NoDup (messageHandlers w) /\
  forall a, In a (registeredAgents w) <-> In a (messageHandlers w).

(** The message that [sendStatusUpdate] builds in [w]. *)
Definition status_update (fromAgent toAgent taskId status details : string)
    (w : World) : Message.t :=
  Message.mk (uuid_source w (draws w)) "STATUS_UPDATE" (clock w)
    fromAgent toAgent taskId None "" "" status details "".

(** An agent with one unparsable file and one message of a type for which
    there is no handler. *)
Definition w_stray : World :=
  mkWorld
    (list_to_map
       [("a", mkAgentDir (Content "# Agent a Context") (Content [])
                (Content []) (Content []) (Content Relationships.empty)
                Missing
                [("bad.json", None); mail "m9" "PING" None] [] [])])
    "2024-06-01T12:00:00.000Z"
    (fun n => String.append "uuid-" (String (ascii_of_nat (48 + n)) ""))
    0 (fun _ => false) (fun _ => false) ∅ ["a"] ["a"] [].

(** ** The proxy and the server *)

(** Whether a request is the [initialized] notification. *)
Definition is_initialized_notification (message : option MCPProxy.Request)
  : bool :=
  match message with
  | Some request => String.eqb (MCPProxy.method request) "initialized"
  | None => false
  end.

(** The methods that the proxy handles before its gate. *)
Definition handled_before_gate : list string :=
  ["initialize"; "initialized"; "tools/list"; "resources/list";
   "prompts/list"; "tools/call"].

(** The id of the error response to a request. *)
Definition error_id (request : MCPProxy.Request) : option string :=
  if JS.truthy (MCPProxy.id request) then Some (MCPProxy.id request)
  else None.


(** A shared server that rejects every request. *)
Definition failing_server (method : string) (params : option string)
  : Res string := Throw "connection closed".

(** The keys of the method table of the dispatcher. *)
Definition served_methods : list string :=
  map fst (map_to_list MCPAgentServer.messageHandlers).

(** The method table as [setupHandlers] fills it: the twelve methods and
    the nine aliases, each with the function object it is bound to. *)
Definition method_table : list (string * MCPAgentServer.Handler) :=
  [("initialize", MCPAgentServer.h_initialize);
   ("initialized", MCPAgentServer.h_initialized);
   ("agent/register", MCPAgentServer.h_agent_register);
   ("task/create", MCPAgentServer.h_task_create);
   ("task/request", MCPAgentServer.h_task_request);
   ("task/update", MCPAgentServer.h_task_update);
   ("relationship/add", MCPAgentServer.h_relationship_add);
   ("agent/status", MCPAgentServer.h_agent_status);
   ("context/update", MCPAgentServer.h_context_update);
   ("message/send", MCPAgentServer.h_message_send);
   ("task/get", MCPAgentServer.h_task_get);
   ("tools/list", MCPAgentServer.h_tools_list);
   ("agent-register", MCPAgentServer.h_agent_register);
   ("agent-status", MCPAgentServer.h_agent_status);
   ("task-create", MCPAgentServer.h_task_create);
   ("task-get", MCPAgentServer.h_task_get);
   ("task-request", MCPAgentServer.h_task_request);
   ("task-update", MCPAgentServer.h_task_update);
   ("relationship-add", MCPAgentServer.h_relationship_add);
   ("context-update", MCPAgentServer.h_context_update);
   ("message-send", MCPAgentServer.h_message_send)].

(** Whether [method] is bound to [h] in a table. *)
Definition bound_in (table : list (string * MCPAgentServer.Handler))
    (method : string) (h : MCPAgentServer.Handler) : bool :=
  existsb (fun p => String.eqb (fst p) method && bool_decide (snd p = h))
          table.

(** Method resolution agrees with the table on a method. *)
Definition resolves_as_bound (method : string) : bool :=
  match MCPAgentServer.resolve method with
  | Ok h => bound_in method_table method h
  | Throw _ => false
  end.

(** The console line for a message whose type is not one of the seven own
    properties of [handlers]: the missing handler is reported, unless the
    type names a property of [Object.prototype], which is then called and
    reported as a handler that returned ([constructor], [toString]) or
    threw. *)
Definition unhandled_line (agent : string) (message : Message.t) : Event :=
  let type := Message.type message in
  if JS.includes CommunicationProtocol.Object_prototype type
  then
    if JS.includes ["constructor"; "toString"] type
    then MessageProcessed (Message.id message) agent
    else ErrorHandlingMessage (Message.id message) agent
  else NoHandlerForType type agent.

Section MonadFacts.

Context {S A B : Type}.

Lemma bind_ok (m : M S A) (k : A -> M S B) s a s' :
  m s = (Ok a, s') -> bind m k s = k a s'.
Proof. intros H. unfold bind. now rewrite H. Qed.

Lemma bind_throw (m : M S A) (k : A -> M S B) s e s' :
  m s = (Throw e, s') -> bind m k s = (Throw e, s').
Proof. intros H. unfold bind. now rewrite H. Qed.

End MonadFacts.

Section JSFacts.

Context {A : Type}.
Implicit Types (p : A -> bool) (l : list A).

Lemma find_at_Some p l i x :
  JS.find_at p l = Some (i, x) ->
  nth_error l i = Some x /\ p x = true /\ find p l = Some x /\
  JS.findIndex p l = Some i.
Proof.
  revert i x. induction l as [|y r IH]; intros i x; simpl; [discriminate|].
  destruct (p y) eqn:Hy.
  - intros [= <- <-]. auto.
  - destruct (JS.find_at p r) as [[j z]|] eqn:Hr; simpl; [|discriminate].
    intros [= <- <-]. destruct (IH j z eq_refl) as (H1 & H2 & H3 & H4).
    rewrite H4. auto.
Qed.


Lemma find_find_at p l x :
  find p l = Some x -> exists i, JS.find_at p l = Some (i, x).
Proof.
  induction l as [|y r IH]; simpl; [discriminate|].
  destruct (p y).
  - intros [= <-]. eauto.
  - intros H. destruct (IH H) as [i Hi]. rewrite Hi. simpl. eauto.
Qed.

Lemma splice1_length i l x :
  nth_error l i = Some x -> S (length (JS.splice1 i l)) = length l.
Proof.
  revert i. induction l as [|y r IH]; intros [|i]; simpl; try discriminate.
  - intros _. unfold JS.splice1. simpl. now rewrite drop_0.
  - intros H. unfold JS.splice1 in *. simpl. f_equal. now apply IH.
Qed.

Lemma splice1_perm i l x :
  nth_error l i = Some x -> Permutation l (x :: JS.splice1 i l).
Proof.
  revert i. induction l as [|y r IH]; intros [|i]; simpl; try discriminate.
  - intros [= ->]. unfold JS.splice1. simpl. now rewrite drop_0.
  - intros H. unfold JS.splice1 in *. simpl.
    rewrite (IH _ H) at 1. apply perm_swap.
Qed.

End JSFacts.

Lemma includes_In l x : JS.includes l x = true <-> In x l.
Proof.
  unfold JS.includes. rewrite existsb_exists. split.
  - intros (y & Hy & Heq). apply String.eqb_eq in Heq. now subst.
  - intros H. exists x. split; [assumption|apply String.eqb_refl].
Qed.


(** ** Facts about the disk *)

Lemma read_write_same agent c tasks w u w' :
  write_collection agent c tasks w = (Ok u, w') ->
  read_collection agent c w' = Content tasks.
Proof.
  unfold write_collection, read_collection.
  destruct (fs w !! agent) as [d|] eqn:Hd; [|discriminate].
  intros [= _ <-]. simpl. rewrite lookup_insert_eq. now destruct c.
Qed.


Lemma read_write_other_agent agent agent' c c' tasks w u w' :
  write_collection agent c tasks w = (Ok u, w') ->
  agent' <> agent ->
  read_collection agent' c' w' = read_collection agent' c' w.
Proof.
  unfold write_collection, read_collection.
  destruct (fs w !! agent) as [d|] eqn:Hd; [|discriminate].
  intros [= _ <-] Hne. simpl. now rewrite lookup_insert_ne.
Qed.



Lemma docs_Content agent c w l :
  read_collection agent c w = Content l -> docs agent c w = l.
Proof. unfold docs. now intros ->. Qed.

(** ** Loading task documents *)

Lemma Task_new_id uuid now d :
  JS.truthy (Task.id d) = true -> Task.id (Task.new uuid now d) = Task.id d.
Proof. intros H. simpl. unfold JS.or_else. now rewrite H. Qed.

Lemma Task_new_dependencies uuid now d :
  Task.dependencies (Task.new uuid now d) = Task.dependencies d.
Proof. reflexivity. Qed.

Lemma Task_fromJSON_truthy d w :
  JS.truthy (Task.id d) = true ->
  Task_fromJSON d w = (Ok (Task.new "" (clock w) d), w).
Proof. intros H. unfold Task_fromJSON. now rewrite H. Qed.

Lemma mapM_fromJSON_truthy l w :
  Forall (fun d => JS.truthy (Task.id d) = true) l ->
  mapM Task_fromJSON l w = (Ok (map (Task.new "" (clock w)) l), w).
Proof.
  induction 1 as [|d r Hd Hr IH]; [reflexivity|].
  simpl. rewrite (bind_ok _ _ _ _ _ (Task_fromJSON_truthy d w Hd)).
  now rewrite (bind_ok _ _ _ _ _ IH).
Qed.

(** On a readable collection whose documents carry ids, [loadTasks] returns
    the constructor's image of the documents and changes nothing. *)
Lemma loadTasks_ok agent c w :
  read_collection agent c w <> Corrupt ->
  Forall (fun d => JS.truthy (Task.id d) = true) (docs agent c w) ->
  TaskQueue.loadTasks agent c w =
    (Ok (map (Task.new "" (clock w)) (docs agent c w)), w).
Proof.
  unfold TaskQueue.loadTasks, docs.
  destruct (read_collection agent c w) as [| |l]; intros Hr Hl.
  - reflexivity.
  - congruence.
  - now apply mapM_fromJSON_truthy.
Qed.

Lemma map_new_ids now l :
  Forall (fun d => JS.truthy (Task.id d) = true) l ->
  map Task.id (map (Task.new "" now) l) = map Task.id l.
Proof.
  induction 1 as [|d r Hd Hr IH]; [reflexivity|].
  cbn [map]. rewrite IH. rewrite Task_new_id by assumption. reflexivity.
Qed.

Lemma find_at_new now taskId l :
  Forall (fun d => JS.truthy (Task.id d) = true) l ->
  JS.find_at (fun task => String.eqb (Task.id task) taskId)
             (map (Task.new "" now) l) =
  option_map (fun ix => (fst ix, Task.new "" now (snd ix)))
    (JS.find_at (fun task => String.eqb (Task.id task) taskId) l).
Proof.
  induction 1 as [|d r Hd Hr IH]; [reflexivity|].
  cbn [map JS.find_at]. rewrite Task_new_id by assumption.
  destruct (String.eqb (Task.id d) taskId); [reflexivity|].
  rewrite IH.
  now destruct (JS.find_at _ r) as [[j z]|].
Qed.


Ltac solve_readable :=
  let c := fresh "c" in
  intros c; destruct c; vm_compute; discriminate.

Ltac solve_ids_truthy :=
  let c := fresh "c" in
  intros c; destruct c; vm_compute; repeat constructor.

(** The two outcomes on concrete queues. *)
Example activateTask_ready :
  exists task w',
    TaskQueue.activateTask "a" "t1" Fixture.w_ready = (Ok task, w') /\
    ids "a" pending w' = [] /\ ids "a" active w' = ["t1"] /\
    Task.status task = "in_progress".
Proof. vm_compute. eexists _, _. repeat split. Qed.

Example activateTask_unmet :
  TaskQueue.activateTask "a" "t1" Fixture.w_unmet
  = (Throw "Task t1 dependencies not met", Fixture.w_unmet).
Proof. reflexivity. Qed.

Lemma write_collection_put agent c tasks w :
  is_Some (fs w !! agent) ->
  write_collection agent c tasks w = (Ok tt, put_collection agent c tasks w).
Proof.
  intros [d Hd]. unfold write_collection, put_collection. now rewrite Hd.
Qed.

Lemma read_Content_dir agent c w l :
  read_collection agent c w = Content l -> is_Some (fs w !! agent).
Proof.
  unfold read_collection. destruct (fs w !! agent); [eauto|discriminate].
Qed.

Lemma put_dir agent c tasks w :
  is_Some (fs w !! agent) ->
  is_Some (fs (put_collection agent c tasks w) !! agent).
Proof.
  intros [d Hd]. unfold put_collection. rewrite Hd. simpl.
  rewrite lookup_insert_eq. eauto.
Qed.

Lemma read_put_same agent c tasks w :
  is_Some (fs w !! agent) ->
  read_collection agent c (put_collection agent c tasks w) = Content tasks.
Proof.
  intros H. eapply read_write_same. now apply write_collection_put.
Qed.

Lemma read_put_other agent c c' tasks w :
  c' <> c ->
  read_collection agent c' (put_collection agent c tasks w)
  = read_collection agent c' w.
Proof.
  intros Hne. unfold put_collection.
  destruct (fs w !! agent) as [d|] eqn:Hd; [|reflexivity].
  unfold read_collection. simpl. rewrite lookup_insert_eq, Hd.
  destruct c, c'; try reflexivity; congruence.
Qed.

Lemma read_put_other_agent agent agent' c c' tasks w :
  agent' <> agent ->
  read_collection agent' c' (put_collection agent c tasks w)
  = read_collection agent' c' w.
Proof.
  intros Hne. unfold put_collection.
  destruct (fs w !! agent) as [d|] eqn:Hd; [|reflexivity].
  unfold read_collection. simpl. now rewrite lookup_insert_ne.
Qed.

Lemma docs_put_same agent c tasks w :
  is_Some (fs w !! agent) ->
  docs agent c (put_collection agent c tasks w) = tasks.
Proof. intros H. unfold docs. now rewrite read_put_same. Qed.

Lemma docs_put_other agent c c' tasks w :
  c' <> c ->
  docs agent c' (put_collection agent c tasks w) = docs agent c' w.
Proof. intros H. unfold docs. now rewrite read_put_other. Qed.

Lemma put_clock agent c tasks w :
  clock (put_collection agent c tasks w) = clock w.
Proof. unfold put_collection. now destruct (fs w !! agent). Qed.

Lemma docs_find_dir {A : Type} agent c w (p : Task.t -> bool) (r : A)
    (f : list Task.t -> option A) :
  f [] = None -> f (docs agent c w) = Some r -> is_Some (fs w !! agent).
Proof.
  unfold docs. intros Hnil.
  destruct (read_collection agent c w) eqn:Hr; try congruence.
  intros _. eapply read_Content_dir; eauto.
Qed.

Lemma find_in_dir agent taskId c w r :
  find_in agent taskId c w = Some r -> is_Some (fs w !! agent).
Proof.
  unfold find_in, docs.
  destruct (read_collection agent c w) eqn:Hr; try discriminate.
  intros _. eapply read_Content_dir; eauto.
Qed.

Lemma updateTaskStatus_in_found agent taskId status deliverables c w i t :
  find_in agent taskId c w = Some (i, t) ->
  try_catch
    (MCPAgentServer.updateTaskStatus_in agent taskId status deliverables c)
    (fun _ => ret None) w
  = (Ok (Some (updated_task (clock w) status deliverables t)),
     after_update agent status deliverables c i t w).
Proof.
  intros Hf. pose proof (find_in_dir _ _ _ _ _ Hf) as Hdir.
  unfold find_in, docs in Hf.
  unfold try_catch, MCPAgentServer.updateTaskStatus_in, after_update,
    moves_to_completed.
  destruct (read_collection agent c w) as [| |tasks] eqn:Hr;
    try discriminate.
  rewrite Hf. unfold Date_now at 1. cbn [bind].
  fold (updated_task (clock w) status deliverables t).
  rewrite (docs_Content _ _ _ _ Hr).
  destruct (String.eqb status "completed" && negb (collection_eqb c completed))
    eqn:Hmove.
  - rewrite (bind_ok _ _ _ _ _ (write_collection_put _ _ _ _ Hdir)).
    cbn [bind].
    rewrite (bind_ok _ _ _ _ _
               (write_collection_put _ _ _ _ (put_dir _ _ _ _ Hdir))).
    rewrite docs_put_other; [reflexivity|].
    destruct c; try discriminate. now rewrite andb_false_r in Hmove.
  - rewrite (bind_ok _ _ _ _ _ (write_collection_put _ _ _ _ Hdir)).
    reflexivity.
Qed.

Lemma updateTaskStatus_in_absent agent taskId status deliverables c w :
  find_in agent taskId c w = None ->
  try_catch
    (MCPAgentServer.updateTaskStatus_in agent taskId status deliverables c)
    (fun _ => ret None) w
  = (Ok None, w).
Proof.
  unfold find_in, docs, try_catch, MCPAgentServer.updateTaskStatus_in.
  destruct (read_collection agent c w) as [| |tasks]; try reflexivity.
  cbn [JS.find_at]. now intros ->.
Qed.

(** What [updateTaskStatus] returns and leaves behind, in every world. *)
Lemma updateTaskStatus_run agent taskId status deliverables w :
  MCPAgentServer.updateTaskStatus agent taskId status deliverables w =
  match located agent taskId w with
  | Some (c, i, t) =>
      (Ok (updated_task (clock w) status deliverables t),
       after_update agent status deliverables c i t w)
  | None =>
      (Throw (MCPAgentServer.template
                ["Task "; taskId; " not found for agent "; agent]), w)
  end.
Proof.
  unfold MCPAgentServer.updateTaskStatus, located.
  cbn [MCPAgentServer.updateTaskStatus_loop].
  destruct (find_in agent taskId active w) as [[i t]|] eqn:Ha.
  { unfold bind at 1. unfold bind at 1.
    now rewrite (updateTaskStatus_in_found _ _ _ _ _ _ _ _ Ha). }
  unfold bind at 1. unfold bind at 1.
  rewrite (updateTaskStatus_in_absent _ _ _ _ _ _ Ha).
  destruct (find_in agent taskId pending w) as [[i t]|] eqn:Hp.
  { unfold bind at 1.
    now rewrite (updateTaskStatus_in_found _ _ _ _ _ _ _ _ Hp). }
  unfold bind at 1.
  rewrite (updateTaskStatus_in_absent _ _ _ _ _ _ Hp).
  destruct (find_in agent taskId completed w) as [[i t]|] eqn:Hc.
  { unfold bind at 1.
    now rewrite (updateTaskStatus_in_found _ _ _ _ _ _ _ _ Hc). }
  unfold bind at 1.
  now rewrite (updateTaskStatus_in_absent _ _ _ _ _ _ Hc).
Qed.

(** ** In-place rewriting *)

Section Mutated.

Context {A : Type}.
Implicit Types (l : list A) (x y : A).

Lemma mutated_length i x y l :
  nth_error l i = Some y -> length (TaskQueue.mutated i x l) = length l.
Proof.
  revert i. induction l as [|z r IH]; intros [|i]; simpl; try discriminate.
  - intros _. unfold TaskQueue.mutated. simpl. now rewrite drop_0.
  - intros H. unfold TaskQueue.mutated in *. simpl. f_equal. now apply IH.
Qed.

Lemma mutated_nth_same i x y l :
  nth_error l i = Some y -> nth_error (TaskQueue.mutated i x l) i = Some x.
Proof.
  revert i. induction l as [|z r IH]; intros [|i]; simpl; try discriminate.
  - reflexivity.
  - intros H. unfold TaskQueue.mutated in *. simpl. now apply IH.
Qed.

Lemma mutated_nth_other i j x y l :
  nth_error l i = Some y -> j <> i ->
  nth_error (TaskQueue.mutated i x l) j = nth_error l j.
Proof.
  revert i j. induction l as [|z r IH]; intros [|i] [|j]; simpl;
    try discriminate; try congruence.
  - intros _ _. unfold TaskQueue.mutated. simpl. now rewrite drop_0.
  - intros H Hne. unfold TaskQueue.mutated in *. simpl. apply (IH i j H).
    congruence.
Qed.

Lemma mutated_map {B : Type} (f : A -> B) i x y l :
  nth_error l i = Some y -> f x = f y ->
  map f (TaskQueue.mutated i x l) = map f l.
Proof.
  revert i. induction l as [|z r IH]; intros [|i]; simpl; try discriminate.
  - intros [= ->] Hf. unfold TaskQueue.mutated. simpl.
    rewrite drop_0. now rewrite Hf.
  - intros H Hf. unfold TaskQueue.mutated in *. simpl. f_equal.
    now apply IH.
Qed.

End Mutated.

Lemma located_find agent taskId w c i t :
  located agent taskId w = Some (c, i, t) ->
  find_in agent taskId c w = Some (i, t).
Proof.
  unfold located.
  destruct (find_in agent taskId active w) as [[ia ta]|] eqn:Ha;
    [now intros [= <- <- <-]|].
  destruct (find_in agent taskId pending w) as [[ip tp]|] eqn:Hp;
    [now intros [= <- <- <-]|].
  destruct (find_in agent taskId completed w) as [[ic tc]|] eqn:Hc;
    [now intros [= <- <- <-]|discriminate].
Qed.

Lemma located_nth agent taskId w c i t :
  located agent taskId w = Some (c, i, t) ->
  nth_error (docs agent c w) i = Some t /\ Task.id t = taskId /\
  is_Some (fs w !! agent).
Proof.
  intros H. apply located_find in H.
  pose proof (find_in_dir _ _ _ _ _ H) as Hd.
  apply find_at_Some in H. destruct H as (H1 & H2 & _ & _).
  apply String.eqb_eq in H2. auto.
Qed.

Lemma updated_task_id now status deliverables t :
  Task.id (updated_task now status deliverables t) = Task.id t.
Proof.
  unfold updated_task. now destruct (Nat.ltb 0 (length deliverables)).
Qed.

Lemma updated_task_status now status deliverables t :
  Task.status (updated_task now status deliverables t) = status.
Proof.
  unfold updated_task. now destruct (Nat.ltb 0 (length deliverables)).
Qed.

(** C10. A [task/update] whose status is not ['completed'], or whose task
    already lies in the completed collection, rewrites the task document in
    place in the collection file where it was found (same length, same
    documents at the other indices) and leaves the other two collection
    files, and every other agent's files, as they were. *)
Theorem updateTaskStatus_in_place
    agent taskId status deliverables w c i t :
  located agent taskId w = Some (c, i, t) ->
  status <> "completed" \/ c = completed ->
  exists w',
    let task := updated_task (clock w) status deliverables t in
    MCPAgentServer.updateTaskStatus agent taskId status deliverables w
      = (Ok task, w') /\
    read_collection agent c w'
      = Content (TaskQueue.mutated i task (docs agent c w)) /\
    length (docs agent c w') = length (docs agent c w) /\
    nth_error (docs agent c w') i = Some task /\
    (forall j, j <> i ->
               nth_error (docs agent c w') j = nth_error (docs agent c w) j) /\
    (forall c', c' <> c ->
                read_collection agent c' w' = read_collection agent c' w) /\
    (forall agent' c', agent' <> agent ->
                read_collection agent' c' w' = read_collection agent' c' w).
Proof.
  intros Hloc Hst. destruct (located_nth _ _ _ _ _ _ Hloc) as (Hnth & _ & Hdir).
  rewrite updateTaskStatus_run, Hloc. eexists. cbn zeta.
  split; [reflexivity|].
  assert (Hmove : moves_to_completed status c = false).
  { unfold moves_to_completed. destruct Hst as [Hst| ->].
    - apply String.eqb_neq in Hst. now rewrite Hst.
    - apply andb_false_r. }
  unfold after_update. rewrite Hmove.
  assert (Hdocs : docs agent c
            (put_collection agent c
               (TaskQueue.mutated i
                  (updated_task (clock w) status deliverables t)
                  (docs agent c w)) w)
          = TaskQueue.mutated i (updated_task (clock w) status deliverables t)
              (docs agent c w)) by now apply docs_put_same.
  rewrite Hdocs. repeat split.
  - now apply read_put_same.
  - eapply mutated_length; eauto.
  - eapply mutated_nth_same; eauto.
  - intros j Hj. eapply mutated_nth_other; eauto.
  - intros c' Hc'. now apply read_put_other.
  - intros agent' c' Ha. now apply read_put_other_agent.
Qed.

Lemma updateTaskStatus_in_place_witness :
  exists w',
    let t := Fixture.task "t1" "pending" "a" ["t0"] [] in
    let task := updated_task (clock Fixture.w_ready) "in_progress" [] t in
    MCPAgentServer.updateTaskStatus "a" "t1" "in_progress" [] Fixture.w_ready
      = (Ok task, w') /\
    read_collection "a" pending w'
      = Content (TaskQueue.mutated 0 task (docs "a" pending Fixture.w_ready)) /\
    length (docs "a" pending w') = length (docs "a" pending Fixture.w_ready) /\
    nth_error (docs "a" pending w') 0 = Some task /\
    (forall j, j <> 0 ->
               nth_error (docs "a" pending w') j
               = nth_error (docs "a" pending Fixture.w_ready) j) /\
    (forall c', c' <> pending ->
                read_collection "a" c' w'
                = read_collection "a" c' Fixture.w_ready) /\
    (forall agent' c', agent' <> "a" ->
                read_collection agent' c' w'
                = read_collection agent' c' Fixture.w_ready).
Proof.
  apply (updateTaskStatus_in_place "a" "t1" "in_progress" [] Fixture.w_ready
           pending 0 (Fixture.task "t1" "pending" "a" ["t0"] [])).
  - reflexivity.
  - left. discriminate.
Defined.

(** Setting ['in_progress'] on a pending task through [task/update] leaves
    it in the pending collection; the active collection stays empty. *)
Example updateTaskStatus_in_progress_stays_pending :
  exists task w',
    MCPAgentServer.updateTaskStatus "a" "t1" "in_progress" [] Fixture.w_ready
      = (Ok task, w') /\
    Task.status task = "in_progress" /\
    ids "a" pending w' = ["t1"] /\ ids "a" active w' = [] /\
    ids "a" completed w' = ["t0"].
Proof. vm_compute. eexists _, _. repeat split. Qed.

(** ** How an update changes the id lists *)

Lemma map_splice1 {A B : Type} (f : A -> B) i (l : list A) :
  map f (JS.splice1 i l) = JS.splice1 i (map f l).
Proof.
  unfold JS.splice1. now rewrite map_app, <- firstn_map, <- skipn_map.
Qed.

Lemma collection_eqb_eq c d : collection_eqb c d = true <-> c = d.
Proof. destruct c, d; simpl; split; congruence. Qed.

Lemma after_update_ids_move agent taskId status deliverables w c i t :
  located agent taskId w = Some (c, i, t) ->
  moves_to_completed status c = true ->
  let w' := after_update agent status deliverables c i t w in
  c <> completed /\
  ids agent c w' = JS.splice1 i (ids agent c w) /\
  ids agent completed w' = ids agent completed w ++ [taskId] /\
  ids agent (other_than c completed) w'
  = ids agent (other_than c completed) w.
Proof.
  intros Hloc Hmove w'.
  destruct (located_nth _ _ _ _ _ _ Hloc) as (Hnth & Hid & Hdir).
  assert (Hc : c <> completed).
  { intros ->. unfold moves_to_completed in Hmove.
    now rewrite andb_false_r in Hmove. }
  subst w'. unfold after_update. rewrite Hmove. unfold ids.
  split; [exact Hc|]. repeat split.
  - rewrite docs_put_other by exact Hc.
    rewrite docs_put_same by exact Hdir. apply map_splice1.
  - rewrite docs_put_same by now apply put_dir.
    unfold JS.push. rewrite map_app. cbn [map].
    now rewrite updated_task_id, Hid.
  - rewrite !docs_put_other; [reflexivity| |]; destruct c; simpl; congruence.
Qed.

Lemma after_update_ids_stay agent taskId status deliverables w c i t :
  located agent taskId w = Some (c, i, t) ->
  moves_to_completed status c = false ->
  forall c', ids agent c' (after_update agent status deliverables c i t w)
             = ids agent c' w.
Proof.
  intros Hloc Hmove c'.
  destruct (located_nth _ _ _ _ _ _ Hloc) as (Hnth & Hid & Hdir).
  unfold after_update. rewrite Hmove. unfold ids.
  destruct (decide (c' = c)) as [->|Hne].
  - rewrite docs_put_same by exact Hdir.
    eapply mutated_map; eauto. apply updated_task_id.
  - now rewrite docs_put_other.
Qed.

Lemma after_update_other_agent agent agent' status deliverables w c i t c' :
  agent' <> agent ->
  read_collection agent' c' (after_update agent status deliverables c i t w)
  = read_collection agent' c' w.
Proof.
  intros Hne. unfold after_update.
  destruct (moves_to_completed status c);
    now rewrite ?read_put_other_agent.
Qed.

Lemma task_count_ids agent w :
  task_count agent w =
  length (ids agent active w) + length (ids agent pending w)
  + length (ids agent completed w).
Proof. unfold task_count, ids. now rewrite !length_map. Qed.

Lemma after_update_task_count agent taskId status deliverables w c i t :
  located agent taskId w = Some (c, i, t) ->
  task_count agent (after_update agent status deliverables c i t w)
  = task_count agent w.
Proof.
  intros Hloc. rewrite !task_count_ids.
  destruct (moves_to_completed status c) eqn:Hmove.
  - destruct (after_update_ids_move _ _ _ deliverables _ _ _ _ Hloc Hmove)
      as (Hc & H1 & H2 & H3).
    destruct (located_nth _ _ _ _ _ _ Hloc) as (Hnth & _ & _).
    assert (Hlen : S (length (ids agent c
                (after_update agent status deliverables c i t w)))
            = length (ids agent c w)).
    { rewrite H1. eapply splice1_length. unfold ids.
      rewrite nth_error_map, Hnth. reflexivity. }
    rewrite H2, length_app. cbn [length].
    destruct c; cbn [other_than] in H3; try congruence; rewrite H3; lia.
  - now rewrite !(after_update_ids_stay _ _ _ deliverables _ _ _ _ Hloc Hmove).
Qed.

Lemma put_collection_mailboxes agent agent' c tasks w :
  mailboxes agent' (put_collection agent c tasks w) = mailboxes agent' w.
Proof.
  unfold mailboxes, put_collection.
  destruct (fs w !! agent) as [d|] eqn:Hd; [|reflexivity].
  simpl. destruct (decide (agent' = agent)) as [->|Hne].
  - rewrite lookup_insert_eq, Hd. now destruct c.
  - now rewrite lookup_insert_ne.
Qed.

Lemma after_update_mailboxes agent agent' status deliverables w c i t :
  mailboxes agent' (after_update agent status deliverables c i t w)
  = mailboxes agent' w.
Proof.
  unfold after_update. destruct (moves_to_completed status c);
    now rewrite ?put_collection_mailboxes.
Qed.

Lemma all_ids_other_agent agent agent' status deliverables w c i t :
  agent' <> agent ->
  all_ids agent' (after_update agent status deliverables c i t w)
  = all_ids agent' w.
Proof.
  intros Hne. unfold all_ids, ids, docs.
  now rewrite !after_update_other_agent.
Qed.

Lemma splice1_perm_nth {A : Type} i (l : list A) x :
  nth_error l i = Some x -> Permutation (JS.splice1 i l ++ [x]) l.
Proof.
  intros H. rewrite (splice1_perm i l x H) at 2.
  symmetry. apply Permutation_cons_append.
Qed.

Lemma after_update_all_ids agent taskId status deliverables w c i t :
  located agent taskId w = Some (c, i, t) ->
  Permutation (all_ids agent (after_update agent status deliverables c i t w))
              (all_ids agent w).
Proof.
  intros Hloc. unfold all_ids.
  destruct (moves_to_completed status c) eqn:Hmove.
  - destruct (after_update_ids_move _ _ _ deliverables _ _ _ _ Hloc Hmove)
      as (Hc & H1 & H2 & H3).
    destruct (located_nth _ _ _ _ _ _ Hloc) as (Hnth & Hid & _).
    assert (Hn : nth_error (ids agent c w) i = Some taskId).
    { unfold ids. rewrite nth_error_map, Hnth. simpl. now rewrite Hid. }
    pose proof (splice1_perm_nth _ _ _ Hn) as Hp.
    rewrite H2. destruct c; cbn [other_than] in H3; try congruence;
      rewrite H1, H3.
    + rewrite <- Hp at 2. rewrite <- !app_assoc.
      apply Permutation_app_head.
      rewrite (app_assoc (ids agent pending w)).
      rewrite (Permutation_app_comm _ [taskId]). reflexivity.
    + rewrite <- Hp at 2. rewrite <- !app_assoc.
      do 2 apply Permutation_app_head. apply Permutation_app_comm.
  - now rewrite !(after_update_ids_stay _ _ _ deliverables _ _ _ _ Hloc Hmove).
Qed.

Lemma append_nil_r (s : string) : String.append s "" = s.
Proof.
  induction s as [|a s IH]; [reflexivity|].
  change (String a (String.append s "") = String a s). now f_equal.
Qed.

(** C7. When [task/update] sets a task to ['completed'] and the task records
    a creator other than the updating agent, the response carries an
    incorporation suggestion: a candidate task addressed to the creator
    (as owner and as target), referring to the original task's id, with the
    deliverables of the completed task copied verbatim, and the three next
    steps, in order: create a task for the creator from the suggested data,
    use [task/create] with the creator as [agentId], and what the
    incorporation task is for, with the deliverables listed.  The handler
    does nothing beyond [updateTaskStatus]: no agent gains a task document
    or a message. *)
Theorem task_update_incorporation params w c i t :
  JS.truthy (MCPAgentServer.p_agentId params) = true ->
  JS.truthy (MCPAgentServer.p_taskId params) = true ->
  MCPAgentServer.p_status params = "completed" ->
  located (MCPAgentServer.p_agentId params) (MCPAgentServer.p_taskId params) w
    = Some (c, i, t) ->
  JS.truthy (Task.created_by t) = true ->
  Task.created_by t <> MCPAgentServer.p_agentId params ->
  exists response g w',
    MCPAgentServer.task_update params w = (Ok response, w') /\
    MCPAgentServer.incorporation_guidance response = Some g /\
    let s := MCPAgentServer.suggested_incorporation_task g in
    let done := MCPAgentServer.task response in
    Task.status done = "completed" /\
    MCPAgentServer.target_agent_id s = Task.created_by t /\
    MCPAgentServer.agent_id s = Task.created_by t /\
    MCPAgentServer.created_by s = MCPAgentServer.p_agentId params /\
    MCPAgentServer.reference_task_id s = Task.id t /\
    MCPAgentServer.deliverables s = Task.deliverables done /\
    MCPAgentServer.creator_agent g = Task.created_by t /\
    MCPAgentServer.completed_by g = MCPAgentServer.p_agentId params /\
    MCPAgentServer.implementation_steps g
    = ["1. Create a new task for agent " +:+ quote +:+ Task.created_by t
       +:+ quote +:+ " using the suggested_incorporation_task data";
       "2. Use the task/create method with agentId=" +:+ quote
       +:+ Task.created_by t +:+ quote;
       "3. The incorporation task will help " +:+ Task.created_by t
       +:+ " review and integrate the deliverables: "
       +:+ JS.join ", " (Task.deliverables done)] /\
    MCPAgentServer.updateTaskStatus (MCPAgentServer.p_agentId params)
      (MCPAgentServer.p_taskId params) "completed"
      (MCPAgentServer.p_deliverables params) w = (Ok done, w') /\
    (forall agent, Permutation (all_ids agent w') (all_ids agent w)) /\
    (forall agent, task_count agent w' = task_count agent w) /\
    (forall agent, mailboxes agent w' = mailboxes agent w).
Proof.
  destruct params as [agentId taskId status deliverables]. cbn.
  intros Ha Ht -> Hloc Hcr Hne.
  assert (Hrun := updateTaskStatus_run agentId taskId "completed"
                    deliverables w).
  rewrite Hloc in Hrun.
  set (done := updated_task (clock w) "completed" deliverables t) in *.
  assert (Hcreator : Task.created_by done = Task.created_by t).
  { unfold done, updated_task. now destruct (Nat.ltb 0 (length deliverables)). }
  exists (MCPAgentServer.mkTaskUpdateResponse true
            (MCPAgentServer.template
               ["Task "; taskId; " status updated to "; "completed"])
            done (Some (MCPAgentServer.guidance agentId done))),
    (MCPAgentServer.guidance agentId done),
    (after_update agentId "completed" deliverables c i t w).
  split.
  { unfold MCPAgentServer.task_update. cbn.
    rewrite Ha, Ht. cbn.
    rewrite (bind_ok _ _ _ _ _ Hrun).
    rewrite Hcreator, Hcr.
    apply String.eqb_neq in Hne. rewrite Hne. reflexivity. }
  split; [reflexivity|]. cbn.
  rewrite Hcreator.
  assert (Hid : Task.id done = Task.id t) by apply updated_task_id.
  assert (Hst : Task.status done = "completed") by apply updated_task_status.
  rewrite Hid.
  repeat split; try assumption.
  - unfold MCPAgentServer.guidance_steps, MCPAgentServer.template.
    cbn [fold_right]. rewrite !append_nil_r. reflexivity.
  - intros agent. destruct (decide (agent = agentId)) as [->|Hag].
    + eapply after_update_all_ids; eauto.
    + now rewrite all_ids_other_agent.
  - intros agent. destruct (decide (agent = agentId)) as [->|Hag].
    + eapply after_update_task_count; eauto.
    + unfold task_count, docs. now rewrite !after_update_other_agent.
  - intros agent. apply after_update_mailboxes.
Qed.

Lemma task_update_incorporation_witness :
  exists response g w',
    MCPAgentServer.task_update
      (MCPAgentServer.mkTaskUpdateParams "y" "t1" "completed" []) w_scenario
      = (Ok response, w') /\
    MCPAgentServer.incorporation_guidance response = Some g /\
    MCPAgentServer.target_agent_id
      (MCPAgentServer.suggested_incorporation_task g) = "x" /\
    MCPAgentServer.reference_task_id
      (MCPAgentServer.suggested_incorporation_task g) = "t1" /\
    MCPAgentServer.deliverables
      (MCPAgentServer.suggested_incorporation_task g) = ["d1"] /\
    MCPAgentServer.completed_by g = "y" /\
    task_count "y" w' = 1 /\ task_count "x" w' = 0.
Proof.
  destruct (task_update_incorporation
              (MCPAgentServer.mkTaskUpdateParams "y" "t1" "completed" [])
              w_scenario active 0
              (Fixture.task "t1" "in_progress" "x" [] ["d1"]))
    as (response & g & w' & Hrun & Hg & _ & Ht & _ & _ & Hr & Hd & _ & Hc
        & _ & Hu & _ & Hcount & _);
    try reflexivity; try discriminate.
  exists response, g, w'. rewrite updateTaskStatus_run in Hu.
  injection Hu as Hdone _.
  repeat split; try assumption.
  - rewrite Hd, <- Hdone. reflexivity.
  - now rewrite Hcount.
  - now rewrite Hcount.
Defined.

Lemma loaded_ids agent c w :
  ids_truthy agent w -> map Task.id (loaded agent c w) = ids agent c w.
Proof. intros Ht. unfold loaded, ids. apply map_new_ids, Ht. Qed.

Lemma loadTasks_loaded agent c w :
  readable agent w -> ids_truthy agent w ->
  TaskQueue.loadTasks agent c w = (Ok (loaded agent c w), w).
Proof. intros Hr Ht. apply loadTasks_ok; [apply Hr|apply Ht]. Qed.

Lemma loadTasks_put_other agent c c' l w :
  c' <> c -> readable agent w -> ids_truthy agent w ->
  TaskQueue.loadTasks agent c' (put_collection agent c l w)
  = (Ok (loaded agent c' w), put_collection agent c l w).
Proof.
  intros Hne Hr Ht. rewrite loadTasks_ok.
  - unfold loaded. now rewrite docs_put_other, put_clock.
  - rewrite read_put_other by exact Hne. apply Hr.
  - rewrite docs_put_other by exact Hne. apply Ht.
Qed.

Lemma find_at_loaded agent taskId c w :
  ids_truthy agent w ->
  JS.find_at (fun task => String.eqb (Task.id task) taskId) (loaded agent c w)
  = option_map (fun ix => (fst ix, Task.new "" (clock w) (snd ix)))
      (find_in agent taskId c w).
Proof. intros Ht. unfold loaded, find_in. apply find_at_new, Ht. Qed.

Lemma activateTask_eq agent taskId w :
  readable agent w -> ids_truthy agent w ->
  TaskQueue.activateTask agent taskId w =
  match find_in agent taskId pending w with
  | None =>
      (Throw (String.append "Task "
                (String.append taskId " not found in pending queue")), w)
  | Some (i, doc) =>
      if Task.isReady (ids agent completed w) doc
      then (Ok (activated w doc),
            put_collection agent active
              (JS.push (loaded agent active w) (activated w doc))
              (put_collection agent pending
                 (JS.splice1 i (loaded agent pending w)) w))
      else (Throw (String.append "Task "
                     (String.append taskId " dependencies not met")), w)
  end.
Proof.
  intros Hr Ht.
  unfold TaskQueue.activateTask, TaskQueue.getPendingTasks,
    TaskQueue.getCompletedTasks, TaskQueue.getActiveTasks, TaskQueue.saveTasks.
  rewrite (bind_ok _ _ _ _ _ (loadTasks_loaded agent pending w Hr Ht)).
  rewrite find_at_loaded by exact Ht.
  destruct (find_in agent taskId pending w) as [[i doc]|] eqn:Hf;
    cbn [option_map fst snd]; [|reflexivity].
  pose proof (find_in_dir _ _ _ _ _ Hf) as Hdir.
  rewrite (bind_ok _ _ _ _ _ (loadTasks_loaded agent completed w Hr Ht)).
  rewrite loaded_ids by exact Ht.
  change (Task.isReady (ids agent completed w) (Task.new "" (clock w) doc))
    with (Task.isReady (ids agent completed w) doc).
  destruct (Task.isReady (ids agent completed w) doc); cbn [negb];
    [|reflexivity].
  rewrite (bind_ok _ _ _ _ _ (write_collection_put _ _ _ _ Hdir)).
  unfold Date_now at 1. cbn [bind]. rewrite put_clock.
  rewrite (bind_ok _ _ _ _ _
             (loadTasks_put_other agent pending active _ w
                ltac:(discriminate) Hr Ht)).
  now rewrite (bind_ok _ _ _ _ _
             (write_collection_put _ _ _ _ (put_dir _ _ _ _ Hdir))).
Qed.

Lemma completeTask_eq agent taskId deliverables w :
  readable agent w -> ids_truthy agent w ->
  TaskQueue.completeTask agent taskId deliverables w =
  match find_in agent taskId active w with
  | None =>
      (Throw (String.append "Task "
                (String.append taskId " not found in active queue")), w)
  | Some (i, doc) =>
      (Ok (completed_task w deliverables doc),
       put_collection agent completed
         (JS.push (loaded agent completed w)
                  (completed_task w deliverables doc))
         (put_collection agent active
            (JS.splice1 i (loaded agent active w)) w))
  end.
Proof.
  intros Hr Ht.
  unfold TaskQueue.completeTask, TaskQueue.getCompletedTasks,
    TaskQueue.getActiveTasks, TaskQueue.saveTasks.
  rewrite (bind_ok _ _ _ _ _ (loadTasks_loaded agent active w Hr Ht)).
  rewrite find_at_loaded by exact Ht.
  destruct (find_in agent taskId active w) as [[i doc]|] eqn:Hf;
    cbn [option_map fst snd]; [|reflexivity].
  pose proof (find_in_dir _ _ _ _ _ Hf) as Hdir.
  unfold Date_now at 1. cbn [bind].
  fold (completed_task w deliverables doc).
  rewrite (bind_ok _ _ _ _ _ (write_collection_put _ _ _ _ Hdir)).
  rewrite (bind_ok _ _ _ _ _
             (loadTasks_put_other agent active completed _ w
                ltac:(discriminate) Hr Ht)).
  now rewrite (bind_ok _ _ _ _ _
             (write_collection_put _ _ _ _ (put_dir _ _ _ _ Hdir))).
Qed.

Lemma blockTask_eq agent taskId reason w :
  readable agent w -> ids_truthy agent w ->
  TaskQueue.blockTask agent taskId reason w =
  match find_in agent taskId active w with
  | None =>
      (Throw (String.append "Task "
                (String.append taskId " not found in active queue")), w)
  | Some (i, doc) =>
      (Ok (blocked_task w reason doc),
       put_collection agent active
         (TaskQueue.mutated i (blocked_task w reason doc)
            (loaded agent active w)) w)
  end.
Proof.
  intros Hr Ht.
  unfold TaskQueue.blockTask, TaskQueue.getActiveTasks, TaskQueue.saveTasks.
  rewrite (bind_ok _ _ _ _ _ (loadTasks_loaded agent active w Hr Ht)).
  rewrite find_at_loaded by exact Ht.
  destruct (find_in agent taskId active w) as [[i doc]|] eqn:Hf;
    cbn [option_map fst snd]; [|reflexivity].
  pose proof (find_in_dir _ _ _ _ _ Hf) as Hdir.
  unfold Date_now at 1. cbn [bind].
  fold (blocked_task w reason doc).
  now rewrite (bind_ok _ _ _ _ _ (write_collection_put _ _ _ _ Hdir)).
Qed.

Lemma unblockTask_eq agent taskId w :
  readable agent w -> ids_truthy agent w ->
  TaskQueue.unblockTask agent taskId w =
  match find_in agent taskId active w with
  | None =>
      (Throw (String.append "Task "
                (String.append taskId " not found in active queue")), w)
  | Some (i, doc) =>
      (Ok (unblocked_task w doc),
       put_collection agent active
         (TaskQueue.mutated i (unblocked_task w doc)
            (loaded agent active w)) w)
  end.
Proof.
  intros Hr Ht.
  unfold TaskQueue.unblockTask, TaskQueue.getActiveTasks, TaskQueue.saveTasks.
  rewrite (bind_ok _ _ _ _ _ (loadTasks_loaded agent active w Hr Ht)).
  rewrite find_at_loaded by exact Ht.
  destruct (find_in agent taskId active w) as [[i doc]|] eqn:Hf;
    cbn [option_map fst snd]; [|reflexivity].
  pose proof (find_in_dir _ _ _ _ _ Hf) as Hdir.
  unfold Date_now at 1. cbn [bind].
  fold (unblocked_task w doc).
  now rewrite (bind_ok _ _ _ _ _ (write_collection_put _ _ _ _ Hdir)).
Qed.

Lemma addTask_eq agent task w :
  readable agent w -> ids_truthy agent w ->
  TaskQueue.addTask agent task w =
  if negb (Task.isValid task)
  then (Throw (String.append "Invalid task: "
                 (JS.join ", " (Task.validate task))), w)
  else
    match fs w !! agent with
    | Some _ =>
        (Ok task,
         put_collection agent pending
           (JS.push (loaded agent pending w) task) w)
    | None => (Throw "ENOENT: no such file or directory", w)
    end.
Proof.
  intros Hr Ht. unfold TaskQueue.addTask.
  destruct (negb (Task.isValid task)); [reflexivity|].
  unfold TaskQueue.getPendingTasks, TaskQueue.saveTasks.
  rewrite (bind_ok _ _ _ _ _ (loadTasks_loaded agent pending w Hr Ht)).
  destruct (fs w !! agent) as [d|] eqn:Hd.
  - now rewrite (bind_ok _ _ _ _ _
                   (write_collection_put _ _ _ _ (mk_is_Some _ _ Hd))).
  - unfold bind, write_collection. now rewrite Hd.
Qed.

Lemma ids_truthy_ids agent w :
  ids_truthy agent w <->
  forall c, Forall (fun s => JS.truthy s = true) (ids agent c w).
Proof.
  unfold ids_truthy, ids. split; intros H c; specialize (H c).
  - now apply Forall_map.
  - now apply Forall_map in H.
Qed.


Lemma Forall_splice1 {A : Type} (P : A -> Prop) i (l : list A) :
  Forall P l -> Forall P (JS.splice1 i l).
Proof.
  intros H. unfold JS.splice1. apply Forall_app. split.
  - now apply Forall_take.
  - now apply Forall_drop.
Qed.

Lemma holders_all_ids agent w t :
  holders agent w t = count_occ string_dec (all_ids agent w) t.
Proof.
  unfold holders, occurrences, all_ids. rewrite !count_occ_app. lia.
Qed.

Lemma holders_NoDup agent w :
  (forall t, holders agent w t <= 1) <-> List.NoDup (all_ids agent w).
Proof.
  rewrite (NoDup_count_occ string_dec).
  split; intros H t; specialize (H t); now rewrite holders_all_ids in *.
Qed.



Lemma movement_truthy agent w w' mv :
  movement_holds agent w w' mv ->
  match mv with
  | Enqueued t => JS.truthy t = true
  | _ => True
  end ->
  ids_truthy agent w -> ids_truthy agent w'.
Proof.
  rewrite !ids_truthy_ids. destruct mv as [|t'|src dst i t']; cbn.
  - intros H _ Ht c. rewrite H. apply Ht.
  - intros (H1 & H2 & H3) Htr Ht c.
    destruct c; rewrite ?H1, ?H2, ?H3; try apply Ht.
    apply Forall_app. split; [apply Ht|]. now constructor.
  - intros (Hne & Hnth & Hs & Hd & Ho) _ Ht c.
    assert (Htr : JS.truthy t' = true).
    { specialize (Ht src). rewrite List.Forall_forall in Ht. apply Ht.
      eapply nth_error_In; eauto. }
    assert (Hsrc : Forall (fun s => JS.truthy s = true) (ids agent src w'))
      by (rewrite Hs; apply Forall_splice1, Ht).
    assert (Hdst : Forall (fun s => JS.truthy s = true) (ids agent dst w')).
    { rewrite Hd. apply Forall_app. split; [apply Ht|]. now constructor. }
    assert (Hoth : Forall (fun s => JS.truthy s = true)
                     (ids agent (other_than src dst) w'))
      by (rewrite Ho; apply Ht).
    destruct src, dst, c; cbn [other_than] in Hoth; try congruence;
      assumption.
Qed.

(** ** The worlds the operations leave, as movements *)

Lemma put_readable agent c l w :
  readable agent w -> readable agent (put_collection agent c l w).
Proof.
  intros Hr c'. destruct (fs w !! agent) as [d|] eqn:Hd.
  - destruct (decide (c' = c)) as [->|Hne].
    + rewrite read_put_same by eauto. discriminate.
    + rewrite read_put_other by exact Hne. apply Hr.
  - unfold put_collection. rewrite Hd. apply Hr.
Qed.

Lemma ids_put_same agent c l w :
  is_Some (fs w !! agent) ->
  ids agent c (put_collection agent c l w) = map Task.id l.
Proof. intros H. unfold ids. now rewrite docs_put_same. Qed.

Lemma ids_put_other agent c c' l w :
  c' <> c -> ids agent c' (put_collection agent c l w) = ids agent c' w.
Proof. intros H. unfold ids. now rewrite docs_put_other. Qed.



Lemma stays_by_mutation agent c i task y l w :
  is_Some (fs w !! agent) ->
  map Task.id l = ids agent c w ->
  nth_error l i = Some y ->
  Task.id task = Task.id y ->
  movement_holds agent w
    (put_collection agent c (TaskQueue.mutated i task l) w) Stays.
Proof.
  intros Hdir Hl Hnth Hid c'. destruct (decide (c' = c)) as [->|Hne].
  - rewrite ids_put_same by exact Hdir.
    rewrite (mutated_map Task.id _ _ _ _ Hnth Hid). exact Hl.
  - now rewrite ids_put_other.
Qed.


Lemma find_in_ids agent taskId c w i doc :
  find_in agent taskId c w = Some (i, doc) ->
  nth_error (ids agent c w) i = Some taskId /\
  nth_error (docs agent c w) i = Some doc /\ Task.id doc = taskId.
Proof.
  intros H. apply find_at_Some in H. destruct H as (H1 & H2 & _ & _).
  apply String.eqb_eq in H2. unfold ids.
  rewrite nth_error_map, H1. cbn. now rewrite H2.
Qed.

Lemma loaded_nth agent c w i doc :
  nth_error (docs agent c w) i = Some doc ->
  nth_error (loaded agent c w) i = Some (Task.new "" (clock w) doc).
Proof. intros H. unfold loaded. now rewrite nth_error_map, H. Qed.

Lemma fold_addDeliverable_id now deliverables task :
  Task.id (fold_left (fun task deliverable =>
                        Task.addDeliverable now deliverable task)
                     deliverables task)
  = Task.id task.
Proof.
  revert task. induction deliverables as [|d r IH]; intros task;
    [reflexivity|].
  cbn [fold_left]. rewrite IH. unfold Task.addDeliverable.
  now destruct (negb (JS.includes (Task.deliverables task) d)).
Qed.

Lemma fold_addDeliverable_status now deliverables task :
  Task.status (fold_left (fun task deliverable =>
                            Task.addDeliverable now deliverable task)
                         deliverables task)
  = Task.status task.
Proof.
  revert task. induction deliverables as [|d r IH]; intros task;
    [reflexivity|].
  cbn [fold_left]. rewrite IH. unfold Task.addDeliverable.
  now destruct (negb (JS.includes (Task.deliverables task) d)).
Qed.

Section TaskIds.

Variables (w : World) (doc : Task.t).
Hypothesis Hid : JS.truthy (Task.id doc) = true.

Lemma activated_id : Task.id (activated w doc) = Task.id doc.
Proof. unfold activated. cbn. unfold JS.or_else. now rewrite Hid. Qed.

Lemma completed_task_id deliverables :
  Task.id (completed_task w deliverables doc) = Task.id doc.
Proof.
  unfold completed_task. rewrite fold_addDeliverable_id. cbn.
  unfold JS.or_else. now rewrite Hid.
Qed.

Lemma blocked_task_id reason :
  Task.id (blocked_task w reason doc) = Task.id doc.
Proof.
  unfold blocked_task. destruct (JS.truthy reason); cbn;
    unfold JS.or_else; now rewrite Hid.
Qed.

Lemma unblocked_task_id : Task.id (unblocked_task w doc) = Task.id doc.
Proof. unfold unblocked_task. cbn. unfold JS.or_else. now rewrite Hid. Qed.

End TaskIds.

Lemma find_in_truthy agent taskId c w i doc :
  ids_truthy agent w ->
  find_in agent taskId c w = Some (i, doc) ->
  JS.truthy (Task.id doc) = true.
Proof.
  intros Ht H. apply find_in_ids in H. destruct H as (_ & H & _).
  specialize (Ht c). rewrite List.Forall_forall in Ht. apply Ht.
  eapply nth_error_In; eauto.
Qed.

(** ** The invariant is kept *)






Ltac solve_holders :=
  apply holders_NoDup; vm_compute;
  repeat (constructor;
          [let H := fresh in
           intros H; repeat (destruct H as [H|H]; [discriminate H|]);
           exact H|]);
  constructor.

Lemma w_ready_inv : queue_inv "a" Fixture.w_ready.
Proof.
  split; [solve_readable|]. split; [solve_ids_truthy|]. solve_holders.
Qed.





(** A task enqueued, activated and completed passes through the three
    collections, one at a time. *)
Example life_of_a_task :
  let t2 := Fixture.task "t2" "pending" "a" ["t0"] [] in
  let r1 := TaskQueue.addTask "a" t2 Fixture.w_ready in
  let r2 := TaskQueue.activateTask "a" "t2" (snd r1) in
  let r3 := TaskQueue.completeTask "a" "t2" ["out"] (snd r2) in
  (ids "a" pending (snd r1), ids "a" active (snd r1),
   ids "a" completed (snd r1)) = (["t1"; "t2"], [], ["t0"]) /\
  (ids "a" pending (snd r2), ids "a" active (snd r2),
   ids "a" completed (snd r2)) = (["t1"], ["t2"], ["t0"]) /\
  (ids "a" pending (snd r3), ids "a" active (snd r3),
   ids "a" completed (snd r3)) = (["t1"], [], ["t0"; "t2"]) /\
  match fst r3 with
  | Ok x3 => Task.status x3 = "completed" /\ Task.deliverables x3 = ["out"]
  | Throw _ => False
  end.
Proof. vm_compute. repeat split. Qed.

Lemma all_ids_docs agent w : all_ids agent w = map Task.id (all_docs agent w).
Proof. unfold all_ids, all_docs, ids. now rewrite !map_app. Qed.

Lemma In_all_docs agent w d :
  In d (all_docs agent w) <-> exists c, In d (docs agent c w).
Proof.
  unfold all_docs. rewrite !in_app_iff. split.
  - intros [H|[H|H]]; eauto.
  - intros [[] H]; auto.
Qed.

Lemma NoDup_map_injective {A B : Type} (f : A -> B) (l : list A) x y :
  List.NoDup (map f l) -> In x l -> In y l -> f x = f y -> x = y.
Proof.
  induction l as [|z r IH]; cbn; [contradiction|].
  intros Hnd. apply List.NoDup_cons_iff in Hnd. destruct Hnd as [Hz Hr].
  intros [->|Hx] [->|Hy] Hf; auto.
  - exfalso. apply Hz. rewrite Hf. now apply in_map.
  - exfalso. apply Hz. rewrite <- Hf. now apply in_map.
Qed.

(** Under the invariant a task id has one status. *)
Lemma has_status_unique agent w t s s' :
  (forall t, holders agent w t <= 1) ->
  has_status agent w t s -> has_status agent w t s' -> s = s'.
Proof.
  intros Hh (c & d & Hd & Hid & Hs) (c' & d' & Hd' & Hid' & Hs').
  apply holders_NoDup in Hh. rewrite all_ids_docs in Hh.
  assert (d = d') as <-.
  { eapply NoDup_map_injective; eauto.
    - apply In_all_docs; eauto.
    - apply In_all_docs; eauto.
    - congruence. }
  congruence.
Qed.

Lemma In_splice1 {A : Type} i (l : list A) x :
  In x (JS.splice1 i l) -> In x l.
Proof.
  unfold JS.splice1. rewrite in_app_iff. intros [H|H].
  - rewrite <- (firstn_skipn i l). apply in_or_app. now left.
  - rewrite <- (firstn_skipn (S i) l). apply in_or_app. now right.
Qed.

Lemma In_mutated {A : Type} i (l : list A) x y :
  In x (TaskQueue.mutated i y l) -> x = y \/ In x l.
Proof.
  unfold TaskQueue.mutated. rewrite in_app_iff. cbn.
  intros [H|[H|H]]; auto; right.
  - rewrite <- (firstn_skipn i l). apply in_or_app. now left.
  - rewrite <- (firstn_skipn (S i) l). apply in_or_app. now right.
Qed.

Lemma In_loaded agent c w d' :
  In d' (loaded agent c w) ->
  exists d, In d (docs agent c w) /\ d' = Task.new "" (clock w) d.
Proof.
  unfold loaded. rewrite in_map_iff. intros (d & <- & Hd). eauto.
Qed.

Lemma collection_status_truthy c s :
  collection_status c s -> JS.truthy s = true.
Proof. destruct c; cbn; intros H; now repeat destruct H as [H|H]; subst. Qed.

Lemma Task_new_status uuid now d :
  JS.truthy (Task.status d) = true ->
  Task.status (Task.new uuid now d) = Task.status d.
Proof. intros H. cbn. unfold JS.or_else. now rewrite H. Qed.

Lemma docs_kept agent w c d : In d (docs agent c w) -> kept agent w c d.
Proof. intros H. exists d. auto. Qed.

Lemma loaded_kept agent w c d' :
  ids_truthy agent w -> status_consistent agent w ->
  In d' (loaded agent c w) -> kept agent w c d'.
Proof.
  intros Ht Hs H. apply In_loaded in H. destruct H as (d & Hd & ->).
  exists d. split; [exact Hd|]. split.
  - apply Task_new_id. specialize (Ht c).
    rewrite List.Forall_forall in Ht. now apply Ht.
  - apply Task_new_status. apply (collection_status_truthy c).
    apply Hs. exact Hd.
Qed.

Lemma In_push {A : Type} (l : list A) x y :
  In y (JS.push l x) -> In y l \/ y = x.
Proof.
  unfold JS.push. rewrite in_app_iff. cbn. intros [H|[H|[]]]; auto.
Qed.

Lemma nth_error_In_docs agent c w i doc :
  nth_error (docs agent c w) i = Some doc -> In doc (docs agent c w).
Proof. apply nth_error_In. Qed.

Lemma run_op_docs agent op w r w' :
  readable agent w -> ids_truthy agent w -> status_consistent agent w ->
  of_task_queue op ->
  run_op agent op w = (r, w') ->
  forall c' d', In d' (docs agent c' w') ->
    kept agent w c' d' \/ operated agent op w c' d' \/
    (op = AddTask d' /\ c' = pending).
Proof.
  intros Hr Ht Hs Hq.
  assert (Hstay : forall c' d', In d' (docs agent c' w) ->
            kept agent w c' d' \/ operated agent op w c' d' \/
            (op = AddTask d' /\ c' = pending))
    by (intros c' d' H; left; now apply docs_kept).
  destruct op as [task|taskId|taskId deliverables|taskId reason|taskId
                 |taskId status deliverables]; cbn [run_op];
    [| | | | |contradiction].
  - (* addTask *)
    rewrite addTask_eq by assumption.
    destruct (Task.isValid task); cbn [negb];
      [|intros [= <- <-]; exact Hstay].
    destruct (fs w !! agent) as [dir|] eqn:Hd;
      [|intros [= <- <-]; exact Hstay].
    intros [= <- <-] c' d'.
    destruct (decide (c' = pending)) as [->|Hne].
    + rewrite docs_put_same by eauto. intros H.
      apply In_push in H. destruct H as [H| ->]; [left|auto].
      now apply loaded_kept.
    + rewrite docs_put_other by exact Hne. apply Hstay.
  - (* activateTask *)
    rewrite activateTask_eq by assumption.
    destruct (find_in agent taskId pending w) as [[i doc]|] eqn:Hf;
      [|intros [= <- <-]; exact Hstay].
    destruct (Task.isReady (ids agent completed w) doc);
      [|intros [= <- <-]; exact Hstay].
    destruct (find_in_ids _ _ _ _ _ _ Hf) as (_ & Hdoc & Hid).
    pose proof (find_in_truthy _ _ _ _ _ _ Ht Hf) as Htr.
    pose proof (find_in_dir _ _ _ _ _ Hf) as Hdir.
    intros [= <- <-] c' d'. destruct c'.
    + rewrite docs_put_same by now apply put_dir. intros H.
      apply In_push in H. destruct H as [H| ->].
      * left. now apply loaded_kept.
      * right. left. exists pending, doc.
        split; [eapply nth_error_In_docs; eauto|].
        split; [now apply activated_id|]. cbn. auto.
    + rewrite docs_put_other by discriminate.
      rewrite docs_put_same by exact Hdir. intros H.
      apply In_splice1 in H. left. now apply loaded_kept.
    + rewrite !docs_put_other by discriminate. apply Hstay.
  - (* completeTask *)
    rewrite completeTask_eq by assumption.
    destruct (find_in agent taskId active w) as [[i doc]|] eqn:Hf;
      [|intros [= <- <-]; exact Hstay].
    destruct (find_in_ids _ _ _ _ _ _ Hf) as (_ & Hdoc & Hid).
    pose proof (find_in_truthy _ _ _ _ _ _ Ht Hf) as Htr.
    pose proof (find_in_dir _ _ _ _ _ Hf) as Hdir.
    intros [= <- <-] c' d'. destruct c'.
    + rewrite docs_put_other by discriminate.
      rewrite docs_put_same by exact Hdir. intros H.
      apply In_splice1 in H. left. now apply loaded_kept.
    + rewrite !docs_put_other by discriminate. apply Hstay.
    + rewrite docs_put_same by now apply put_dir. intros H.
      apply In_push in H. destruct H as [H| ->].
      * left. now apply loaded_kept.
      * right. left. exists active, doc.
        split; [eapply nth_error_In_docs; eauto|].
        split; [now apply completed_task_id|]. cbn.
        unfold completed_task. rewrite fold_addDeliverable_status. auto.
  - (* blockTask *)
    rewrite blockTask_eq by assumption.
    destruct (find_in agent taskId active w) as [[i doc]|] eqn:Hf;
      [|intros [= <- <-]; exact Hstay].
    destruct (find_in_ids _ _ _ _ _ _ Hf) as (_ & Hdoc & Hid).
    pose proof (find_in_truthy _ _ _ _ _ _ Ht Hf) as Htr.
    pose proof (find_in_dir _ _ _ _ _ Hf) as Hdir.
    intros [= <- <-] c' d'.
    destruct (decide (c' = active)) as [->|Hne].
    + rewrite docs_put_same by exact Hdir. intros H.
      apply In_mutated in H. destruct H as [->|H].
      * right. left. exists active, doc.
        split; [eapply nth_error_In_docs; eauto|].
        split; [now apply blocked_task_id|]. cbn.
        unfold blocked_task. destruct (JS.truthy reason); cbn; auto.
      * left. now apply loaded_kept.
    + rewrite docs_put_other by exact Hne. apply Hstay.
  - (* unblockTask *)
    rewrite unblockTask_eq by assumption.
    destruct (find_in agent taskId active w) as [[i doc]|] eqn:Hf;
      [|intros [= <- <-]; exact Hstay].
    destruct (find_in_ids _ _ _ _ _ _ Hf) as (_ & Hdoc & Hid).
    pose proof (find_in_truthy _ _ _ _ _ _ Ht Hf) as Htr.
    pose proof (find_in_dir _ _ _ _ _ Hf) as Hdir.
    intros [= <- <-] c' d'.
    destruct (decide (c' = active)) as [->|Hne].
    + rewrite docs_put_same by exact Hdir. intros H.
      apply In_mutated in H. destruct H as [->|H].
      * right. left. exists active, doc.
        split; [eapply nth_error_In_docs; eauto|].
        split; [now apply unblocked_task_id|]. cbn. auto.
      * left. now apply loaded_kept.
    + rewrite docs_put_other by exact Hne. apply Hstay.
Qed.

(** The dispatcher's [task/update] with status ['completed'] takes the
    pending task [t1] straight to [completed]. *)
Lemma task_update_skips_in_progress :
  queue_inv "a" Fixture.w_ready /\ status_consistent "a" Fixture.w_ready /\
  ~ transitions_allowed "a" (TaskUpdate "t1" "completed" []) Fixture.w_ready.
Proof.
  split; [exact w_ready_inv|]. split.
  - intros c d. destruct c; vm_compute; intros H;
      repeat (destruct H as [H|H]; [subst d|]); try contradiction; auto.
  - intros Hclaim.
    destruct (run_op "a" (TaskUpdate "t1" "completed" []) Fixture.w_ready)
      as [r w'] eqn:Hrun.
    assert (Hbefore : has_status "a" Fixture.w_ready "t1" "pending").
    { exists pending, (Fixture.task "t1" "pending" "a" ["t0"] []).
      split; [left; reflexivity|]. split; reflexivity. }
    assert (Hafter : has_status "a" w' "t1" "completed").
    { vm_compute in Hrun. injection Hrun as _ <-.
      eexists completed, _. split; [right; left; reflexivity|].
      split; reflexivity. }
    destruct (Hclaim r w' "t1" "pending" "completed" Hrun Hbefore Hafter)
      as [H|H]; [discriminate|inversion H].
Qed.

(** [completeTask] completes a blocked task as well. *)
Example completeTask_of_blocked :
  let w := Fixture.world
             [("a", Fixture.dir [Fixture.task "t1" "blocked" "a" [] []]
                                [] [])] in
  exists task w',
    TaskQueue.completeTask "a" "t1" [] w = (Ok task, w') /\
    Task.status task = "completed" /\ ids "a" completed w' = ["t1"].
Proof. vm_compute. eexists _, _. repeat split. Qed.

Lemma has_status_In agent w c d :
  In d (docs agent c w) -> has_status agent w (Task.id d) (Task.status d).
Proof. intros H. exists c, d. auto. Qed.

Lemma has_status_all_ids agent w t s :
  has_status agent w t s -> In t (all_ids agent w).
Proof.
  intros (c & d & Hd & <- & _). rewrite all_ids_docs. apply in_map.
  apply In_all_docs. eauto.
Qed.

(** C5, as amended.  No operation checks the current status.  On a queue
    that satisfies the invariant and whose pending, active and completed
    documents have the statuses pending, in_progress or blocked, and
    completed, the operations of the task queue ([addTask] of a new pending
    task, [activateTask], [completeTask], [blockTask], [unblockTask]) keep
    this correspondence and change a status only along pending to
    in_progress, in_progress to completed, blocked to completed,
    in_progress to blocked and blocked to in_progress; the dispatcher's
    [task/update] sets the status to its argument. *)
Theorem queue_status_transitions agent op w r w' :
  queue_inv agent w -> status_consistent agent w ->
  (forall task, op = AddTask task ->
     Task.status task = "pending" /\ ~ In (Task.id task) (all_ids agent w)) ->
  run_op agent op w = (r, w') ->
  match op with
  | TaskUpdate taskId status _ =>
      forall task, r = Ok task ->
        Task.status task = status /\ has_status agent w' taskId status
  | _ =>
      status_consistent agent w' /\
      forall t s s',
        has_status agent w t s -> has_status agent w' t s' ->
        s = s' \/ queue_transition s s'
  end.
Proof.
  intros (Hr & Ht & Hh) Hs Hadd Hrun.
  assert (Hqueue : of_task_queue op ->
            status_consistent agent w' /\
            forall t s s',
              has_status agent w t s -> has_status agent w' t s' ->
              s = s' \/ queue_transition s s').
  { intros Hq. pose proof (run_op_docs agent op w r w' Hr Ht Hs Hq Hrun) as Hd.
    split.
    - intros c' d' Hin.
      destruct (Hd c' d' Hin) as [(d & Hdin & _ & Hst)|[(c & d & _ & _ & He)|[-> ->]]].
      + rewrite Hst. now apply Hs.
      + destruct op; cbn in He; try contradiction;
          destruct He as (_ & -> & ->); cbn; auto.
      + cbn. now apply Hadd.
    - intros t s s' Hbefore (c' & d' & Hin & Hid' & Hst').
      destruct (Hd c' d' Hin) as [(d & Hdin & Hid & Hst)|[(c & d & Hdin & Hid & He)|[-> ->]]].
      + left. apply (has_status_unique agent w t s s' Hh Hbefore).
        exists c', d. split; [exact Hdin|]. split; congruence.
      + assert (Hsd : s = Task.status d).
        { apply (has_status_unique agent w t _ _ Hh Hbefore).
          exists c, d. split; [exact Hdin|]. split; congruence. }
        pose proof (Hs c d Hdin) as Hc. rewrite Hsd.
        rewrite Hst' in He.
        destruct op; cbn in He; try contradiction;
          destruct He as (-> & _ & ->); cbn in Hc;
          repeat destruct Hc as [Hc|Hc]; rewrite Hc;
          first [ left; reflexivity
                | right; apply blocked_completed
                | right; apply allowed; constructor ].
      + exfalso. destruct (Hadd d' eq_refl) as [_ Hfresh]. apply Hfresh.
        rewrite Hid'. eapply has_status_all_ids; eauto. }
  destruct op as [task|taskId|taskId deliverables|taskId reason|taskId
                 |taskId status deliverables];
    try (apply Hqueue; exact I).
  intros task ->. cbn [run_op] in Hrun. rewrite updateTaskStatus_run in Hrun.
  destruct (located agent taskId w) as [[[c i] t]|] eqn:Hloc; [|discriminate].
  injection Hrun as <- <-.
  split; [apply updated_task_status|].
  destruct (located_nth _ _ _ _ _ _ Hloc) as (Hnth & Hid & Hdir).
  set (task := updated_task (clock w) status deliverables t).
  assert (Htask : Task.id task = taskId)
    by (unfold task; now rewrite updated_task_id).
  unfold after_update. fold task.
  destruct (moves_to_completed status c) eqn:Hmove.
  - exists completed, task. split; [|split; [exact Htask|]].
    + rewrite docs_put_same by now apply put_dir.
      unfold JS.push. apply in_or_app. right. now left.
    + apply updated_task_status.
  - exists c, task. split; [|split; [exact Htask|]].
    + rewrite docs_put_same by exact Hdir.
      eapply nth_error_In. eapply mutated_nth_same; eauto.
    + apply updated_task_status.
Qed.

Lemma w_ready_consistent : status_consistent "a" Fixture.w_ready.
Proof.
  intros c d. destruct c; vm_compute; intros H;
    repeat (destruct H as [H|H]; [subst d|]); try contradiction; auto.
Qed.

Lemma queue_status_transitions_witness :
  let run := run_op "a" (ActivateTask "t1") Fixture.w_ready in
  status_consistent "a" (snd run) /\
  forall t s s',
    has_status "a" Fixture.w_ready t s -> has_status "a" (snd run) t s' ->
    s = s' \/ queue_transition s s'.
Proof.
  intros run.
  apply (queue_status_transitions "a" (ActivateTask "t1") Fixture.w_ready
           (fst run) (snd run)).
  - split; [solve_readable|]. split; [solve_ids_truthy|]. solve_holders.
  - intros c d. destruct c; vm_compute; intros H;
      repeat (destruct H as [H|H]; [subst d|]); try contradiction; auto.
  - intros task. discriminate.
  - reflexivity.
Defined.

(** ** The method table *)

Example domain_operations_are :
  forall name,
    In name domain_operations <-> In name (map snd MCPAgentServer.aliases).
Proof.
  intros name.
  let l := eval vm_compute in domain_operations in
  change domain_operations with l.
  cbn. tauto.
Qed.




(** ** Registration *)

Section RegisterSteps.

Variables (agentId : string) (w : World).

(** The world in which the directory of the agent is [d]. *)
Let W (d : AgentDir) : World := set_fs (<[agentId := d]> (fs w)) w.

Lemma W_lookup d : fs (W d) !! agentId = Some d.
Proof. unfold W. cbn. apply lookup_insert_eq. Qed.

Lemma W_W d d' : set_fs (<[agentId := d']> (fs (W d))) (W d) = W d'.
Proof. unfold W, set_fs. cbn. now rewrite insert_insert_eq. Qed.

Lemma write_dir_W f d :
  Agent.write_dir agentId f (W d) = (Ok tt, W (f d)).
Proof. unfold Agent.write_dir. now rewrite W_lookup, W_W. Qed.

Lemma init_file_W {A : Type} (file : AgentDir -> File A) with_it
    (content : A) d :
  (forall d, with_it (file d) d = d) ->
  MCPAgentServer.init_file agentId file with_it content (W d)
  = (Ok tt, W (with_it (initialised content (file d)) d)).
Proof.
  intros Hlaw. unfold MCPAgentServer.init_file. rewrite W_lookup.
  destruct (file d) eqn:Hf; cbn [initialised].
  - apply write_dir_W.
  - now rewrite <- Hf, Hlaw.
  - now rewrite <- Hf, Hlaw.
Qed.

Lemma mkdir_agent_W :
  MCPAgentServer.mkdir_agent agentId w
  = (Ok tt, W match fs w !! agentId with Some d => d | None => empty_dir end).
Proof.
  unfold MCPAgentServer.mkdir_agent, modify, W.
  destruct (fs w !! agentId) as [d|] eqn:Hd; [|reflexivity].
  rewrite insert_id by exact Hd. now destruct w.
Qed.

Lemma readConfig_W d :
  MCPAgentServer.readConfig agentId (W d) =
  match mcp_config_json d with
  | Content c => (Ok c, W d)
  | Missing => (Throw "ENOENT: no such file or directory", W d)
  | Corrupt => (Throw "Unexpected token in JSON", W d)
  end.
Proof. unfold MCPAgentServer.readConfig. now rewrite W_lookup. Qed.

End RegisterSteps.

Lemma with_context_law d : Agent.with_context (context_md d) d = d.
Proof. now destruct d. Qed.

Lemma with_file_law c d : with_file c (file_of c d) d = d.
Proof. now destruct c, d. Qed.

Lemma with_relationships_law d :
  Agent.with_relationships (relationships_json d) d = d.
Proof. now destruct d. Qed.

(** What [registerAgent] returns and leaves behind, in every world. *)
Lemma registerAgent_run agentId capabilities forceUpdate w :
  MCPAgentServer.registerAgent agentId capabilities forceUpdate w =
  match connectedAgents w !! agentId with
  | Some _ =>
      if forceUpdate
      then (Ok (MCPAgentServer.mkRegistration
                  (MCPAgentServer.template
                     ["Agent "; agentId; " updated"; " successfully"]) true),
            world_after_register agentId capabilities w)
      else (Ok (MCPAgentServer.mkRegistration
                  (MCPAgentServer.template
                     ["Agent "; agentId; " already registered"]) false), w)
  | None =>
      (Ok (MCPAgentServer.mkRegistration
             (MCPAgentServer.template
                ["Agent "; agentId; " registered"; " successfully"]) false),
       world_after_register agentId capabilities w)
  end.
Proof.
  unfold MCPAgentServer.registerAgent, world_after_register.
  unfold get at 1. cbn [bind].
  set (d0 := match fs w !! agentId with Some d => d | None => empty_dir end).
  destruct (connectedAgents w !! agentId) as [e|] eqn:He;
    destruct forceUpdate; cbn [andb negb]; try reflexivity.
  all: rewrite (bind_ok _ _ _ _ _ (mkdir_agent_W agentId w)); fold d0;
    clearbody d0; destruct d0 as [ctx act pend comp rel cfg inc proc out];
    unfold Date_now at 1; cbn [bind];
    rewrite (bind_ok _ _ _ _ _
               (init_file_W agentId w context_md Agent.with_context _ _
                  with_context_law));
    unfold Agent.with_context;
    cbn [context_md active_json pending_json
         completed_json relationships_json mcp_config_json incoming
         processed outgoing];
    rewrite (bind_ok _ _ _ _ _
               (init_file_W agentId w active_json (with_file active) _ _
                  (with_file_law active)));
    cbn [with_file context_md active_json pending_json
         completed_json relationships_json mcp_config_json incoming
         processed outgoing];
    rewrite (bind_ok _ _ _ _ _
               (init_file_W agentId w pending_json (with_file pending) _ _
                  (with_file_law pending)));
    cbn [with_file context_md active_json pending_json
         completed_json relationships_json mcp_config_json incoming
         processed outgoing];
    rewrite (bind_ok _ _ _ _ _
               (init_file_W agentId w completed_json (with_file completed) _ _
                  (with_file_law completed)));
    cbn [with_file context_md active_json pending_json
         completed_json relationships_json mcp_config_json incoming
         processed outgoing];
    rewrite (bind_ok _ _ _ _ _
               (init_file_W agentId w relationships_json
                  Agent.with_relationships _ _ with_relationships_law));
    unfold Agent.with_relationships;
    cbn [context_md active_json pending_json
         completed_json relationships_json mcp_config_json incoming
         processed outgoing clock set_fs].
  - (* an existing agent, forced *)
    unfold bind at 1. unfold try_catch. unfold bind at 1.
    rewrite readConfig_W. cbn [mcp_config_json].
    destruct cfg as [| |c];
      unfold Date_now; cbn [bind ret clock set_fs].
    all: rewrite (bind_ok _ _ _ _ _ (write_dir_W agentId w _ _));
      unfold modify; cbn [bind ret connectedAgents set_fs clock];
      reflexivity.
  - (* a new agent, forced *)
    unfold Date_now; cbn [bind ret clock set_fs].
    rewrite (bind_ok _ _ _ _ _ (write_dir_W agentId w _ _)).
    unfold modify; cbn [bind ret connectedAgents set_fs clock].
    reflexivity.
  - (* a new agent *)
    unfold Date_now; cbn [bind ret clock set_fs].
    rewrite (bind_ok _ _ _ _ _ (write_dir_W agentId w _ _)).
    unfold modify; cbn [bind ret connectedAgents set_fs clock].
    reflexivity.
Qed.

Lemma dir_after_register_kept agentId now capabilities isExisting d :
  state_kept d (dir_after_register agentId now capabilities isExisting d).
Proof.
  unfold state_kept, dir_after_register. cbn. repeat split.
  - destruct (context_md d); cbn; congruence.
  - intros c. destruct c; cbn; intros H;
      [destruct (active_json d)|destruct (pending_json d)
      |destruct (completed_json d)]; cbn; congruence.
  - destruct (relationships_json d); cbn; congruence.
Qed.

(** A first registration records the time of the call and the count 1. *)
Lemma registerAgent_first agentId capabilities forceUpdate w :
  connectedAgents w !! agentId = None ->
  exists m w',
    MCPAgentServer.registerAgent agentId capabilities forceUpdate w
      = (Ok (MCPAgentServer.mkRegistration m false), w') /\
    connectedAgents w' !! agentId
      = Some (AgentInfo.mk agentId capabilities (clock w) (clock w) 1).
Proof.
  intros Hnew. rewrite registerAgent_run, Hnew. eexists _, _.
  split; [reflexivity|].
  unfold world_after_register. rewrite Hnew. cbn.
  now rewrite lookup_insert_eq.
Qed.

(** The default call of an agent that is registered changes nothing: the
    counter of agent [a] is 1 after the first call and 1 after the second. *)
Lemma default_reregistration_does_not_count :
  ~ second_registration_counts "a" [("feature1", "true")]
      [("feature1", "true"); ("feature2", "true")] false (Fixture.world []).
Proof.
  unfold second_registration_counts. intros (i1 & i2 & H1 & H2 & Hcount).
  vm_compute in H1. vm_compute in H2.
  injection H1 as <-. injection H2 as <-. discriminate Hcount.
Qed.

(** C3, as amended.  A register call for an agent that is registered never
    errors and never touches an existing context, task collection or
    relationship file, nor a mailbox, nor any other agent.  With
    [forceUpdate] it keeps the first-registered timestamp, adds exactly 1 to
    the registration counter, and stores the supplied capabilities in place
    of the previous ones, in the connection record and in the configuration
    document, whose other properties are kept when it can be read; without
    [forceUpdate] (the default) it changes nothing at all. *)
Theorem registerAgent_again agentId capabilities forceUpdate w info :
  connectedAgents w !! agentId = Some info ->
  1 <= AgentInfo.registrationCount info ->
  exists m w',
    MCPAgentServer.registerAgent agentId capabilities forceUpdate w
      = (Ok (MCPAgentServer.mkRegistration m forceUpdate), w') /\
    (forall d, fs w !! agentId = Some d ->
               exists d', fs w' !! agentId = Some d' /\ state_kept d d') /\
    (forall other, other <> agentId ->
                   fs w' !! other = fs w !! other /\
                   connectedAgents w' !! other = connectedAgents w !! other) /\
    if forceUpdate
    then
      exists info' d' config',
        connectedAgents w' !! agentId = Some info' /\
        AgentInfo.connectedAt info' = AgentInfo.connectedAt info /\
        AgentInfo.registrationCount info'
          = AgentInfo.registrationCount info + 1 /\
        AgentInfo.capabilities info' = capabilities /\
        fs w' !! agentId = Some d' /\
        mcp_config_json d' = Content config' /\
        McpConfig.capabilities config' = Some capabilities /\
        (forall d config,
            fs w !! agentId = Some d -> mcp_config_json d = Content config ->
            McpConfig.connectedAt config' = McpConfig.connectedAt config /\
            McpConfig.agentId config' = McpConfig.agentId config /\
            McpConfig.messageTypes config' = McpConfig.messageTypes config /\
            McpConfig.rest config' = McpConfig.rest config)
    else w' = w.
Proof.
  intros Hinfo Hcount. rewrite registerAgent_run, Hinfo.
  destruct forceUpdate.
  - eexists _, _. split; [reflexivity|].
    unfold world_after_register. rewrite Hinfo. cbn.
    split; [|split].
    + intros d Hd. rewrite Hd, lookup_insert_eq. eexists. split; [reflexivity|].
      apply dir_after_register_kept.
    + intros other Hne. now rewrite !lookup_insert_ne by congruence.
    + eexists _, _, _. rewrite !lookup_insert_eq.
      split; [reflexivity|]. cbn.
      split; [reflexivity|]. split.
      { destruct (Nat.eqb_spec (AgentInfo.registrationCount info) 0); lia. }
      split; [reflexivity|]. split; [reflexivity|]. split; [reflexivity|].
      split.
      { unfold config_after.
        now destruct (mcp_config_json
                        match fs w !! agentId with
                        | Some d => d
                        | None => empty_dir
                        end). }
      intros d config Hd Hc. rewrite Hd. unfold config_after. rewrite Hc.
      cbn. auto.
  - eexists _, _. split; [reflexivity|]. split; [|split].
    + intros d Hd. exists d. split; [exact Hd|].
      unfold state_kept. repeat split; reflexivity.
    + intros other _. auto.
    + reflexivity.
Qed.

Lemma registerAgent_again_witness :
  exists m w',
    MCPAgentServer.registerAgent "a"
      [("feature1", "true"); ("feature2", "true")] true w_registered
      = (Ok (MCPAgentServer.mkRegistration m true), w') /\
    (forall d, fs w_registered !! "a" = Some d ->
               exists d', fs w' !! "a" = Some d' /\ state_kept d d') /\
    (forall other, other <> "a" ->
                   fs w' !! other = fs w_registered !! other /\
                   connectedAgents w' !! other
                   = connectedAgents w_registered !! other) /\
    exists info' d' config',
      connectedAgents w' !! "a" = Some info' /\
      AgentInfo.connectedAt info' = "2024-06-01T12:00:00.000Z" /\
      AgentInfo.registrationCount info' = 1 + 1 /\
      AgentInfo.capabilities info'
        = [("feature1", "true"); ("feature2", "true")] /\
      fs w' !! "a" = Some d' /\
      mcp_config_json d' = Content config' /\
      McpConfig.capabilities config'
        = Some [("feature1", "true"); ("feature2", "true")] /\
      (forall d config,
          fs w_registered !! "a" = Some d ->
          mcp_config_json d = Content config ->
          McpConfig.connectedAt config' = McpConfig.connectedAt config /\
          McpConfig.agentId config' = McpConfig.agentId config /\
          McpConfig.messageTypes config' = McpConfig.messageTypes config /\
          McpConfig.rest config' = McpConfig.rest config).
Proof.
  apply (registerAgent_again "a"
           [("feature1", "true"); ("feature2", "true")] true w_registered
           (AgentInfo.mk "a" [("feature1", "true")]
              "2024-06-01T12:00:00.000Z" "2024-06-01T12:00:00.000Z" 1)).
  - reflexivity.
  - cbn. lia.
Defined.

(** The supplied capabilities replace the stored ones: [feature1] of the
    first registration is gone after a forced registration with
    [feature2] alone. *)
Example forced_reregistration_replaces_capabilities :
  exists r w' info,
    MCPAgentServer.registerAgent "a" [("feature2", "true")] true w_registered
      = (Ok r, w') /\
    connectedAgents w' !! "a" = Some info /\
    AgentInfo.capabilities info = [("feature2", "true")] /\
    AgentInfo.registrationCount info = 2 /\
    AgentInfo.connectedAt info = "2024-06-01T12:00:00.000Z" /\
    AgentInfo.lastActivity info = "2024-06-02T08:00:00.000Z".
Proof. vm_compute. eexists _, _, _. repeat split. Qed.

(** ** Relationships *)

Lemma category_push_to_same k e r :
  category k (push_to k e r) = JS.push (category k r) e.
Proof. now destruct k. Qed.

Lemma category_push_to_other k k' e r :
  k' <> k -> category k' (push_to k e r) = category k' r.
Proof. destruct k, k'; cbn; congruence. Qed.

Lemma find_push_new {A : Type} (p : A -> bool) (l : list A) x :
  p x = true -> exists y, find p (JS.push l x) = Some y.
Proof.
  intros Hx. unfold JS.push. induction l as [|z r IH]; cbn.
  - rewrite Hx. eauto.
  - destruct (p z); eauto.
Qed.

Lemma getRelationships_run agent w :
  Agent.getRelationships agent w =
  match fs w !! agent with
  | Some d =>
      match relationships_json d with
      | Content r => (Ok r, w)
      | Missing => (Throw "ENOENT: no such file or directory", w)
      | Corrupt => (Throw "Unexpected token in JSON", w)
      end
  | None => (Throw "ENOENT: no such file or directory", w)
  end.
Proof. reflexivity. Qed.

(** The registry of an agent after a call of [appendToContext], whatever
    its outcome. *)
Lemma appendToContext_relationships agent content w r w' d :
  Agent.appendToContext agent content w = (r, w') ->
  fs w !! agent = Some d ->
  exists d', fs w' !! agent = Some d' /\
             relationships_json d' = relationships_json d.
Proof.
  unfold Agent.appendToContext, Agent.readContext, Agent.updateContext,
    Agent.write_dir, Date_now, bind.
  intros Hrun Hd. rewrite Hd in Hrun.
  destruct (context_md d); cbn in Hrun; try rewrite Hd in Hrun;
    injection Hrun as _ <-; cbn; rewrite ?lookup_insert_eq; eauto.
Qed.

(** The [add...] methods of the relationship manager are idempotent: a call
    that follows a call with the same peer and category returns without
    changing the world, and when the peer was not in the category before
    the first call, the category holds exactly one entry for it. *)
Lemma RelationshipManager_add_idempotent k agent peer w r1 w1 :
  RelationshipManager.addRelationship k agent peer w = (r1, w1) ->
  (exists u, r1 = Ok u) \/ w1 <> w ->
  RelationshipManager.addRelationship k agent peer w1 = (Ok tt, w1) /\
  (entries_for agent k peer w = [] -> length (entries_for agent k peer w1) = 1).
Proof.
  assert (Hgen : forall line type,
    RelationshipManager.add k line agent peer type w = (r1, w1) ->
    (exists u, r1 = Ok u) \/ w1 <> w ->
    (forall line', RelationshipManager.add k line' agent peer type w1
                   = (Ok tt, w1)) /\
    (entries_for agent k peer w = [] ->
     length (entries_for agent k peer w1) = 1)).
  { intros line type Hrun Hok. unfold RelationshipManager.add in Hrun.
    unfold bind at 1 in Hrun. rewrite getRelationships_run in Hrun.
    destruct (fs w !! agent) as [d|] eqn:Hd;
      [|injection Hrun as <- <-; destruct Hok as [[u Hu]|Hw];
        [discriminate|congruence]].
    destruct (relationships_json d) as [| |rel] eqn:Hrel;
      try (injection Hrun as <- <-; destruct Hok as [[u Hu]|Hw];
           [discriminate|congruence]).
    destruct (find _ (category k rel)) as [existing|] eqn:Hfind.
    - (* already there *)
      injection Hrun as <- <-. split.
      + intros line'. unfold RelationshipManager.add, bind at 1.
        rewrite getRelationships_run, Hd, Hrel, Hfind. reflexivity.
      + unfold entries_for, MCPAgentServer.relationships_or_default.
        rewrite Hd, Hrel. intros Hnone. exfalso.
        apply find_some in Hfind. destruct Hfind as [Hin Hp].
        assert (Hf : In existing
                       (List.filter
                          (fun e => String.eqb (Relationship.agentId e) peer)
                          (category k rel)))
          by (apply filter_In; auto).
        rewrite Hnone in Hf. contradiction.
    - (* pushed *)
      unfold Date_now at 1 in Hrun. cbn [bind] in Hrun.
      unfold Agent.updateRelationships, Agent.write_dir, bind at 1 in Hrun.
      rewrite Hd in Hrun.
      set (e := Relationship.mk peer type (clock w) "active" None) in *.
      set (wr := set_fs _ w) in Hrun.
      assert (Hwr : fs wr !! agent
                    = Some (Agent.with_relationships
                              (Content (push_to k e rel)) d))
        by (unfold wr; cbn; apply lookup_insert_eq).
      destruct (appendToContext_relationships _ _ _ _ _ _ Hrun Hwr)
        as (d' & Hd' & Hrel').
      cbn in Hrel'. split.
      + intros line'. unfold RelationshipManager.add, bind at 1.
        rewrite getRelationships_run, Hd', Hrel'.
        rewrite category_push_to_same.
        destruct (find_push_new
                    (fun c => String.eqb (Relationship.agentId c) peer)
                    (category k rel) e (String.eqb_refl peer)) as [y Hy].
        now rewrite Hy.
      + unfold entries_for, MCPAgentServer.relationships_or_default.
        rewrite Hd, Hrel, Hd', Hrel', category_push_to_same.
        unfold JS.push. rewrite List.filter_app. intros ->. cbn.
        now rewrite String.eqb_refl. }
  intros Hrun Hok.
  destruct k; cbn [RelationshipManager.addRelationship] in *;
    unfold RelationshipManager.addConsumer, RelationshipManager.addProducer,
      RelationshipManager.addBidirectionalRelationship,
      RelationshipManager.addOptionalRelationship in *;
    destruct (Hgen _ _ Hrun Hok) as [H1 H2]; split; auto.
Qed.

(** C4, at the dispatcher.  Two [relationship/add] calls with the same peer
    and category leave two entries for the peer in the registry of the
    owner, for each of the four categories. *)
Theorem addRelationship_twice_duplicates :
  forall k,
    exists m1 w1 m2 w2,
      MCPAgentServer.relationship_add
        (MCPAgentServer.mkRelationshipAddParams "a" "b" (type_name k)) w_alone
        = (Ok m1, w1) /\
      MCPAgentServer.relationship_add
        (MCPAgentServer.mkRelationshipAddParams "a" "b" (type_name k)) w1
        = (Ok m2, w2) /\
      entries_for "a" k "b" w_alone = [] /\
      length (entries_for "a" k "b" w1) = 1 /\
      length (entries_for "a" k "b" w2) = 2.
Proof.
  intros k.
  pose (r1 := MCPAgentServer.relationship_add
                (MCPAgentServer.mkRelationshipAddParams "a" "b" (type_name k))
                w_alone).
  pose (r2 := MCPAgentServer.relationship_add
                (MCPAgentServer.mkRelationshipAddParams "a" "b" (type_name k))
                (snd r1)).
  exists (match fst r1 with Ok m => m | Throw m => m end), (snd r1),
         (match fst r2 with Ok m => m | Throw m => m end), (snd r2).
  subst r1 r2. destruct k; vm_compute; repeat split.
Qed.

(** The same two calls through the relationship manager leave one entry. *)
Example addConsumer_twice_once :
  exists w1,
    RelationshipManager.addConsumer "a" "b" "direct" w_alone = (Ok tt, w1) /\
    RelationshipManager.addConsumer "a" "b" "direct" w1 = (Ok tt, w1) /\
    length (entries_for "a" consumers "b" w1) = 1.
Proof.
  exists (snd (RelationshipManager.addConsumer "a" "b" "direct" w_alone)).
  vm_compute. repeat split.
Qed.

(** ** The proxy before the handshake *)

(** Before the handshake the proxy serves [tools/list] itself. *)
Lemma tools_list_served_before_handshake :
  ~ rejects_before_handshake echo_server
      (MCPProxy.mkRequest "1" "tools/list" None).
Proof.
  unfold rejects_before_handshake, rejected. intros Hclaim.
  destruct Hclaim as (_ & id & code & message & Hout).
  - cbn. intros [H|[H|[H|[]]]]; discriminate.
  - vm_compute in Hout. discriminate.
Qed.

(** Before the handshake a [tools/call] is sent on to the shared server,
    under the slash-separated name of the tool. *)
Example tools_call_forwarded_before_handshake :
  MCPProxy.handleStdinMessage echo_server
    (Some (MCPProxy.mkRequest "7" "tools/call"
             (Some (MCPProxy.mkParams "task-update" None "{}"))))
    proxy_start
  = (Ok tt,
     MCPProxy.mkState false [MCPProxy.ToolCallResult "7" "ok"]
       [MCPProxy.mkForwarded "task/update" (Some "{}")]).
Proof. reflexivity. Qed.

Lemma not_In_eqb (x : string) (l : list string) y :
  ~ In x l -> In y l -> String.eqb x y = false.
Proof.
  intros Hn Hy. apply String.eqb_neq. intros ->. contradiction.
Qed.

(** C9, as amended.  Before the handshake has completed, a request for any
    method other than [initialize], [initialized], [ping], the discovery
    methods [tools/list], [resources/list], [prompts/list], and
    [tools/call] is answered with the error -32603 [MCP not initialized]
    and is neither served by the proxy nor sent to the shared server; a
    request for [initialize] or a discovery method is answered by the proxy
    itself and nothing is sent. *)
Theorem proxy_gate_before_handshake server request s :
  MCPProxy.initialized s = false ->
  (~ In (MCPProxy.method request)
        (MCPProxy.allowedBeforeInit ++ answered_locally ++ ["tools/call"]) ->
   MCPProxy.handleStdinMessage server (Some request) s
   = (Ok tt,
      MCPProxy.mkState false
        (MCPProxy.stdout s
         ++ [MCPProxy.Error
               (if JS.truthy (MCPProxy.id request)
                then Some (MCPProxy.id request) else None)
               (-32603) "MCP not initialized"])
        (MCPProxy.requests s))) /\
  (In (MCPProxy.method request) answered_locally ->
   exists result,
     MCPProxy.handleStdinMessage server (Some request) s
     = (Ok tt,
        MCPProxy.mkState false
          (MCPProxy.stdout s
           ++ [MCPProxy.Result (MCPProxy.id request) result])
          (MCPProxy.requests s))).
Proof.
  intros Hinit. destruct s as [i out reqs]. cbn in Hinit. subst i.
  cbn [MCPProxy.stdout MCPProxy.requests]. split.
  - intros Hnot.
    assert (Hne : forall y,
              In y (MCPProxy.allowedBeforeInit ++ answered_locally
                    ++ ["tools/call"]) ->
              String.eqb (MCPProxy.method request) y = false)
      by (intros y; now apply not_In_eqb).
    unfold MCPProxy.handleStdinMessage, try_catch, MCPProxy.handle.
    rewrite (Hne "initialize"), (Hne "initialized"), (Hne "tools/list"),
      (Hne "resources/list"), (Hne "prompts/list"), (Hne "tools/call")
      by (cbn; tauto).
    unfold JS.includes, MCPProxy.allowedBeforeInit. cbn [existsb].
    rewrite (Hne "initialize"), (Hne "initialized"), (Hne "ping")
      by (cbn; tauto).
    reflexivity.
  - intros Hin. unfold MCPProxy.handleStdinMessage, try_catch, MCPProxy.handle.
    cbn in Hin.
    destruct Hin as [<-|[<-|[<-|[<-|[]]]]]; cbn; eauto.
Qed.

Lemma proxy_gate_before_handshake_witness :
  (~ In "task/get"
        (MCPProxy.allowedBeforeInit ++ answered_locally ++ ["tools/call"]) ->
   MCPProxy.handleStdinMessage echo_server
     (Some (MCPProxy.mkRequest "3" "task/get" None)) proxy_start
   = (Ok tt,
      MCPProxy.mkState false
        [MCPProxy.Error (Some "3") (-32603) "MCP not initialized"] [])) /\
  (In "task/get" answered_locally ->
   exists result,
     MCPProxy.handleStdinMessage echo_server
       (Some (MCPProxy.mkRequest "3" "task/get" None)) proxy_start
     = (Ok tt,
        MCPProxy.mkState false [MCPProxy.Result "3" result] [])).
Proof.
  apply (proxy_gate_before_handshake echo_server
           (MCPProxy.mkRequest "3" "task/get" None) proxy_start).
  reflexivity.
Defined.

(** ** Frames of monadic computations *)

Section Keeps.

Variable R : World -> World -> Prop.
Hypothesis R_refl : forall w, R w w.
Hypothesis R_trans : forall w1 w2 w3, R w1 w2 -> R w2 w3 -> R w1 w3.

Lemma keeps_ret {A : Type} (a : A) : keeps R (ret a).
Proof. intros w r w' [= _ <-]. apply R_refl. Qed.

Lemma keeps_throw {A : Type} e : keeps R (@throw World A e).
Proof. intros w r w' [= _ <-]. apply R_refl. Qed.

Lemma keeps_get : keeps R get.
Proof. intros w r w' [= _ <-]. apply R_refl. Qed.

Lemma keeps_bind {A B : Type} (m : M World A) (k : A -> M World B) :
  keeps R m -> (forall a, keeps R (k a)) -> keeps R (bind m k).
Proof.
  intros Hm Hk w r w'. unfold bind.
  destruct (m w) as [[a|e] w1] eqn:Hmw.
  - intros Hkw. eapply R_trans; [eapply Hm|eapply Hk]; eauto.
  - intros [= _ <-]. eapply Hm; eauto.
Qed.

Lemma keeps_try_catch {A : Type} (m : M World A) h :
  keeps R m -> (forall e, keeps R (h e)) -> keeps R (try_catch m h).
Proof.
  intros Hm Hh w r w'. unfold try_catch.
  destruct (m w) as [[a|e] w1] eqn:Hmw.
  - intros [= _ <-]. eapply Hm; eauto.
  - intros Hhw. eapply R_trans; [eapply Hm|eapply Hh]; eauto.
Qed.

Lemma keeps_mapM {A B : Type} (f : A -> M World B) l :
  (forall a, keeps R (f a)) -> keeps R (mapM f l).
Proof.
  intros Hf. induction l as [|x r IH]; cbn [mapM].
  - apply keeps_ret.
  - apply keeps_bind; [apply Hf|]. intros y.
    apply keeps_bind; [apply IH|]. intros ys. apply keeps_ret.
Qed.

Lemma keeps_forEach {A : Type} (body : A -> M World unit) l :
  (forall a, keeps R (body a)) -> keeps R (forEach l body).
Proof.
  intros Hf. induction l as [|x r IH]; cbn [forEach].
  - apply keeps_ret.
  - apply keeps_bind; [apply Hf|]. intros _. apply IH.
Qed.

Lemma keeps_if {A : Type} (b : bool) (m1 m2 : M World A) :
  keeps R m1 -> keeps R m2 -> keeps R (if b then m1 else m2).
Proof. now destruct b. Qed.

End Keeps.

Lemma handler_frame_refl agent w : handler_frame agent w w.
Proof. unfold handler_frame. auto 10. Qed.

Lemma handler_frame_trans agent w1 w2 w3 :
  handler_frame agent w1 w2 -> handler_frame agent w2 w3 ->
  handler_frame agent w1 w3.
Proof.
  intros (A1 & A2 & A3 & A4 & A5 & A6 & A7) (B1 & B2 & B3 & B4 & B5 & B6 & B7).
  unfold handler_frame.
  split; [intros b; now rewrite B1|].
  split; [intros b Hb; now rewrite B2, A2|].
  repeat split; congruence.
Qed.

(** A rewriting of the directory of the agent that keeps its mailboxes. *)
Lemma write_dir_frame agent f :
  (forall d, incoming (f d) = incoming d /\ processed (f d) = processed d /\
             outgoing (f d) = outgoing d) ->
  keeps (handler_frame agent) (Agent.write_dir agent f).
Proof.
  intros Hf w r w'. unfold Agent.write_dir.
  destruct (fs w !! agent) as [d|] eqn:Hd.
  - intros [= _ <-]. unfold handler_frame. cbn. repeat split.
    + intros b. unfold mailboxes. cbn.
      destruct (decide (b = agent)) as [->|Hne].
      * rewrite lookup_insert_eq, Hd. cbn.
        destruct (Hf d) as (-> & -> & ->). reflexivity.
      * now rewrite lookup_insert_ne.
    + intros b Hb. now rewrite lookup_insert_ne.
  - intros [= _ <-]. apply handler_frame_refl.
Qed.

Lemma write_collection_frame agent c tasks :
  keeps (handler_frame agent) (write_collection agent c tasks).
Proof.
  intros w r w' H.
  apply (write_dir_frame agent (with_file c (Content tasks))
           ltac:(intros d; now destruct c) w r w').
  exact H.
Qed.

Lemma uuidv4_frame agent : keeps (handler_frame agent) uuidv4.
Proof. intros w r w' [= _ <-]. unfold handler_frame. cbn. auto 10. Qed.

Lemma Date_now_frame agent : keeps (handler_frame agent) Date_now.
Proof. intros w r w' [= _ <-]. apply handler_frame_refl. Qed.

Ltac frame_step agent :=
  first
    [ apply (keeps_bind _ (handler_frame_trans agent))
    | apply (keeps_try_catch _ (handler_frame_trans agent))
    | apply (keeps_ret _ (handler_frame_refl agent))
    | apply (keeps_throw _ (handler_frame_refl agent))
    | apply (keeps_get _ (handler_frame_refl agent))
    | apply (keeps_mapM _ (handler_frame_refl agent)
               (handler_frame_trans agent))
    | apply keeps_if
    | apply uuidv4_frame
    | apply Date_now_frame
    | apply write_collection_frame
    | intro ].

Lemma Task_fromJSON_frame agent data :
  keeps (handler_frame agent) (Task_fromJSON data).
Proof. unfold Task_fromJSON. repeat frame_step agent. Qed.

Lemma loadTasks_frame agent c :
  keeps (handler_frame agent) (TaskQueue.loadTasks agent c).
Proof.
  intros w r w'. unfold TaskQueue.loadTasks.
  destruct (read_collection agent c w).
  - intros [= _ <-]. apply handler_frame_refl.
  - intros [= _ <-]. apply handler_frame_refl.
  - apply (keeps_mapM _ (handler_frame_refl agent)
             (handler_frame_trans agent)).
    apply Task_fromJSON_frame.
Qed.

Lemma addTask_frame agent task :
  keeps (handler_frame agent) (TaskQueue.addTask agent task).
Proof.
  unfold TaskQueue.addTask, TaskQueue.getPendingTasks, TaskQueue.saveTasks.
  apply keeps_if; [apply (keeps_throw _ (handler_frame_refl agent))|].
  apply (keeps_bind _ (handler_frame_trans agent));
    [apply loadTasks_frame|intros l].
  repeat frame_step agent.
Qed.

Lemma readContext_frame agent :
  keeps (handler_frame agent) (Agent.readContext agent).
Proof.
  intros w r w'. unfold Agent.readContext.
  destruct (fs w !! agent) as [d|]; [destruct (context_md d)|];
    intros [= _ <-]; apply handler_frame_refl.
Qed.

Lemma appendToContext_frame agent content :
  keeps (handler_frame agent) (Agent.appendToContext agent content).
Proof.
  unfold Agent.appendToContext, Agent.updateContext.
  apply (keeps_bind _ (handler_frame_trans agent));
    [apply readContext_frame|intros c].
  apply (keeps_bind _ (handler_frame_trans agent));
    [apply Date_now_frame|intros t].
  apply (keeps_bind _ (handler_frame_trans agent));
    [apply Date_now_frame|intros t'].
  apply write_dir_frame. intros d. auto.
Qed.

Lemma run_handler_frame h agent message :
  keeps (handler_frame agent)
        (CommunicationProtocol.run_handler h agent message).
Proof.
  destruct h; cbn [CommunicationProtocol.run_handler];
    try apply appendToContext_frame.
  apply (keeps_bind _ (handler_frame_trans agent));
    [apply Task_fromJSON_frame|intros task].
  apply (keeps_bind _ (handler_frame_trans agent));
    [apply addTask_frame|intros _].
  apply appendToContext_frame.
Qed.

(** ** One message file *)

Lemma dispatches_app l1 l2 :
  dispatches (l1 ++ l2) = dispatches l1 ++ dispatches l2.
Proof. unfold dispatches. apply flat_map_app. Qed.

Lemma includes_In_true l x : In x l -> JS.includes l x = true.
Proof. apply includes_In. Qed.

(** A message of one of the seven types, for an agent with handlers, is
    dispatched once, whether its handler returns or throws. *)
Lemma handleMessage_dispatches agent message w :
  In agent (messageHandlers w) ->
  CommunicationProtocol.handler_for (Message.type message) <> None ->
  exists w0 event,
    handler_frame agent w w0 /\
    (event = MessageProcessed (Message.id message) agent \/
     event = ErrorHandlingMessage (Message.id message) agent) /\
    CommunicationProtocol.handleMessage agent message w
    = (Ok tt, set_console (console w0 ++ [event]) w0).
Proof.
  intros Hin Hh. unfold CommunicationProtocol.handleMessage.
  unfold get at 1. cbn [bind]. rewrite (includes_In_true _ _ Hin). cbn [negb].
  unfold CommunicationProtocol.property_for.
  destruct (CommunicationProtocol.handler_for (Message.type message))
    as [h|]; [|congruence].
  cbn [CommunicationProtocol.call]. unfold try_catch, bind.
  destruct (CommunicationProtocol.run_handler h agent message w)
    as [[u|e] w0] eqn:Hrun;
    pose proof (run_handler_frame h agent message w _ _ Hrun) as Hf;
    exists w0.
  - exists (MessageProcessed (Message.id message) agent).
    split; [exact Hf|]. split; [now left|reflexivity].
  - exists (ErrorHandlingMessage (Message.id message) agent).
    split; [exact Hf|]. split; [now right|reflexivity].
Qed.

Lemma handler_frame_incoming agent w w0 :
  handler_frame agent w w0 ->
  incoming_of agent w0 = incoming_of agent w /\
  processed_of agent w0 = processed_of agent w /\
  (is_Some (fs w !! agent) -> is_Some (fs w0 !! agent)).
Proof.
  intros (Hm & _). specialize (Hm agent). unfold mailboxes in Hm.
  unfold incoming_of, processed_of.
  destruct (fs w0 !! agent) as [d0|], (fs w !! agent) as [d|];
    cbn in Hm; try discriminate; repeat split; try congruence; eauto;
    intros [x Hx]; discriminate.
Qed.

Lemma archiveMessage_run agent name message content w1 :
  mail_lookup name (incoming_of agent w1) = Some content ->
  (rename_fails w1 (CommunicationProtocol.incoming_path agent name) = true ->
   unlink_fails w1 (CommunicationProtocol.incoming_path agent name) = false) ->
  exists w2,
    CommunicationProtocol.archiveMessage agent name message w1 = (Ok tt, w2) /\
    incoming_of agent w2 = mail_remove name (incoming_of agent w1) /\
    processed_of agent w2
    = (if rename_fails w1 (CommunicationProtocol.incoming_path agent name)
       then processed_of agent w1
       else mail_put name content (processed_of agent w1)) /\
    (forall b, b <> agent -> fs w2 !! b = fs w1 !! b) /\
    dispatches (console w2) = dispatches (console w1) /\
    rename_fails w2 = rename_fails w1 /\
    unlink_fails w2 = unlink_fails w1 /\
    registeredAgents w2 = registeredAgents w1 /\
    messageHandlers w2 = messageHandlers w1.
Proof.
  unfold incoming_of, processed_of. intros Hl Hfault.
  destruct (fs w1 !! agent) as [d|] eqn:Hd; [|discriminate].
  unfold CommunicationProtocol.archiveMessage, try_catch,
    CommunicationProtocol.rename_to_processed.
  rewrite Hd, Hl.
  destruct (rename_fails w1 (CommunicationProtocol.incoming_path agent name))
    eqn:Hren.
  - (* the rename fails, the file is deleted *)
    unfold log, modify, bind, CommunicationProtocol.unlink. cbn.
    rewrite Hd, Hl, (Hfault eq_refl).
    unfold Agent.write_dir. cbn. rewrite Hd.
    eexists. split; [reflexivity|]. cbn. rewrite lookup_insert_eq. cbn.
    repeat split; try reflexivity.
    + intros b Hb. now rewrite lookup_insert_ne.
    + rewrite dispatches_app. cbn. apply app_nil_r.
  - unfold Agent.write_dir. rewrite Hd.
    eexists. split; [reflexivity|]. cbn. rewrite lookup_insert_eq. cbn.
    repeat split; try reflexivity.
    intros b Hb. now rewrite lookup_insert_ne.
Qed.

Lemma processMessageFile_consumes agent name message w :
  In agent (messageHandlers w) ->
  mail_lookup name (incoming_of agent w) = Some (Some message) ->
  CommunicationProtocol.handler_for (Message.type message) <> None ->
  no_double_fault w ->
  exists w',
    CommunicationProtocol.processMessageFile agent name w = (Ok tt, w') /\
    consumed agent name (Some message) (Message.id message) w w'.
Proof.
  intros Hin Hl Hh Hfault.
  destruct (handleMessage_dispatches agent message w Hin Hh)
    as (w0 & event & Hframe & Hev & Hrun).
  destruct (handler_frame_incoming _ _ _ Hframe) as (Hinc & Hproc & _).
  destruct Hframe as (_ & Hothers & Hcon & Hren & Hunl & Hreg & Hhan).
  set (w1 := set_console (console w0 ++ [event]) w0) in *.
  assert (Hinc1 : incoming_of agent w1 = incoming_of agent w)
    by (rewrite <- Hinc; reflexivity).
  assert (Hproc1 : processed_of agent w1 = processed_of agent w)
    by (rewrite <- Hproc; reflexivity).
  destruct (archiveMessage_run agent name message (Some message) w1)
    as (w2 & Harch & A1 & A2 & A3 & A4 & A5 & A6 & A7 & A8).
  { now rewrite Hinc1. }
  { cbn. rewrite Hren, Hunl. apply Hfault. }
  exists w2. split.
  - unfold CommunicationProtocol.processMessageFile, try_catch.
    unfold bind at 1. unfold CommunicationProtocol.readMessage.
    unfold incoming_of in Hl.
    destruct (fs w !! agent) as [d|] eqn:Hd; [|discriminate].
    rewrite Hl. rewrite (bind_ok _ _ _ _ _ Hrun). now rewrite Harch.
  - unfold consumed. rewrite A1, A2, Hinc1, Hproc1.
    assert (Hren1 : rename_fails w1 = rename_fails w) by (cbn; exact Hren).
    rewrite Hren1. repeat split; try congruence.
    + intros b Hb. rewrite A3 by exact Hb. cbn. now apply Hothers.
    + rewrite A4. cbn. rewrite dispatches_app, Hcon.
      destruct Hev as [-> | ->]; reflexivity.
    + rewrite A6. cbn. exact Hunl.
    + rewrite A7. cbn. exact Hreg.
    + rewrite A8. cbn. exact Hhan.
Qed.

(** ** Message directories *)

Lemma mail_lookup_remove_ne n n' box :
  n' <> n -> mail_lookup n' (mail_remove n box) = mail_lookup n' box.
Proof.
  intros Hne. unfold mail_lookup, mail_remove.
  induction box as [|[k c] r IH]; [reflexivity|]. cbn.
  destruct (String.eqb_spec k n) as [->|Hk]; cbn.
  - rewrite IH. destruct (String.eqb_spec n n'); [congruence|reflexivity].
  - destruct (String.eqb k n'); [reflexivity|apply IH].
Qed.

Lemma mail_lookup_remove_eq n box : mail_lookup n (mail_remove n box) = None.
Proof.
  unfold mail_lookup, mail_remove.
  induction box as [|[k c] r IH]; [reflexivity|]. cbn.
  destruct (String.eqb_spec k n) as [->|Hk]; cbn; [exact IH|].
  destruct (String.eqb_spec k n); [congruence|exact IH].
Qed.

Lemma mail_lookup_app n box1 box2 :
  mail_lookup n (box1 ++ box2)
  = match mail_lookup n box1 with
    | Some c => Some c
    | None => mail_lookup n box2
    end.
Proof.
  unfold mail_lookup. induction box1 as [|[k c] r IH]; [reflexivity|]. cbn.
  destruct (String.eqb k n); [reflexivity|exact IH].
Qed.

Lemma mail_lookup_put n n' c box :
  mail_lookup n' (mail_put n c box)
  = if String.eqb n n' then Some c else mail_lookup n' box.
Proof.
  unfold mail_put. rewrite mail_lookup_app.
  destruct (String.eqb_spec n n') as [->|Hne].
  - rewrite mail_lookup_remove_eq. unfold mail_lookup. cbn.
    now rewrite String.eqb_refl.
  - rewrite mail_lookup_remove_ne by congruence.
    destruct (mail_lookup n' box); [reflexivity|].
    unfold mail_lookup. cbn.
    destruct (String.eqb_spec n n'); [congruence|reflexivity].
Qed.

Lemma mail_lookup_In n c box :
  List.NoDup (map fst box) -> In (n, c) box -> mail_lookup n box = Some c.
Proof.
  unfold mail_lookup. induction box as [|[k c'] r IH]; cbn; [contradiction|].
  intros Hnd. apply List.NoDup_cons_iff in Hnd. destruct Hnd as [Hk Hr].
  intros [[= -> ->]|Hin].
  - now rewrite String.eqb_refl.
  - destruct (String.eqb_spec k n) as [->|Hne]; [|now apply IH].
    exfalso. apply Hk. change n with (fst (n, c)). now apply in_map.
Qed.

Lemma filter_filter {A : Type} (p q : A -> bool) l :
  List.filter p (List.filter q l) = List.filter (fun x => q x && p x) l.
Proof.
  induction l as [|x r IH]; [reflexivity|]. cbn.
  destruct (q x); cbn; [destruct (p x)|]; now rewrite IH.
Qed.

Lemma filter_ext_in' {A : Type} (p q : A -> bool) l :
  (forall x, In x l -> p x = q x) -> List.filter p l = List.filter q l.
Proof.
  induction l as [|x r IH]; [reflexivity|]. intros H. cbn.
  rewrite (H x) by now left. rewrite IH; [reflexivity|].
  intros y Hy. apply H. now right.
Qed.

(** ** The files of one agent *)

Lemma forEach_consumes agent names : forall w,
  In agent (messageHandlers w) ->
  no_double_fault w ->
  List.NoDup names ->
  (forall n, In n names ->
     exists m, mail_lookup n (incoming_of agent w) = Some (Some m) /\
               CommunicationProtocol.handler_for (Message.type m) <> None) ->
  exists w',
    forEach names (CommunicationProtocol.processMessageFile agent) w
    = (Ok tt, w') /\
    incoming_of agent w'
    = List.filter (fun e => negb (JS.includes names (fst e)))
        (incoming_of agent w) /\
    (forall n, In n names ->
       mail_lookup n (processed_of agent w')
       = if rename_fails w (CommunicationProtocol.incoming_path agent n)
         then mail_lookup n (processed_of agent w)
         else mail_lookup n (incoming_of agent w)) /\
    (forall n, ~ In n names ->
       mail_lookup n (processed_of agent w')
       = mail_lookup n (processed_of agent w)) /\
    (forall b, b <> agent -> fs w' !! b = fs w !! b) /\
    dispatches (console w')
    = dispatches (console w)
      ++ map (fun n => (agent, id_of (mail_lookup n (incoming_of agent w))))
           names /\
    rename_fails w' = rename_fails w /\
    unlink_fails w' = unlink_fails w /\
    registeredAgents w' = registeredAgents w /\
    messageHandlers w' = messageHandlers w.
Proof.
  induction names as [|n rest IH]; intros w Hin Hfault Hnd Hfiles.
  - exists w. cbn. rewrite app_nil_r. repeat split; try reflexivity.
    + induction (incoming_of agent w) as [|e r IHr]; [reflexivity|].
      cbn. now rewrite <- IHr.
    + intros n [].
  - apply List.NoDup_cons_iff in Hnd. destruct Hnd as [Hn Hrest].
    destruct (Hfiles n (or_introl eq_refl)) as (m & Hl & Hh).
    destruct (processMessageFile_consumes agent n m w Hin Hl Hh Hfault)
      as (w1 & Hrun1 & C1 & C2 & C3 & C4 & C5 & C6 & C7 & C8).
    assert (Hlook1 : forall n', n' <> n ->
              mail_lookup n' (incoming_of agent w1)
              = mail_lookup n' (incoming_of agent w))
      by (intros n' Hne; rewrite C1; now apply mail_lookup_remove_ne).
    assert (Hproc1 : forall n', n' <> n ->
              mail_lookup n' (processed_of agent w1)
              = mail_lookup n' (processed_of agent w)).
    { intros n' Hne. rewrite C2.
      destruct (rename_fails w _); [reflexivity|].
      rewrite mail_lookup_put.
      destruct (String.eqb_spec n n'); [congruence|reflexivity]. }
    destruct (IH w1) as (w' & Hrun & I1 & I2 & I3 & I4 & I5 & I6 & I7 & I8 & I9).
    { now rewrite C8. }
    { unfold no_double_fault. rewrite C5, C6. exact Hfault. }
    { exact Hrest. }
    { intros n' Hn'. destruct (Hfiles n' (or_intror Hn')) as (m' & Hl' & Hh').
      exists m'. split; [|exact Hh']. rewrite Hlook1; [exact Hl'|].
      intros ->. contradiction. }
    exists w'. split.
    { cbn [forEach]. now rewrite (bind_ok _ _ _ _ _ Hrun1). }
    split; [|split; [|split; [|split; [|split]]]].
    + rewrite I1, C1. unfold mail_remove. rewrite filter_filter.
      apply filter_ext_in'. intros e _. cbn.
      rewrite (String.eqb_sym (fst e) n).
      destruct (String.eqb n (fst e)); [reflexivity|].
      cbn. reflexivity.
    + intros n' [<-|Hn'].
      * rewrite I3 by exact Hn. rewrite C2.
        destruct (rename_fails w _); [reflexivity|].
        rewrite mail_lookup_put, String.eqb_refl. now rewrite Hl.
      * assert (Hne : n' <> n) by (intros ->; contradiction).
        rewrite I2 by exact Hn'. rewrite C5.
        now rewrite Hproc1, Hlook1 by exact Hne.
    + intros n' Hn'. rewrite I3 by (intros H; apply Hn'; now right).
      apply Hproc1. intros ->. apply Hn'. now left.
    + intros b Hb. now rewrite I4, C3.
    + rewrite I5, C4, <- app_assoc. cbn. rewrite Hl. cbn. do 2 f_equal.
      apply map_ext_in. intros n' Hn'. rewrite Hlook1; [reflexivity|].
      intros ->. contradiction.
    + repeat split; congruence.
Qed.

(** ** The incoming directory of one agent *)

Lemma json_names (box : Mailbox) :
  List.filter (fun file => JS.endsWith file ".json") (map fst box)
  = map fst (json_files box).
Proof.
  unfold json_files. induction box as [|[n c] r IH]; [reflexivity|]. cbn.
  destruct (JS.endsWith n ".json"); cbn; now rewrite IH.
Qed.

Lemma json_files_In (box : Mailbox) e :
  In e (json_files box) <-> In e box /\ JS.endsWith (fst e) ".json" = true.
Proof. unfold json_files. apply filter_In. Qed.

Lemma NoDup_json_names (box : Mailbox) :
  List.NoDup (map fst box) -> List.NoDup (map fst (json_files box)).
Proof.
  intros H. rewrite <- json_names. now apply List.NoDup_filter.
Qed.

Lemma filter_nil_iff {A : Type} (p : A -> bool) l :
  (forall x, In x l -> p x = false) -> List.filter p l = [].
Proof.
  induction l as [|x r IH]; [reflexivity|]. intros H. cbn.
  rewrite (H x) by now left. apply IH. intros y Hy. apply H. now right.
Qed.

(** [processIncomingMessages] on a well-formed incoming directory. *)
Lemma processIncomingMessages_consumes agent w :
  In agent (messageHandlers w) ->
  no_double_fault w ->
  well_formed_mail (incoming_of agent w) ->
  exists w',
    CommunicationProtocol.processIncomingMessages agent w = (Ok tt, w') /\
    json_files (incoming_of agent w') = [] /\
    (forall e, In e (json_files (incoming_of agent w)) ->
       archived_or_deleted agent e w w') /\
    (forall b, b <> agent -> fs w' !! b = fs w !! b) /\
    dispatches (console w')
    = dispatches (console w)
      ++ map (fun e => (agent, message_id e))
           (json_files (incoming_of agent w)) /\
    rename_fails w' = rename_fails w /\
    unlink_fails w' = unlink_fails w /\
    registeredAgents w' = registeredAgents w /\
    messageHandlers w' = messageHandlers w.
Proof.
  intros Hin Hfault [Hnd Hwf].
  unfold CommunicationProtocol.processIncomingMessages, try_catch.
  unfold bind at 1. unfold CommunicationProtocol.readdir.
  destruct (fs w !! agent) as [d|] eqn:Hd.
  - assert (Hbox : incoming_of agent w = incoming d)
      by (unfold incoming_of; now rewrite Hd).
    rewrite Hbox in *. rewrite json_names.
    assert (Hlook : forall e, In e (json_files (incoming d)) ->
              mail_lookup (fst e) (incoming d) = Some (snd e)).
    { intros [n c] He. apply mail_lookup_In; [exact Hnd|].
      now apply json_files_In in He. }
    destruct (forEach_consumes agent (map fst (json_files (incoming d))) w)
      as (w' & Hrun & I1 & I2 & I3 & I4 & I5 & I6 & I7 & I8 & I9).
    { exact Hin. }
    { exact Hfault. }
    { now apply NoDup_json_names. }
    { intros n Hn. apply in_map_iff in Hn. destruct Hn as ([n' c] & <- & He).
      destruct (Hwf n' c He) as (m & -> & Hh).
      exists m. split; [|exact Hh]. rewrite Hbox.
      apply (Hlook (n', Some m) He). }
    rewrite Hbox in *.
    exists w'. rewrite Hrun. split; [reflexivity|].
    split; [|split; [|split; [|split]]].
    + rewrite I1. unfold json_files at 1. rewrite filter_filter.
      apply filter_nil_iff. intros e He. cbv beta.
      destruct (JS.endsWith (fst e) ".json") eqn:Hjson;
        [|apply andb_false_r].
      assert (Hyes : JS.includes (map fst (json_files (incoming d))) (fst e)
                     = true).
      { apply includes_In. apply in_map. apply json_files_In. now split. }
      now rewrite Hyes.
    + intros e He. unfold archived_or_deleted. split.
      * rewrite I1. unfold mail_lookup.
        destruct (find _ _) as [x|] eqn:Hfind; [|reflexivity].
        apply find_some in Hfind. destruct Hfind as [Hx Heq].
        apply filter_In in Hx. destruct Hx as [_ Hx].
        apply String.eqb_eq in Heq. rewrite Heq in Hx.
        assert (Hyes : JS.includes (map fst (json_files (incoming d))) (fst e)
                       = true)
          by (apply includes_In; now apply in_map).
        rewrite Hyes in Hx. discriminate.
      * rewrite I2 by now apply in_map.
        destruct (rename_fails w _); [reflexivity|]. now apply Hlook.
    + exact I4.
    + rewrite I5. f_equal. rewrite map_map. apply map_ext_in.
      intros [n c] He. rewrite (Hlook _ He). cbn.
      destruct (Hwf n c He) as (m & -> & _). reflexivity.
    + repeat split; assumption.
  - cbn. exists w. unfold incoming_of. rewrite Hd. cbn.
    rewrite app_nil_r. repeat split; try reflexivity; contradiction.
Qed.

(** ** One poll tick *)

Lemma incoming_of_same a w w' :
  fs w' !! a = fs w !! a -> incoming_of a w' = incoming_of a w.
Proof. unfold incoming_of. now intros ->. Qed.

Lemma processed_of_same a w w' :
  fs w' !! a = fs w !! a -> processed_of a w' = processed_of a w.
Proof. unfold processed_of. now intros ->. Qed.

Lemma flat_map_ext_in' {A B : Type} (f g : A -> list B) l :
  (forall x, In x l -> f x = g x) -> flat_map f l = flat_map g l.
Proof.
  induction l as [|x r IH]; [reflexivity|]. intros H. cbn.
  rewrite (H x) by now left. f_equal. apply IH. intros y Hy. apply H.
  now right.
Qed.

Lemma poll_agents agents : forall w,
  List.NoDup agents ->
  (forall a, In a agents -> In a (messageHandlers w)) ->
  (forall a, In a agents -> well_formed_mail (incoming_of a w)) ->
  no_double_fault w ->
  exists w',
    forEach agents
      (fun agent =>
         try_catch (CommunicationProtocol.processIncomingMessages agent)
                   (fun _ => log (ErrorProcessingAgent agent))) w
    = (Ok tt, w') /\
    (forall a, In a agents -> json_files (incoming_of a w') = []) /\
    (forall a e, In a agents -> In e (json_files (incoming_of a w)) ->
       archived_or_deleted a e w w') /\
    (forall b, ~ In b agents -> fs w' !! b = fs w !! b) /\
    dispatches (console w')
    = dispatches (console w)
      ++ flat_map (fun a => map (fun e => (a, message_id e))
                              (json_files (incoming_of a w))) agents /\
    rename_fails w' = rename_fails w /\
    unlink_fails w' = unlink_fails w.
Proof.
  induction agents as [|a rest IH]; intros w Hnd Hhan Hwf Hfault.
  - exists w. cbn. rewrite app_nil_r.
    repeat split; try reflexivity; try contradiction; intros a [].
  - apply List.NoDup_cons_iff in Hnd. destruct Hnd as [Ha Hrest].
    destruct (processIncomingMessages_consumes a w
                (Hhan a (or_introl eq_refl)) Hfault
                (Hwf a (or_introl eq_refl)))
      as (w1 & Hrun1 & P1 & P2 & P3 & P4 & P5 & P6 & P7 & P8).
    assert (Hsame : forall b, In b rest -> fs w1 !! b = fs w !! b).
    { intros b Hb. apply P3. intros ->. contradiction. }
    destruct (IH w1) as (w' & Hrun & Q1 & Q2 & Q3 & Q4 & Q5 & Q6).
    { exact Hrest. }
    { intros b Hb. rewrite P8. apply Hhan. now right. }
    { intros b Hb. rewrite (incoming_of_same b w w1 (Hsame b Hb)).
      apply Hwf. now right. }
    { unfold no_double_fault. rewrite P5, P6. exact Hfault. }
    exists w'. split.
    { cbn [forEach]. unfold bind at 1, try_catch at 1.
      rewrite Hrun1. exact Hrun. }
    split; [|split; [|split; [|split]]].
    + intros b [<-|Hb]; [|now apply Q1].
      rewrite (incoming_of_same a w1 w' (Q3 a Ha)). exact P1.
    + intros b e [<-|Hb] He.
      * destruct (P2 e He) as [E1 E2]. unfold archived_or_deleted.
        rewrite (incoming_of_same a w1 w' (Q3 a Ha)).
        rewrite (processed_of_same a w1 w' (Q3 a Ha)). now split.
      * rewrite <- (incoming_of_same b w w1 (Hsame b Hb)) in He.
        destruct (Q2 b e Hb He) as [E1 E2]. unfold archived_or_deleted.
        split; [exact E1|]. rewrite E2, P5.
        now rewrite (processed_of_same b w w1 (Hsame b Hb)).
    + intros b Hb. rewrite Q3 by (intros H; apply Hb; now right).
      apply P3. intros ->. apply Hb. now left.
    + rewrite Q4, P4, <- app_assoc. cbn [flat_map]. do 2 f_equal.
      apply flat_map_ext_in'. intros b Hb.
      now rewrite (incoming_of_same b w w1 (Hsame b Hb)).
    + split; congruence.
Qed.

(** ** One tick, message by message *)

Lemma handleMessage_exact agent message w :
  In agent (messageHandlers w) ->
  CommunicationProtocol.handler_for (Message.type message) <> None ->
  CommunicationProtocol.handleMessage agent message w
  = (Ok tt, handled_once agent message w).
Proof.
  intros Hin Hh. unfold CommunicationProtocol.handleMessage, handled_once.
  unfold get at 1. cbn [bind]. rewrite (includes_In_true _ _ Hin). cbn [negb].
  unfold CommunicationProtocol.property_for.
  destruct (CommunicationProtocol.handler_for (Message.type message))
    as [h|]; [|congruence].
  cbn [CommunicationProtocol.call]. unfold try_catch, bind.
  destruct (CommunicationProtocol.run_handler h agent message w)
    as [[[]|e] w0]; reflexivity.
Qed.

Lemma archiveMessage_exact agent name message w :
  CommunicationProtocol.archiveMessage agent name message w
  = (Ok tt, snd (CommunicationProtocol.archiveMessage agent name message w)).
Proof.
  unfold CommunicationProtocol.archiveMessage, try_catch.
  destruct (CommunicationProtocol.rename_to_processed agent name w)
    as [[[]|e] w1]; [reflexivity|].
  unfold bind, log, modify.
  destruct (CommunicationProtocol.unlink agent name _) as [[[]|e'] w2];
    reflexivity.
Qed.

Lemma processMessageFile_exact agent name message w :
  In agent (messageHandlers w) ->
  mail_lookup name (incoming_of agent w) = Some (Some message) ->
  CommunicationProtocol.handler_for (Message.type message) <> None ->
  CommunicationProtocol.processMessageFile agent name w
  = (Ok tt, consumed_file agent w (name, Some message)).
Proof.
  intros Hin Hl Hh.
  unfold CommunicationProtocol.processMessageFile, try_catch.
  unfold bind at 1. unfold CommunicationProtocol.readMessage.
  unfold incoming_of in Hl.
  destruct (fs w !! agent) as [d|]; [|discriminate].
  rewrite Hl.
  rewrite (bind_ok _ _ _ _ _ (handleMessage_exact agent message w Hin Hh)).
  unfold consumed_file. cbn [fst snd].
  now rewrite archiveMessage_exact.
Qed.

Lemma forEach_files_exact agent files : forall w,
  In agent (messageHandlers w) ->
  no_double_fault w ->
  List.NoDup (map fst files) ->
  (forall n c, In (n, c) files ->
     exists m, c = Some m /\
               mail_lookup n (incoming_of agent w) = Some (Some m) /\
               CommunicationProtocol.handler_for (Message.type m) <> None) ->
  forEach (map fst files) (CommunicationProtocol.processMessageFile agent) w
  = (Ok tt, fold_left (consumed_file agent) files w).
Proof.
  induction files as [|[n c] rest IH]; intros w Hin Hfault Hnd Hfiles;
    [reflexivity|].
  cbn [map fst] in Hnd. apply List.NoDup_cons_iff in Hnd.
  destruct Hnd as [Hn Hrest].
  destruct (Hfiles n c (or_introl eq_refl)) as (m & -> & Hl & Hh).
  pose proof (processMessageFile_exact agent n m w Hin Hl Hh) as Hexact.
  destruct (processMessageFile_consumes agent n m w Hin Hl Hh Hfault)
    as (w1 & Hrun1 & C1 & _ & _ & _ & C5 & C6 & _ & C8).
  rewrite Hexact in Hrun1. injection Hrun1 as <-.
  cbn [map fst forEach fold_left]. rewrite (bind_ok _ _ _ _ _ Hexact).
  apply IH.
  - now rewrite C8.
  - unfold no_double_fault. rewrite C5, C6. exact Hfault.
  - exact Hrest.
  - intros n' c' Hin'.
    destruct (Hfiles n' c' (or_intror Hin')) as (m' & -> & Hl' & Hh').
    exists m'. split; [reflexivity|]. split; [|exact Hh'].
    rewrite C1, mail_lookup_remove_ne; [exact Hl'|].
    intros ->. apply Hn. change n with (fst (n, Some m')). now apply in_map.
Qed.

Lemma processIncomingMessages_exact agent w :
  In agent (messageHandlers w) ->
  no_double_fault w ->
  well_formed_mail (incoming_of agent w) ->
  CommunicationProtocol.processIncomingMessages agent w
  = (Ok tt, consumed_mail w agent).
Proof.
  intros Hin Hfault [Hnd Hwf]. unfold consumed_mail.
  unfold CommunicationProtocol.processIncomingMessages, try_catch.
  unfold bind at 1. unfold CommunicationProtocol.readdir.
  pose proof (forEach_files_exact agent (json_files (incoming_of agent w)) w
                Hin Hfault) as Hexact.
  unfold incoming_of in *.
  destruct (fs w !! agent) as [d|] eqn:Hd; [|reflexivity].
  rewrite json_names, Hexact; [reflexivity| |].
  - now apply NoDup_json_names.
  - intros n c He. destruct (Hwf n c He) as (m & -> & Hh).
    exists m. split; [reflexivity|]. split; [|exact Hh].
    apply mail_lookup_In; [exact Hnd|]. now apply json_files_In in He.
Qed.

Lemma poll_agents_exact agents : forall w,
  List.NoDup agents ->
  (forall a, In a agents -> In a (messageHandlers w)) ->
  (forall a, In a agents -> well_formed_mail (incoming_of a w)) ->
  no_double_fault w ->
  forEach agents
    (fun agent =>
       try_catch (CommunicationProtocol.processIncomingMessages agent)
                 (fun _ => log (ErrorProcessingAgent agent))) w
  = (Ok tt, fold_left consumed_mail agents w).
Proof.
  induction agents as [|a rest IH]; intros w Hnd Hhan Hwf Hfault;
    [reflexivity|].
  apply List.NoDup_cons_iff in Hnd. destruct Hnd as [Ha Hrest].
  pose proof (processIncomingMessages_exact a w
                (Hhan a (or_introl eq_refl)) Hfault
                (Hwf a (or_introl eq_refl))) as Hexact.
  destruct (processIncomingMessages_consumes a w
              (Hhan a (or_introl eq_refl)) Hfault
              (Hwf a (or_introl eq_refl)))
    as (w1 & Hrun1 & _ & _ & P3 & _ & P5 & P6 & _ & P8).
  rewrite Hexact in Hrun1. injection Hrun1 as <-.
  cbn [forEach fold_left]. unfold bind at 1, try_catch at 1.
  rewrite Hexact. apply IH.
  - exact Hrest.
  - intros b Hb. rewrite P8. apply Hhan. now right.
  - intros b Hb.
    rewrite (incoming_of_same b w (consumed_mail w a)).
    + apply Hwf. now right.
    + apply P3. intros ->. contradiction.
  - unfold no_double_fault. rewrite P5, P6. exact Hfault.
Qed.

(** A tick on an incoming directory that holds a file that cannot be
    parsed leaves that file where it is. *)
Lemma tick_leaves_stray_files : ~ tick_consumes_all w_stray.
Proof.
  intros (w' & Hrun & Hempty & _).
  assert (Hw' : w' = snd (CommunicationProtocol.pollForMessages w_stray))
    by now rewrite Hrun.
  specialize (Hempty "a" (or_introl eq_refl)). rewrite Hw' in Hempty.
  vm_compute in Hempty. discriminate Hempty.
Qed.

(** C6, as amended.  One poll tick over registered agents whose incoming
    directories are well formed (distinct file names, every message file
    holding a message of one of the seven handled types), when a file whose
    rename fails can be deleted, returns normally and is the tick taken
    message by message: for the registered agents in order and the message
    files of each in the order of the listing, the handler of the type of
    the message is called once, what it has done is kept whether it returned
    or threw, and the file is archived.  Afterwards no incoming directory
    holds a message file, the handler calls recorded on the console are
    those before the tick followed by exactly one per message file, and each
    file is in the processed directory with its content or, where the rename
    fails, deleted. *)
Theorem poll_tick_consumes_all w :
  List.NoDup (registeredAgents w) ->
  (forall a, In a (registeredAgents w) -> In a (messageHandlers w)) ->
  (forall a, In a (registeredAgents w) ->
     well_formed_mail (incoming_of a w)) ->
  no_double_fault w ->
  exists w',
    CommunicationProtocol.pollForMessages w = (Ok tt, w') /\
    w' = tick_by_handlers w /\
    (forall a, In a (registeredAgents w) ->
       json_files (incoming_of a w') = []) /\
    dispatches (console w') = dispatches (console w) ++ owed_dispatches w /\
    (forall a e, In a (registeredAgents w) ->
       In e (json_files (incoming_of a w)) ->
       archived_or_deleted a e w w').
Proof.
  intros Hnd Hhan Hwf Hfault.
  destruct (poll_agents (registeredAgents w) w Hnd Hhan Hwf Hfault)
    as (w' & Hrun & Q1 & Q2 & _ & Q4 & _).
  exists w'. split; [exact Hrun|]. split.
  { pose proof (poll_agents_exact (registeredAgents w) w Hnd Hhan Hwf Hfault)
      as Hexact.
    rewrite Hexact in Hrun. now injection Hrun as <-. }
  split; [exact Q1|]. split; [exact Q4|exact Q2].
Qed.

Lemma poll_tick_consumes_all_witness :
  exists w',
    CommunicationProtocol.pollForMessages w_mail = (Ok tt, w') /\
    w' = tick_by_handlers w_mail /\
    (forall a, In a (registeredAgents w_mail) ->
       json_files (incoming_of a w') = []) /\
    dispatches (console w')
    = dispatches (console w_mail) ++ owed_dispatches w_mail /\
    (forall a e, In a (registeredAgents w_mail) ->
       In e (json_files (incoming_of a w_mail)) ->
       archived_or_deleted a e w_mail w').
Proof.
  apply (poll_tick_consumes_all w_mail).
  - vm_compute. repeat constructor; intros H; repeat destruct H as [H|H];
      try discriminate; exact H.
  - intros a H. exact H.
  - intros a [<-|[<-|[]]]; (split; [vm_compute; repeat constructor;
      intros H; repeat destruct H as [H|H]; try discriminate; exact H|]);
      intros name content H; vm_compute in H;
      repeat destruct H as [H|H]; try contradiction;
      injection H as <- <-; eexists; (split; [reflexivity|]);
      vm_compute; discriminate.
  - intros path H. reflexivity.
Defined.

(** The tick on the example: the handler of [m2] throws, the rename of [m3]
    fails; the three messages are dispatched once each, [m1] and [m2] are in
    the processed directory of [a], [m3] is deleted. *)
Example poll_tick_on_mail :
  let w' := snd (CommunicationProtocol.pollForMessages w_mail) in
  console w'
  = [MessageProcessed "m1" "a"; ErrorHandlingMessage "m2" "a";
     MessageProcessed "m3" "b"; ErrorArchiving "m3"] /\
  map fst (incoming_of "a" w') = [] /\
  map fst (processed_of "a" w') = ["m1.json"; "m2.json"] /\
  map fst (incoming_of "b" w') = [] /\
  map fst (processed_of "b" w') = [].
Proof. vm_compute. repeat split. Qed.

(** * Further properties of the protocol, the tasks, the relationships and
      the proxy *)

(** ** Error isolation in the polling cycle *)

Lemma try_catch_log_ok (m : M World unit) (e : string -> Event) w :
  exists w', try_catch m (fun error => log (e error)) w = (Ok tt, w').
Proof.
  unfold try_catch. destruct (m w) as [[[]|error] w1]; eauto.
Qed.

Lemma forEach_ok {A : Type} (body : A -> M World unit) l :
  (forall a w, exists w', body a w = (Ok tt, w')) ->
  forall w, exists w', forEach l body w = (Ok tt, w').
Proof.
  intros Hbody. induction l as [|x r IH]; intros w; cbn [forEach].
  - now exists w.
  - destruct (Hbody x w) as [w1 H1]. unfold bind. rewrite H1. apply IH.
Qed.

(** X1.  A poll tick never throws, whatever the disk holds and whatever the
    handlers do: every error is caught and logged inside the cycle. *)
Theorem pollForMessages_never_throws w :
  exists w', CommunicationProtocol.pollForMessages w = (Ok tt, w').
Proof.
  unfold CommunicationProtocol.pollForMessages, get, bind at 1.
  apply forEach_ok. intros a w0.
  apply (try_catch_log_ok _ (fun _ => ErrorProcessingAgent a)).
Qed.

(** X2.  A message file that cannot be parsed is reported and left where it
    is: processing it changes nothing but the console, so the next tick
    finds it again. *)
Theorem unparsable_file_stays agent name w :
  mail_lookup name (incoming_of agent w) = Some None ->
  CommunicationProtocol.processMessageFile agent name w
  = (Ok tt, set_console (console w ++ [ErrorProcessingFile name agent]) w).
Proof.
  unfold incoming_of. intros Hl.
  unfold CommunicationProtocol.processMessageFile, try_catch, bind,
    CommunicationProtocol.readMessage.
  destruct (fs w !! agent) as [d|]; [|discriminate].
  now rewrite Hl.
Qed.

Lemma unparsable_file_stays_witness :
  CommunicationProtocol.processMessageFile "a" "bad.json" w_stray
  = (Ok tt,
     set_console (console w_stray ++ [ErrorProcessingFile "bad.json" "a"])
       w_stray).
Proof. apply (unparsable_file_stays "a" "bad.json" w_stray). reflexivity. Defined.

(** X3.  A message whose type is not one of the seven handled types
    reaches none of the seven handlers and is archived all the same: its
    file leaves the incoming directory for the processed one, and the
    console gains one line, the report of the missing handler or, when the
    type names a property that [handlers] inherits from [Object.prototype],
    the report of the call of that property. *)
Theorem unhandled_type_is_archived agent name message w :
  In agent (messageHandlers w) ->
  mail_lookup name (incoming_of agent w) = Some (Some message) ->
  CommunicationProtocol.handler_for (Message.type message) = None ->
  rename_fails w (CommunicationProtocol.incoming_path agent name) = false ->
  exists w',
    CommunicationProtocol.processMessageFile agent name w = (Ok tt, w') /\
    console w' = console w ++ [unhandled_line agent message] /\
    incoming_of agent w' = mail_remove name (incoming_of agent w) /\
    processed_of agent w'
    = mail_put name (Some message) (processed_of agent w) /\
    forall c b, read_collection b c w' = read_collection b c w.
Proof.
  intros Hin Hl Hh Hren.
  set (w1 := set_console (console w ++ [unhandled_line agent message]) w).
  assert (Hrun : CommunicationProtocol.handleMessage agent message w
                 = (Ok tt, w1)).
  { unfold CommunicationProtocol.handleMessage, get, bind at 1.
    rewrite (includes_In_true _ _ Hin). cbn [negb].
    unfold CommunicationProtocol.property_for, w1, unhandled_line.
    rewrite Hh.
    destruct (JS.includes CommunicationProtocol.Object_prototype
                (Message.type message)); [|reflexivity].
    unfold try_catch, bind, CommunicationProtocol.call,
      CommunicationProtocol.call_inherited, JS.includes.
    cbn [existsb]. rewrite orb_false_r.
    rewrite (String.eqb_sym (Message.type message) "constructor").
    rewrite (String.eqb_sym (Message.type message) "toString").
    now destruct (_ || _). }
  destruct (archiveMessage_run agent name message (Some message) w1)
    as (w2 & Harch & A1 & A2 & _).
  { exact Hl. }
  { cbn. rewrite Hren. discriminate. }
  assert (Hw2 : exists d,
            fs w !! agent = Some d /\
            w2 = set_fs (<[agent :=
                             Agent.with_mail
                               (mail_remove name (incoming d))
                               (mail_put name (Some message) (processed d))
                               (outgoing d) d]> (fs w)) w1).
  { revert Harch. unfold CommunicationProtocol.archiveMessage, try_catch,
      CommunicationProtocol.rename_to_processed.
    unfold incoming_of in Hl. cbn [fs w1 set_console].
    destruct (fs w !! agent) as [d|] eqn:Hd; [|discriminate].
    rewrite Hl. cbn [rename_fails w1 set_console]. rewrite Hren.
    unfold Agent.write_dir. cbn [fs w1 set_console]. rewrite Hd.
    intros [= <-]. now exists d. }
  destruct Hw2 as (d & Hd & ->).
  eexists. split; [|split; [|split; [|split]]].
  - unfold CommunicationProtocol.processMessageFile, try_catch.
    unfold bind at 1. unfold CommunicationProtocol.readMessage.
    unfold incoming_of in Hl. rewrite Hd in Hl |- *.
    rewrite Hl. rewrite (bind_ok _ _ _ _ _ Hrun). now rewrite Harch.
  - reflexivity.
  - exact A1.
  - rewrite A2. cbn [rename_fails w1 set_console]. now rewrite Hren.
  - intros c b. unfold read_collection. cbn [fs set_fs w1 set_console].
    destruct (decide (b = agent)) as [->|Hne].
    + rewrite lookup_insert_eq, Hd. now destruct c.
    + now rewrite lookup_insert_ne by congruence.
Qed.

Lemma unhandled_type_is_archived_witness :
  exists w',
    CommunicationProtocol.processMessageFile "a" "m9.json" w_stray
    = (Ok tt, w') /\
    console w'
    = console w_stray ++ [unhandled_line "a" (Message.mk "m9" "PING"
                             "2024-06-01T12:00:00.000Z" "x" "a" "t1"
                             None "" "" "completed" "{}" "")] /\
    incoming_of "a" w' = mail_remove "m9.json" (incoming_of "a" w_stray) /\
    processed_of "a" w'
    = mail_put "m9.json" (snd (mail "m9" "PING" None))
        (processed_of "a" w_stray) /\
    forall c b, read_collection b c w' = read_collection b c w_stray.
Proof.
  apply (unhandled_type_is_archived "a" "m9.json"
           (Message.mk "m9" "PING" "2024-06-01T12:00:00.000Z" "x" "a" "t1"
              None "" "" "completed" "{}" "") w_stray).
  - left. reflexivity.
  - reflexivity.
  - reflexivity.
  - reflexivity.
Defined.

(** The three lines: a type unknown to every object, a type that names an
    inherited function that returns, and one that names [__proto__]. *)
Example unhandled_lines :
  let message type :=
    Message.mk "m9" type "2024-06-01T12:00:00.000Z" "x" "a" "t1"
      None "" "" "completed" "{}" "" in
  unhandled_line "a" (message "PING") = NoHandlerForType "PING" "a" /\
  unhandled_line "a" (message "toString") = MessageProcessed "m9" "a" /\
  unhandled_line "a" (message "__proto__") = ErrorHandlingMessage "m9" "a" /\
  snd (CommunicationProtocol.handleMessage "a" (message "toString") w_stray)
  = set_console [MessageProcessed "m9" "a"] w_stray.
Proof. repeat split. Qed.

(** X23.  When neither the rename nor the deletion of a message file
    succeeds, the message has been dispatched and its file is still in the
    incoming directory: the next tick dispatches it again. *)
Theorem double_fault_leaves_file agent name message w :
  In agent (messageHandlers w) ->
  mail_lookup name (incoming_of agent w) = Some (Some message) ->
  CommunicationProtocol.handler_for (Message.type message) <> None ->
  rename_fails w (CommunicationProtocol.incoming_path agent name) = true ->
  unlink_fails w (CommunicationProtocol.incoming_path agent name) = true ->
  exists w',
    CommunicationProtocol.processMessageFile agent name w = (Ok tt, w') /\
    incoming_of agent w' = incoming_of agent w /\
    processed_of agent w' = processed_of agent w /\
    dispatches (console w')
    = dispatches (console w) ++ [(agent, Message.id message)] /\
    exists before,
      console w'
      = before ++ [ErrorArchiving (Message.id message);
                   ErrorDeleting
                     (CommunicationProtocol.incoming_path agent name)].
Proof.
  intros Hin Hl Hh Hren Hunl.
  destruct (handleMessage_dispatches agent message w Hin Hh)
    as (w0 & event & Hframe & Hev & Hrun).
  destruct (handler_frame_incoming _ _ _ Hframe) as (Hinc & Hproc & _).
  destruct Hframe as (_ & _ & Hcon & Hren0 & Hunl0 & _).
  unfold incoming_of in Hl, Hinc. unfold processed_of in Hproc.
  destruct (fs w !! agent) as [d|] eqn:Hd; [|discriminate].
  destruct (fs w0 !! agent) as [d0|] eqn:Hd0.
  2:{ cbn in Hinc. rewrite <- Hinc in Hl. discriminate. }
  eexists. split.
  - unfold CommunicationProtocol.processMessageFile, try_catch.
    unfold bind at 1. unfold CommunicationProtocol.readMessage.
    rewrite Hd, Hl. rewrite (bind_ok _ _ _ _ _ Hrun).
    unfold CommunicationProtocol.archiveMessage, try_catch,
      CommunicationProtocol.rename_to_processed,
      CommunicationProtocol.unlink, log, modify, bind.
    cbn [fs set_console rename_fails unlink_fails].
    rewrite Hd0, Hinc, Hl, Hren0, Hren.
    cbn [fs set_console rename_fails unlink_fails].
    rewrite Hd0, Hinc, Hl, Hunl0, Hunl. reflexivity.
  - unfold incoming_of, processed_of. cbn [fs set_console console].
    rewrite Hd0, Hd. split; [exact Hinc|]. split; [exact Hproc|]. split.
    + rewrite !dispatches_app, Hcon. cbn. rewrite !app_nil_r.
      destruct Hev as [-> | ->]; reflexivity.
    + eexists. rewrite <- app_assoc. reflexivity.
Qed.

Lemma double_fault_leaves_file_witness :
  let w := mkWorld (fs w_mail) (clock w_mail) (uuid_source w_mail) 0
             (fun _ => true) (fun _ => true) ∅ ["a"; "b"] ["a"; "b"] [] in
  let m := Message.mk "m3" "CONTEXT_SYNC" "2024-06-01T12:00:00.000Z" "x" "a"
             "t1" None "" "" "completed" "{}" "" in
  exists w',
    CommunicationProtocol.processMessageFile "b" "m3.json" w = (Ok tt, w') /\
    incoming_of "b" w' = incoming_of "b" w /\
    processed_of "b" w' = processed_of "b" w /\
    dispatches (console w') = dispatches (console w) ++ [("b", "m3")] /\
    exists before,
      console w'
      = before ++ [ErrorArchiving "m3";
                   ErrorDeleting
                     (CommunicationProtocol.incoming_path "b" "m3.json")].
Proof.
  intros w m.
  apply (double_fault_leaves_file "b" "m3.json" m w).
  - right. left. reflexivity.
  - reflexivity.
  - discriminate.
  - reflexivity.
  - reflexivity.
Defined.

(** ** The maps of the protocol *)

Lemma Map_set_key_In key keys x :
  In x (CommunicationProtocol.Map_set_key key keys) <-> x = key \/ In x keys.
Proof.
  unfold CommunicationProtocol.Map_set_key.
  destruct (JS.includes keys key) eqn:Hinc.
  - apply includes_In in Hinc. split; [auto|]. intros [->|H]; assumption.
  - rewrite in_app_iff. cbn. intuition.
Qed.

Lemma Map_set_key_NoDup key keys :
  List.NoDup keys -> List.NoDup (CommunicationProtocol.Map_set_key key keys).
Proof.
  intros Hnd. unfold CommunicationProtocol.Map_set_key.
  destruct (JS.includes keys key) eqn:Hinc; [exact Hnd|].
  assert (Hnot : ~ In key keys).
  { intros H. apply includes_In in H. congruence. }
  clear Hinc. induction keys as [|k r IH]; cbn.
  - constructor; [intros []|constructor].
  - apply List.NoDup_cons_iff in Hnd. destruct Hnd as [Hk Hr].
    constructor.
    + rewrite in_app_iff. cbn. intros [H|[H|[]]]; [contradiction|].
      apply Hnot. now left.
    + apply IH; [exact Hr|]. intros H. apply Hnot. now right.
Qed.

Lemma Map_delete_key_In key keys x :
  In x (CommunicationProtocol.Map_delete_key key keys)
  <-> x <> key /\ In x keys.
Proof.
  unfold CommunicationProtocol.Map_delete_key. rewrite filter_In.
  rewrite negb_true_iff, String.eqb_neq. tauto.
Qed.

(** X4.  The two maps of the protocol stay in step: from a state in which
    they hold the same keys without repetition, [registerAgent] leaves the
    agent in both, [unregisterAgent] in neither, and both keep the maps in
    step; registering an agent twice is registering it once. *)
Theorem protocol_maps_in_step agent w :
  protocol_inv w ->
  let w1 := snd (CommunicationProtocol.registerAgent agent w) in
  let w2 := snd (CommunicationProtocol.unregisterAgent agent w) in
  protocol_inv w1 /\ In agent (registeredAgents w1) /\
  In agent (messageHandlers w1) /\
  snd (CommunicationProtocol.registerAgent agent w1) = w1 /\
  protocol_inv w2 /\ ~ In agent (registeredAgents w2) /\
  ~ In agent (messageHandlers w2).
Proof.
  intros (Hr & Hh & Hsame).
  unfold CommunicationProtocol.registerAgent,
    CommunicationProtocol.unregisterAgent, modify, protocol_inv.
  cbn [snd registeredAgents messageHandlers set_protocol].
  split; [|split; [|split; [|split; [|split; [|split]]]]].
  - split; [now apply Map_set_key_NoDup|].
    split; [now apply Map_set_key_NoDup|].
    intros a. rewrite !Map_set_key_In, Hsame. tauto.
  - apply Map_set_key_In. now left.
  - apply Map_set_key_In. now left.
  - unfold set_protocol.
    cbn [registeredAgents messageHandlers fs clock uuid_source draws
         rename_fails unlink_fails connectedAgents console].
    assert (Hagain : forall keys,
              CommunicationProtocol.Map_set_key agent
                (CommunicationProtocol.Map_set_key agent keys)
              = CommunicationProtocol.Map_set_key agent keys).
    { intros keys. unfold CommunicationProtocol.Map_set_key at 1.
      assert (Hin : JS.includes
                      (CommunicationProtocol.Map_set_key agent keys) agent
                    = true)
        by (apply includes_In, Map_set_key_In; now left).
      now rewrite Hin. }
    now rewrite !Hagain.
  - split; [now apply List.NoDup_filter|].
    split; [now apply List.NoDup_filter|].
    intros a. rewrite !Map_delete_key_In, Hsame. tauto.
  - rewrite Map_delete_key_In. tauto.
  - rewrite Map_delete_key_In. tauto.
Qed.

Lemma protocol_maps_in_step_witness :
  let w1 := snd (CommunicationProtocol.registerAgent "b" w_stray) in
  let w2 := snd (CommunicationProtocol.unregisterAgent "b" w_stray) in
  protocol_inv w1 /\ In "b" (registeredAgents w1) /\
  In "b" (messageHandlers w1) /\
  snd (CommunicationProtocol.registerAgent "b" w1) = w1 /\
  protocol_inv w2 /\ ~ In "b" (registeredAgents w2) /\
  ~ In "b" (messageHandlers w2).
Proof.
  apply (protocol_maps_in_step "b" w_stray).
  split; [|split].
  - cbn. constructor; [intros []|constructor].
  - cbn. constructor; [intros []|constructor].
  - intros a. reflexivity.
Defined.

(** ** Sending *)

Lemma mail_put_NoDup n c box :
  List.NoDup (map fst box) -> List.NoDup (map fst (mail_put n c box)).
Proof.
  intros Hnd. unfold mail_put, mail_remove. rewrite map_app. cbn.
  induction box as [|[k c'] r IH]; cbn.
  - constructor; [intros []|constructor].
  - cbn in Hnd. apply List.NoDup_cons_iff in Hnd. destruct Hnd as [Hk Hr].
    destruct (String.eqb_spec k n) as [->|Hne]; cbn; [now apply IH|].
    constructor; [|now apply IH].
    rewrite in_app_iff. cbn. intros [H|[H|[]]]; [|congruence].
    apply Hk. apply in_map_iff in H. destruct H as (e & <- & He).
    apply filter_In in He. apply in_map. tauto.
Qed.

Lemma mail_put_In n c box e :
  In e (mail_put n c box) <-> (fst e <> n /\ In e box) \/ e = (n, c).
Proof.
  unfold mail_put, mail_remove. rewrite in_app_iff, filter_In.
  rewrite negb_true_iff, String.eqb_neq. cbn. intuition.
Qed.

Lemma sendMessage_run fromAgent toAgent message w df dt :
  fs w !! fromAgent = Some df ->
  fs w !! toAgent = Some dt ->
  let name := CommunicationProtocol.file_name (Message.id message) in
  exists w',
    CommunicationProtocol.sendMessage fromAgent toAgent message w
    = (Ok tt, w') /\
    outgoing_of fromAgent w'
    = mail_put name (Some message) (outgoing_of fromAgent w) /\
    incoming_of toAgent w'
    = mail_put name (Some message) (incoming_of toAgent w) /\
    (fromAgent <> toAgent ->
     incoming_of fromAgent w' = incoming_of fromAgent w) /\
    (forall a, processed_of a w' = processed_of a w) /\
    (forall b, b <> fromAgent -> b <> toAgent -> fs w' !! b = fs w !! b) /\
    registeredAgents w' = registeredAgents w /\
    messageHandlers w' = messageHandlers w /\
    rename_fails w' = rename_fails w /\
    unlink_fails w' = unlink_fails w /\
    console w' = console w.
Proof.
  intros Hf Ht name.
  unfold CommunicationProtocol.sendMessage, bind, Agent.write_dir.
  rewrite Hf. cbn [fs set_fs].
  destruct (decide (toAgent = fromAgent)) as [->|Hne].
  - rewrite lookup_insert_eq. eexists. split; [reflexivity|].
    unfold outgoing_of, incoming_of, processed_of. cbn [fs set_fs].
    rewrite insert_insert_eq, lookup_insert_eq, Hf. cbn.
    split; [reflexivity|]. split; [reflexivity|].
    split; [congruence|]. split.
    { intros a. destruct (decide (a = fromAgent)) as [->|Ha].
      - now rewrite lookup_insert_eq, Hf.
      - now rewrite lookup_insert_ne by congruence. }
    split.
    { intros b Hb _. now rewrite lookup_insert_ne by congruence. }
    repeat split.
  - rewrite lookup_insert_ne by congruence. rewrite Ht.
    eexists. split; [reflexivity|].
    unfold outgoing_of, incoming_of, processed_of. cbn [fs set_fs].
    rewrite lookup_insert_eq.
    rewrite (lookup_insert_ne _ toAgent fromAgent) by congruence.
    rewrite lookup_insert_eq, Hf, Ht. cbn.
    split; [reflexivity|]. split; [reflexivity|].
    split; [reflexivity|]. split.
    { intros a. destruct (decide (a = toAgent)) as [->|Ha].
      - now rewrite lookup_insert_eq, Ht.
      - rewrite lookup_insert_ne by congruence.
        destruct (decide (a = fromAgent)) as [->|Ha'].
        + now rewrite lookup_insert_eq, Hf.
        + now rewrite lookup_insert_ne by congruence. }
    split.
    { intros b Hb Hb'. now rewrite !lookup_insert_ne by congruence. }
    repeat split.
Qed.

(** X5.  [sendMessage] between two agents whose directories exist writes
    the message, under the name made of its id, into the outgoing directory
    of the sender and the incoming directory of the receiver, and touches
    nothing else: no other file of the two, no other agent, no map of the
    protocol. *)
Theorem sendMessage_delivers fromAgent toAgent message w df dt :
  fs w !! fromAgent = Some df ->
  fs w !! toAgent = Some dt ->
  let name := CommunicationProtocol.file_name (Message.id message) in
  exists w',
    CommunicationProtocol.sendMessage fromAgent toAgent message w
    = (Ok tt, w') /\
    outgoing_of fromAgent w'
    = mail_put name (Some message) (outgoing_of fromAgent w) /\
    incoming_of toAgent w'
    = mail_put name (Some message) (incoming_of toAgent w) /\
    (fromAgent <> toAgent ->
     incoming_of fromAgent w' = incoming_of fromAgent w) /\
    (forall a, processed_of a w' = processed_of a w) /\
    (forall b, b <> fromAgent -> b <> toAgent -> fs w' !! b = fs w !! b) /\
    registeredAgents w' = registeredAgents w /\
    messageHandlers w' = messageHandlers w /\
    rename_fails w' = rename_fails w /\
    unlink_fails w' = unlink_fails w /\
    console w' = console w.
Proof. apply sendMessage_run. Qed.

Lemma sendMessage_delivers_witness :
  let m := Message.mk "m7" "CONTEXT_SYNC" "2024-06-01T12:00:00.000Z" "a" "b"
             "" None "" "" "" "{}" "" in
  exists w',
    CommunicationProtocol.sendMessage "a" "b" m w_mail = (Ok tt, w') /\
    outgoing_of "a" w' = mail_put "m7.json" (Some m) (outgoing_of "a" w_mail) /\
    incoming_of "b" w' = mail_put "m7.json" (Some m) (incoming_of "b" w_mail) /\
    ("a" <> "b" -> incoming_of "a" w' = incoming_of "a" w_mail) /\
    (forall a, processed_of a w' = processed_of a w_mail) /\
    (forall b, b <> "a" -> b <> "b" -> fs w' !! b = fs w_mail !! b) /\
    registeredAgents w' = registeredAgents w_mail /\
    messageHandlers w' = messageHandlers w_mail /\
    rename_fails w' = rename_fails w_mail /\
    unlink_fails w' = unlink_fails w_mail /\
    console w' = console w_mail.
Proof.
  intros m.
  eapply (sendMessage_delivers "a" "b" m w_mail); reflexivity.
Defined.

(** X6.  [sendMessage] to an agent whose directory does not exist throws,
    after the copy in the outgoing directory of the sender has been
    written: the sender keeps a message that was never delivered. *)
Theorem sendMessage_undelivered fromAgent toAgent message w df :
  fs w !! fromAgent = Some df ->
  fs w !! toAgent = None ->
  exists e w',
    CommunicationProtocol.sendMessage fromAgent toAgent message w
    = (Throw e, w') /\
    mail_lookup (CommunicationProtocol.file_name (Message.id message))
      (outgoing_of fromAgent w') = Some (Some message) /\
    fs w' !! toAgent = None.
Proof.
  intros Hf Ht.
  assert (Hne : toAgent <> fromAgent) by congruence.
  unfold CommunicationProtocol.sendMessage, bind, Agent.write_dir.
  rewrite Hf. cbn [fs set_fs].
  rewrite lookup_insert_ne by congruence. rewrite Ht.
  eexists _, _. split; [reflexivity|].
  unfold outgoing_of. cbn [fs set_fs].
  rewrite lookup_insert_eq, lookup_insert_ne by congruence. cbn.
  split; [|exact Ht]. rewrite mail_lookup_put. now rewrite String.eqb_refl.
Qed.

Lemma sendMessage_undelivered_witness :
  let m := Message.mk "m7" "CONTEXT_SYNC" "2024-06-01T12:00:00.000Z" "a" "z"
             "" None "" "" "" "{}" "" in
  exists e w',
    CommunicationProtocol.sendMessage "a" "z" m w_mail = (Throw e, w') /\
    mail_lookup "m7.json" (outgoing_of "a" w') = Some (Some m) /\
    fs w' !! "z" = None.
Proof.
  intros m.
  eapply (sendMessage_undelivered "a" "z" m w_mail); reflexivity.
Defined.

(** ** From sending to dispatching *)

Lemma length_append (s t : string) :
  String.length (String.append s t) = String.length s + String.length t.
Proof.
  induction s as [|a s IH]; [reflexivity|].
  change (S (String.length (String.append s t))
          = S (String.length s + String.length t)).
  now f_equal.
Qed.

Lemma substring_all (t : string) : String.substring 0 (String.length t) t = t.
Proof.
  induction t as [|a t IH]; [reflexivity|].
  change (String a (String.substring 0 (String.length t) t) = String a t).
  now f_equal.
Qed.

Lemma substring_skip (s t : string) :
  String.substring (String.length s) (String.length t) (String.append s t) = t.
Proof.
  induction s as [|a s IH]; [apply substring_all|exact IH].
Qed.

Lemma endsWith_append (s suffix : string) :
  JS.endsWith (String.append s suffix) suffix = true.
Proof.
  unfold JS.endsWith. rewrite length_append.
  replace (String.length s + String.length suffix - String.length suffix)
    with (String.length s) by lia.
  rewrite substring_skip, String.eqb_refl, andb_true_r.
  apply Nat.leb_le. lia.
Qed.

Lemma well_formed_mail_put name m box :
  CommunicationProtocol.handler_for (Message.type m) <> None ->
  well_formed_mail box -> well_formed_mail (mail_put name (Some m) box).
Proof.
  intros Hh [Hnd Hwf]. split; [now apply mail_put_NoDup|].
  intros n c He. apply json_files_In in He. destruct He as [He Hjson].
  apply mail_put_In in He. destruct He as [[_ He]|[= -> ->]].
  - apply (Hwf n c). apply json_files_In. now split.
  - now exists m.
Qed.

(** X7.  A status update that is sent is dispatched by the next poll tick:
    [sendStatusUpdate] to a registered agent followed by [pollForMessages]
    adds to the handler calls recorded before, in some order, exactly those
    owed after the send, the new message among them for the receiver; the
    incoming directory of the receiver is then free of message files, and
    the message is in its processed directory unless the rename fails. *)
Theorem status_update_round_trip fromAgent toAgent taskId status details
    w df dt :
  List.NoDup (registeredAgents w) ->
  (forall a, In a (registeredAgents w) -> In a (messageHandlers w)) ->
  (forall a, In a (registeredAgents w) ->
     well_formed_mail (incoming_of a w)) ->
  no_double_fault w ->
  In toAgent (registeredAgents w) ->
  fs w !! fromAgent = Some df ->
  fs w !! toAgent = Some dt ->
  let m := status_update fromAgent toAgent taskId status details w in
  let name := CommunicationProtocol.file_name (Message.id m) in
  exists w1 w2,
    CommunicationProtocol.sendStatusUpdate fromAgent toAgent taskId status
      details w = (Ok tt, w1) /\
    CommunicationProtocol.pollForMessages w1 = (Ok tt, w2) /\
    (exists added,
       dispatches (console w2) = dispatches (console w) ++ added /\
       Permutation added (owed_dispatches w1)) /\
    In (toAgent, Message.id m) (owed_dispatches w1) /\
    json_files (incoming_of toAgent w2) = [] /\
    mail_lookup name (processed_of toAgent w2)
    = if rename_fails w (CommunicationProtocol.incoming_path toAgent name)
      then mail_lookup name (processed_of toAgent w)
      else Some (Some m).
Proof.
  intros Hnd Hhan Hwf Hfault Hto Hf Ht m name.
  set (w0 := set_draws (S (draws w)) w).
  destruct (sendMessage_run fromAgent toAgent m w0 df dt Hf Ht)
    as (w1 & Hsend & S1 & S2 & S3 & S4 & S5 & S6 & S7 & S8 & S9 & S10).
  fold name in Hsend, S1, S2.
  assert (Hin : In (name, Some m) (json_files (incoming_of toAgent w1))).
  { apply json_files_In. split; [|apply endsWith_append].
    rewrite S2. apply mail_put_In. now right. }
  assert (Hwf1 : forall a, In a (registeredAgents w1) ->
                           well_formed_mail (incoming_of a w1)).
  { intros a Ha. rewrite S6 in Ha.
    destruct (decide (a = toAgent)) as [->|Hne].
    - rewrite S2. apply well_formed_mail_put; [discriminate|].
      now apply Hwf.
    - destruct (decide (a = fromAgent)) as [->|Hne'].
      + rewrite S3 by congruence. now apply Hwf.
      + rewrite (incoming_of_same a w0 w1 (S5 a Hne' Hne)). now apply Hwf. }
  destruct (poll_agents (registeredAgents w1) w1)
    as (w2 & Hpoll & Q1 & Q2 & _ & Q4 & _).
  { now rewrite S6. }
  { intros a Ha. rewrite S7. apply Hhan. now rewrite S6 in Ha. }
  { exact Hwf1. }
  { unfold no_double_fault. rewrite S8, S9. exact Hfault. }
  exists w1, w2. split; [exact Hsend|]. split; [exact Hpoll|].
  assert (Hto1 : In toAgent (registeredAgents w1)) by now rewrite S6.
  split; [|split; [|split]].
  - exists (owed_dispatches w1). split; [|reflexivity].
    rewrite Q4, S10. reflexivity.
  - unfold owed_dispatches. apply in_flat_map. exists toAgent.
    split; [exact Hto1|].
    change (toAgent, Message.id m)
      with ((fun e => (toAgent, message_id e)) (name, Some m)).
    now apply in_map.
  - now apply Q1.
  - destruct (Q2 toAgent (name, Some m) Hto1 Hin) as [_ E2].
    cbn [fst snd] in E2. rewrite E2, S8, S4. reflexivity.
Qed.

Lemma status_update_round_trip_witness :
  let m := status_update "a" "b" "t1" "completed" "{}" w_mail in
  let name := CommunicationProtocol.file_name (Message.id m) in
  exists w1 w2,
    CommunicationProtocol.sendStatusUpdate "a" "b" "t1" "completed" "{}"
      w_mail = (Ok tt, w1) /\
    CommunicationProtocol.pollForMessages w1 = (Ok tt, w2) /\
    (exists added,
       dispatches (console w2) = dispatches (console w_mail) ++ added /\
       Permutation added (owed_dispatches w1)) /\
    In ("b", Message.id m) (owed_dispatches w1) /\
    json_files (incoming_of "b" w2) = [] /\
    mail_lookup name (processed_of "b" w2)
    = if rename_fails w_mail (CommunicationProtocol.incoming_path "b" name)
      then mail_lookup name (processed_of "b" w_mail)
      else Some (Some m).
Proof.
  eapply (status_update_round_trip "a" "b" "t1" "completed" "{}" w_mail).
  - vm_compute. repeat constructor; intros H; repeat destruct H as [H|H];
      try discriminate; exact H.
  - intros a H. exact H.
  - intros a [<-|[<-|[]]]; (split; [vm_compute; repeat constructor;
      intros H; repeat destruct H as [H|H]; try discriminate; exact H|]);
      intros name content H; vm_compute in H;
      repeat destruct H as [H|H]; try contradiction;
      injection H as <- <-; eexists; (split; [reflexivity|]);
      vm_compute; discriminate.
  - intros path H. reflexivity.
  - right. left. reflexivity.
  - reflexivity.
  - reflexivity.
Defined.

(** ** Tasks *)

Lemma or_else_truthy a b :
  JS.truthy b = true -> JS.truthy (JS.or_else a b) = true.
Proof. unfold JS.or_else. now destruct (JS.truthy a) eqn:Ha. Qed.

Lemma or_else_of_truthy a b : JS.truthy a = true -> JS.or_else a b = a.
Proof. unfold JS.or_else. now intros ->. Qed.

(** X8.  The defaults of the constructor satisfy the validator: a task
    built from options that give a title and an agent, and leave [type],
    [priority] and [status] out, is valid, with type [implementation],
    priority [medium], status [pending] and the agent as its creator when
    none is given. *)
Theorem constructor_defaults_are_valid uuid now options :
  JS.truthy uuid = true ->
  JS.truthy (Task.title options) = true ->
  JS.truthy (Task.agent_id options) = true ->
  Task.type options = "" -> Task.priority options = "" ->
  Task.status options = "" ->
  let task := Task.new uuid now options in
  Task.validate task = [] /\ Task.isValid task = true /\
  Task.type task = "implementation" /\ Task.priority task = "medium" /\
  Task.status task = "pending" /\
  (Task.created_by options = "" -> Task.created_by task = Task.agent_id task).
Proof.
  intros Hu Ht Ha Hty Hp Hs task.
  assert (Hv : Task.validate task = []).
  { unfold Task.validate, task, Task.new.
    cbn [Task.id Task.title Task.agent_id Task.created_by Task.type
         Task.priority Task.status Task.target_agent_id
         Task.reference_task_id].
    rewrite Hty, Hp, Hs, Ht, Ha.
    rewrite (or_else_truthy (Task.id options) uuid Hu).
    rewrite (or_else_truthy (Task.created_by options) _ Ha).
    reflexivity. }
  split; [exact Hv|]. split; [unfold Task.isValid; now rewrite Hv|].
  unfold task, Task.new. cbn. rewrite Hty, Hp, Hs.
  repeat split. intros ->. reflexivity.
Qed.

Lemma constructor_defaults_are_valid_witness :
  let options :=
    Task.mk "" "" "Write the parser" "" "" "" "" "" "a" "" None None [] []
      Task.empty_metadata in
  let task := Task.new "uuid-0" "2024-06-01T12:00:00.000Z" options in
  Task.validate task = [] /\ Task.isValid task = true /\
  Task.type task = "implementation" /\ Task.priority task = "medium" /\
  Task.status task = "pending" /\
  (Task.created_by options = "" -> Task.created_by task = Task.agent_id task).
Proof.
  intros options.
  apply (constructor_defaults_are_valid "uuid-0" "2024-06-01T12:00:00.000Z"
           options); reflexivity.
Defined.

Lemma includes_push l x y :
  JS.includes (JS.push l x) y = JS.includes l y || String.eqb y x.
Proof.
  unfold JS.includes, JS.push. rewrite existsb_app. cbn.
  now rewrite orb_false_r.
Qed.

(** X9.  [addDeliverable] is idempotent and never repeats a deliverable:
    adding one twice is adding it once, the deliverable is then present, and
    a list without repetition stays so. *)
Theorem addDeliverable_idempotent now deliverable x :
  let once := Task.addDeliverable now deliverable x in
  Task.addDeliverable now deliverable once = once /\
  In deliverable (Task.deliverables once) /\
  (List.NoDup (Task.deliverables x) -> List.NoDup (Task.deliverables once)).
Proof.
  unfold Task.addDeliverable.
  destruct (JS.includes (Task.deliverables x) deliverable) eqn:Hinc;
    cbn [negb].
  - rewrite Hinc. cbn [negb]. split; [reflexivity|].
    split; [now apply includes_In|auto].
  - cbn [Task.deliverables Task.set_updated_at Task.set_deliverables].
    rewrite includes_push, String.eqb_refl, orb_true_r. cbn [negb].
    split; [reflexivity|]. unfold JS.push. split.
    + apply in_or_app. right. now left.
    + intros Hnd.
      assert (Hnot : ~ In deliverable (Task.deliverables x)).
      { intros H. apply includes_In in H. congruence. }
      clear Hinc. induction (Task.deliverables x) as [|d r IH]; cbn.
      * constructor; [intros []|constructor].
      * apply List.NoDup_cons_iff in Hnd. destruct Hnd as [Hd Hr].
        constructor.
        -- rewrite in_app_iff. cbn. intros [H|[H|[]]]; [contradiction|].
           apply Hnot. now left.
        -- apply IH; [exact Hr|]. intros H. apply Hnot. now right.
Qed.

Lemma addDeliverable_idempotent_witness :
  let x := Fixture.task "t1" "in_progress" "x" [] ["d1"] in
  let once := Task.addDeliverable "2024-06-01T12:00:00.000Z" "d2" x in
  Task.addDeliverable "2024-06-01T12:00:00.000Z" "d2" once = once /\
  In "d2" (Task.deliverables once) /\
  List.NoDup (Task.deliverables once).
Proof.
  intros x once.
  destruct (addDeliverable_idempotent "2024-06-01T12:00:00.000Z" "d2" x)
    as (H1 & H2 & H3).
  split; [exact H1|]. split; [exact H2|]. apply H3.
  cbn. constructor; [intros []|constructor].
Defined.

Lemma findIndex_app_last {A : Type} (p : A -> bool) l x :
  (forall y, In y l -> p y = false) -> p x = true ->
  JS.findIndex p (l ++ [x]) = Some (length l).
Proof.
  intros Hl Hx. induction l as [|y r IH]; cbn.
  - now rewrite Hx.
  - rewrite (Hl y) by now left. rewrite IH; [reflexivity|].
    intros z Hz. apply Hl. now right.
Qed.

Lemma findIndex_none {A : Type} (p : A -> bool) l :
  (forall y, In y l -> p y = false) -> JS.findIndex p l = None.
Proof.
  intros Hl. induction l as [|y r IH]; cbn; [reflexivity|].
  rewrite (Hl y) by now left. rewrite IH; [reflexivity|].
  intros z Hz. apply Hl. now right.
Qed.

Lemma splice1_last {A : Type} (l : list A) x :
  JS.splice1 (length l) (l ++ [x]) = l.
Proof.
  unfold JS.splice1.
  rewrite firstn_app, firstn_all, Nat.sub_diag. cbn [firstn].
  rewrite skipn_all2 by (rewrite length_app; cbn; lia).
  now rewrite !app_nil_r.
Qed.

(** X10.  Removing a dependency that was just added gives the dependencies
    back: for a task that does not depend on [taskId], [addDependency]
    followed by [removeDependency] leaves every property but [updated_at] as
    it was. *)
Theorem removeDependency_undoes_addDependency now1 now2 taskId x :
  ~ In taskId (Task.dependencies x) ->
  Task.removeDependency now2 taskId (Task.addDependency now1 taskId x)
  = Task.set_updated_at now2 x.
Proof.
  intros Hnot. unfold Task.addDependency.
  assert (Hinc : JS.includes (Task.dependencies x) taskId = false).
  { destruct (JS.includes _ _) eqn:H; [|reflexivity].
    apply includes_In in H. contradiction. }
  rewrite Hinc. cbn [negb]. unfold Task.removeDependency.
  cbn [Task.dependencies Task.set_updated_at Task.set_dependencies].
  unfold JS.push. rewrite findIndex_app_last.
  - rewrite splice1_last. destruct x. reflexivity.
  - intros y Hy. apply String.eqb_neq. intros ->. contradiction.
  - apply String.eqb_refl.
Qed.

Lemma removeDependency_undoes_addDependency_witness :
  Task.removeDependency "2024-06-03T00:00:00.000Z" "t5"
    (Task.addDependency "2024-06-02T00:00:00.000Z" "t5"
       (Fixture.task "t1" "pending" "a" ["t0"] []))
  = Task.set_updated_at "2024-06-03T00:00:00.000Z"
      (Fixture.task "t1" "pending" "a" ["t0"] []).
Proof.
  apply (removeDependency_undoes_addDependency
           "2024-06-02T00:00:00.000Z" "2024-06-03T00:00:00.000Z" "t5"
           (Fixture.task "t1" "pending" "a" ["t0"] [])).
  cbn. intros [H|[]]. discriminate.
Defined.

Lemma validate_nil_fields x :
  Task.validate x = [] ->
  JS.truthy (Task.id x) = true /\ JS.truthy (Task.agent_id x) = true /\
  JS.includes ["high"; "medium"; "low"] (Task.priority x) = true.
Proof.
  unfold Task.validate. intros H.
  destruct (JS.truthy (Task.id x)); [|discriminate].
  destruct (JS.truthy (Task.title x)); [|discriminate].
  destruct (JS.truthy (Task.agent_id x)); [|discriminate].
  destruct (JS.truthy (Task.created_by x)); [|discriminate].
  destruct (JS.includes ["implementation"; "request"; "response"]
              (Task.type x)); [|discriminate].
  destruct (JS.includes ["high"; "medium"; "low"] (Task.priority x));
    [|discriminate].
  auto.
Qed.

(** X11.  The response to a valid request is a valid task: for a valid task
    of type [request], [createResponse] by an agent returns a task of type
    [response] that passes the validator, refers to the request by
    [reference_task_id], is targeted at the agent of the request and is
    owned and created by the responding agent; for a task of any other type
    it throws. *)
Theorem createResponse_is_valid uuid now respondingAgentId responseData x :
  JS.truthy uuid = true ->
  JS.truthy respondingAgentId = true ->
  Task.validate x = [] ->
  if String.eqb (Task.type x) "request"
  then
    exists r,
      Task.createResponse uuid now respondingAgentId responseData x = Ok r /\
      Task.validate r = [] /\
      Task.type r = "response" /\
      Task.reference_task_id r = Some (Task.id x) /\
      Task.target_agent_id r = Some (Task.agent_id x) /\
      Task.agent_id r = respondingAgentId /\
      Task.created_by r = respondingAgentId /\
      Task.priority r = Task.priority x /\
      Task.status r = "pending"
  else
    Task.createResponse uuid now respondingAgentId responseData x
    = Throw "Can only create responses for request tasks".
Proof.
  intros Hu Hr Hv. unfold Task.createResponse.
  destruct (String.eqb (Task.type x) "request"); [|reflexivity].
  cbn [negb]. eexists. split; [reflexivity|].
  destruct (validate_nil_fields x Hv) as (Hid & Hag & Hpr).
  assert (Hprio : JS.or_else (Task.priority x) "medium" = Task.priority x).
  { apply or_else_of_truthy. unfold JS.truthy.
    destruct (String.eqb_spec (Task.priority x) "") as [E|]; [|reflexivity].
    rewrite E in Hpr. discriminate. }
  unfold Task.new.
  cbn [Task.id Task.title Task.agent_id Task.created_by Task.type
       Task.priority Task.status Task.target_agent_id
       Task.reference_task_id].
  rewrite Hprio.
  assert (Hcre : JS.or_else respondingAgentId respondingAgentId
                 = respondingAgentId) by now apply or_else_of_truthy.
  rewrite Hcre.
  assert (Hty : JS.or_else "response" "implementation" = "response")
    by reflexivity.
  rewrite Hty.
  assert (Hst : JS.or_else "" "pending" = "pending") by reflexivity.
  rewrite Hst.
  assert (Href : JS.or_null (Some (Task.id x)) = Some (Task.id x))
    by (unfold JS.or_null; now rewrite Hid).
  assert (Htar : JS.or_null (Some (Task.agent_id x))
                 = Some (Task.agent_id x))
    by (unfold JS.or_null; now rewrite Hag).
  rewrite Href, Htar.
  split; [|repeat split].
  unfold Task.validate.
  cbn [Task.id Task.title Task.agent_id Task.created_by Task.type
       Task.priority Task.status Task.target_agent_id
       Task.reference_task_id Task.is_some_truthy].
  assert (Hid' : JS.truthy (JS.or_else "" uuid) = true) by exact Hu.
  rewrite Hid', Hr, Hpr, Hid.
  reflexivity.
Qed.

Lemma createResponse_is_valid_witness :
  let x := Task.mk "t1" "request" "Need the schema" "the schema of the API"
             "high" "pending" "2024-01-01T00:00:00.000Z"
             "2024-01-01T00:00:00.000Z" "a" "a" (Some "b") None [] []
             Task.empty_metadata in
  let responseData := Task.mkResponseData "" ["schema.json"]
                        Task.empty_metadata in
  exists r,
    Task.createResponse "uuid-0" "2024-06-01T12:00:00.000Z" "b"
      responseData x = Ok r /\
    Task.validate r = [] /\
    Task.type r = "response" /\
    Task.reference_task_id r = Some (Task.id x) /\
    Task.target_agent_id r = Some (Task.agent_id x) /\
    Task.agent_id r = "b" /\
    Task.created_by r = "b" /\
    Task.priority r = Task.priority x /\
    Task.status r = "pending".
Proof.
  intros x responseData.
  apply (createResponse_is_valid "uuid-0" "2024-06-01T12:00:00.000Z" "b"
           responseData x); reflexivity.
Defined.

(** ** The task queue *)

Lemma fold_addDeliverable_In now deliverables : forall task d,
  In d (Task.deliverables
          (fold_left (fun task deliverable =>
                        Task.addDeliverable now deliverable task)
                     deliverables task))
  <-> In d (Task.deliverables task) \/ In d deliverables.
Proof.
  induction deliverables as [|x r IH]; intros task d; cbn [fold_left].
  - cbn. tauto.
  - rewrite IH. unfold Task.addDeliverable.
    destruct (JS.includes (Task.deliverables task) x) eqn:Hinc; cbn [negb].
    + apply includes_In in Hinc. cbn. split; [tauto|].
      intros [H|[<-|H]]; auto.
    + cbn [Task.deliverables Task.set_updated_at Task.set_deliverables].
      unfold JS.push. rewrite in_app_iff. cbn. tauto.
Qed.

Lemma fold_addDeliverable_NoDup now deliverables : forall task,
  List.NoDup (Task.deliverables task) ->
  List.NoDup (Task.deliverables
                (fold_left (fun task deliverable =>
                              Task.addDeliverable now deliverable task)
                           deliverables task)).
Proof.
  induction deliverables as [|x r IH]; intros task Hnd; cbn [fold_left].
  - exact Hnd.
  - apply IH. unfold Task.addDeliverable.
    destruct (JS.includes (Task.deliverables task) x) eqn:Hinc; cbn [negb].
    + exact Hnd.
    + cbn [Task.deliverables Task.set_updated_at Task.set_deliverables].
      unfold JS.push. apply List.NoDup_app; [exact Hnd| |].
      * constructor; [intros []|constructor].
      * intros y Hy [<-|[]]. apply includes_In in Hy. congruence.
Qed.

(** X12.  [completeTask] collects deliverables without repeating any: the
    task it returns is completed, and holds exactly the deliverables of the
    stored task and those passed in, each once when the stored ones were. *)
Theorem completeTask_collects_deliverables agent taskId deliverables
    w task w' :
  readable agent w -> ids_truthy agent w ->
  TaskQueue.completeTask agent taskId deliverables w = (Ok task, w') ->
  exists i doc,
    find_in agent taskId active w = Some (i, doc) /\
    Task.status task = "completed" /\
    (forall d, In d (Task.deliverables task)
               <-> In d (Task.deliverables doc) \/ In d deliverables) /\
    (List.NoDup (Task.deliverables doc) ->
     List.NoDup (Task.deliverables task)).
Proof.
  intros Hr Ht. rewrite completeTask_eq by assumption.
  destruct (find_in agent taskId active w) as [[i doc]|]; [|discriminate].
  intros [= <- _]. exists i, doc. split; [reflexivity|].
  unfold completed_task. split; [|split].
  - now rewrite fold_addDeliverable_status.
  - intros d. now rewrite fold_addDeliverable_In.
  - intros Hnd. now apply fold_addDeliverable_NoDup.
Qed.

Lemma completeTask_collects_deliverables_witness :
  exists i doc,
    find_in "y" "t1" active w_scenario = Some (i, doc) /\
    Task.status
      (completed_task w_scenario ["d1"; "d2"]
         (Fixture.task "t1" "in_progress" "x" [] ["d1"])) = "completed" /\
    (forall d,
       In d (Task.deliverables
               (completed_task w_scenario ["d1"; "d2"]
                  (Fixture.task "t1" "in_progress" "x" [] ["d1"])))
       <-> In d (Task.deliverables doc) \/ In d ["d1"; "d2"]) /\
    (List.NoDup (Task.deliverables doc) ->
     List.NoDup
       (Task.deliverables
          (completed_task w_scenario ["d1"; "d2"]
             (Fixture.task "t1" "in_progress" "x" [] ["d1"])))).
Proof.
  apply (completeTask_collects_deliverables "y" "t1" ["d1"; "d2"] w_scenario
           (completed_task w_scenario ["d1"; "d2"]
              (Fixture.task "t1" "in_progress" "x" [] ["d1"]))
           (snd (TaskQueue.completeTask "y" "t1" ["d1"; "d2"] w_scenario))).
  - intros c. destruct c; discriminate.
  - intros c. destruct c; vm_compute; repeat constructor.
  - reflexivity.
Defined.

Lemma find_at_of_NoDup (l : list Task.t) doc :
  List.NoDup (map Task.id l) -> In doc l ->
  exists i,
    JS.find_at (fun d => String.eqb (Task.id d) (Task.id doc)) l
    = Some (i, doc).
Proof.
  induction l as [|x r IH]; cbn; [contradiction|].
  intros Hnd Hin. apply List.NoDup_cons_iff in Hnd. destruct Hnd as [Hx Hr].
  destruct (String.eqb_spec (Task.id x) (Task.id doc)) as [Heq|Hne].
  - destruct Hin as [->|Hin]; [now exists 0|].
    exfalso. apply Hx. rewrite Heq. now apply in_map.
  - destruct Hin as [->|Hin]; [congruence|].
    destruct (IH Hr Hin) as [i Hi]. rewrite Hi. now exists (S i).
Qed.

(** X13.  What [getReadyTasks] returns, [activateTask] accepts: on a queue
    whose pending ids are distinct, every task returned by [getReadyTasks]
    is activated by [activateTask] under its id, which returns it with the
    status [in_progress]. *)
Theorem ready_tasks_can_be_activated agent w :
  readable agent w -> ids_truthy agent w ->
  List.NoDup (ids agent pending w) ->
  exists ready,
    TaskQueue.getReadyTasks agent w = (Ok ready, w) /\
    forall task, In task ready ->
      exists task' w',
        TaskQueue.activateTask agent (Task.id task) w = (Ok task', w') /\
        Task.id task' = Task.id task /\
        Task.status task' = "in_progress" /\
        In (Task.id task) (ids agent active w').
Proof.
  intros Hr Ht Hnd. eexists. split.
  - unfold TaskQueue.getReadyTasks, TaskQueue.getPendingTasks,
      TaskQueue.getCompletedTasks.
    rewrite (bind_ok _ _ _ _ _ (loadTasks_loaded agent pending w Hr Ht)).
    rewrite (bind_ok _ _ _ _ _ (loadTasks_loaded agent completed w Hr Ht)).
    reflexivity.
  - intros task Hin. apply filter_In in Hin. destruct Hin as [Hin Hready].
    rewrite (loaded_ids agent completed w Ht) in Hready.
    unfold loaded in Hin. apply in_map_iff in Hin.
    destruct Hin as (doc & <- & Hdoc).
    assert (Hid : JS.truthy (Task.id doc) = true).
    { specialize (Ht pending). rewrite List.Forall_forall in Ht.
      now apply Ht. }
    rewrite (Task_new_id "" (clock w) doc Hid).
    destruct (find_at_of_NoDup (docs agent pending w) doc Hnd Hdoc)
      as [i Hi].
    rewrite activateTask_eq by assumption.
    unfold find_in. rewrite Hi.
    assert (Hready' : Task.isReady (ids agent completed w) doc = true)
      by exact Hready.
    rewrite Hready'. eexists _, _. split; [reflexivity|].
    assert (Hdir : is_Some (fs w !! agent)).
    { unfold docs, read_collection in Hdoc.
      destruct (fs w !! agent); [eauto|contradiction]. }
    split; [|split].
    + unfold activated. cbn. unfold JS.or_else. now rewrite Hid.
    + reflexivity.
    + rewrite ids_put_same by now apply put_dir.
      unfold JS.push. rewrite map_app. apply in_or_app. right. left.
      unfold activated. cbn. unfold JS.or_else. now rewrite Hid.
Qed.

Lemma ready_tasks_can_be_activated_witness :
  exists ready,
    TaskQueue.getReadyTasks "a" Fixture.w_ready = (Ok ready, Fixture.w_ready) /\
    forall task, In task ready ->
      exists task' w',
        TaskQueue.activateTask "a" (Task.id task) Fixture.w_ready
        = (Ok task', w') /\
        Task.id task' = Task.id task /\
        Task.status task' = "in_progress" /\
        In (Task.id task) (ids "a" active w').
Proof.
  apply (ready_tasks_can_be_activated "a" Fixture.w_ready).
  - intros c. destruct c; discriminate.
  - intros c. destruct c; vm_compute; repeat constructor.
  - vm_compute. constructor; [intros []|constructor].
Defined.

(** X14.  [createTask] for an agent whose directory exists draws one
    identifier, returns it, and appends to the pending file a task with
    that id, the status [pending], the agent as owner and the caller, the
    creator named in the data, or the agent, in this order, as creator; the
    pending file then holds the documents that could be read from it before,
    followed by the new one, so that a file that could not be parsed is
    replaced; the other two files and the mailboxes are untouched. *)
Theorem createTask_enqueues agentId taskData createdBy w d :
  fs w !! agentId = Some d ->
  exists task w',
    MCPAgentServer.createTask agentId taskData createdBy w
    = (Ok (uuid_source w (draws w)), w') /\
    read_collection agentId pending w'
    = Content (docs agentId pending w ++ [task]) /\
    Task.id task = uuid_source w (draws w) /\
    Task.status task = "pending" /\
    Task.agent_id task = agentId /\
    Task.created_by task
    = JS.or_else createdBy (JS.or_else (Task.created_by taskData) agentId) /\
    read_collection agentId active w' = read_collection agentId active w /\
    read_collection agentId completed w'
    = read_collection agentId completed w /\
    mailboxes agentId w' = mailboxes agentId w /\
    draws w' = S (draws w).
Proof.
  intros Hd. unfold MCPAgentServer.createTask, uuidv4, Date_now, bind,
    write_collection, ret.
  cbn [fs set_draws]. rewrite Hd.
  eexists _, _. split; [reflexivity|].
  unfold read_collection, mailboxes, docs, read_collection.
  cbn [fs set_fs set_draws draws]. rewrite lookup_insert_eq, Hd.
  cbn. repeat split.
Qed.

Lemma createTask_enqueues_witness :
  exists task w',
    MCPAgentServer.createTask "a"
      (Fixture.task "" "" "x" [] []) "" Fixture.w_ready
    = (Ok (uuid_source Fixture.w_ready (draws Fixture.w_ready)), w') /\
    read_collection "a" pending w'
    = Content (docs "a" pending Fixture.w_ready ++ [task]) /\
    Task.id task = uuid_source Fixture.w_ready (draws Fixture.w_ready) /\
    Task.status task = "pending" /\
    Task.agent_id task = "a" /\
    Task.created_by task
    = JS.or_else ""
        (JS.or_else (Task.created_by (Fixture.task "" "" "x" [] [])) "a") /\
    read_collection "a" active w' = read_collection "a" active Fixture.w_ready /\
    read_collection "a" completed w'
    = read_collection "a" completed Fixture.w_ready /\
    mailboxes "a" w' = mailboxes "a" Fixture.w_ready /\
    draws w' = S (draws Fixture.w_ready).
Proof.
  eapply (createTask_enqueues "a" (Fixture.task "" "" "x" [] []) ""
            Fixture.w_ready).
  reflexivity.
Defined.

Lemma find_at_mutated {A : Type} (p : A -> bool) (l : list A) :
  forall i x y,
    JS.find_at p l = Some (i, y) -> p x = true ->
    JS.find_at p (TaskQueue.mutated i x l) = Some (i, x).
Proof.
  induction l as [|z r IH]; intros i x y; cbn; [discriminate|].
  destruct (p z) eqn:Hz.
  - intros [= <- <-] Hx. unfold TaskQueue.mutated. cbn. now rewrite Hx.
  - destruct (JS.find_at p r) as [[j y']|] eqn:Hr; [|discriminate].
    cbn. intros [= <- <-] Hx. unfold TaskQueue.mutated. cbn. rewrite Hz.
    change (firstn j r ++ x :: skipn (S j) r) with (TaskQueue.mutated j x r).
    now rewrite (IH j x y' eq_refl Hx).
Qed.

Lemma mutation_keeps_queue agent i task doc w taskId :
  readable agent w -> ids_truthy agent w ->
  find_in agent taskId active w = Some (i, doc) ->
  Task.id task = Task.id doc ->
  let w1 := put_collection agent active
              (TaskQueue.mutated i task (loaded agent active w)) w in
  readable agent w1 /\ ids_truthy agent w1 /\
  (forall c, ids agent c w1 = ids agent c w) /\
  find_in agent taskId active w1 = Some (i, task).
Proof.
  intros Hr Ht Hfind Hid w1.
  pose proof (find_in_dir _ _ _ _ _ Hfind) as Hdir.
  pose proof (find_in_truthy _ _ _ _ _ _ Ht Hfind) as Htruthy.
  destruct (find_in_ids _ _ _ _ _ _ Hfind) as (_ & Hnth & Hdoc).
  assert (Hstays : movement_holds agent w w1 Stays).
  { apply (stays_by_mutation agent active i task
             (Task.new "" (clock w) doc)).
    - exact Hdir.
    - now apply loaded_ids.
    - now apply loaded_nth.
    - rewrite Hid. symmetry. now apply Task_new_id. }
  split; [now apply put_readable|].
  split; [exact (movement_truthy agent w w1 Stays Hstays I Ht)|].
  split; [exact Hstays|].
  unfold find_in, w1. rewrite docs_put_same by exact Hdir.
  apply (find_at_mutated _ _ i task (Task.new "" (clock w) doc)).
  - rewrite find_at_loaded by exact Ht. now rewrite Hfind.
  - rewrite Hid, Hdoc. apply String.eqb_refl.
Qed.

(** X15.  [unblockTask] undoes [blockTask]: an active task that is blocked
    with a reason and then unblocked is returned first with the status
    [blocked] and the reason in its metadata, then with the status
    [in_progress] and no reason; it never leaves the active file, and the
    ids of the three files are those before the two calls. *)
Theorem unblockTask_undoes_blockTask agent taskId reason w i doc :
  readable agent w -> ids_truthy agent w ->
  find_in agent taskId active w = Some (i, doc) ->
  JS.truthy reason = true ->
  exists t1 w1 t2 w2,
    TaskQueue.blockTask agent taskId reason w = (Ok t1, w1) /\
    Task.status t1 = "blocked" /\
    Task.blockReason (Task.metadata t1) = Some reason /\
    TaskQueue.unblockTask agent taskId w1 = (Ok t2, w2) /\
    Task.status t2 = "in_progress" /\
    Task.blockReason (Task.metadata t2) = None /\
    Task.id t2 = taskId /\
    find_in agent taskId active w2 = Some (i, t2) /\
    forall c, ids agent c w2 = ids agent c w.
Proof.
  intros Hr Ht Hfind Hreason.
  pose proof (find_in_truthy _ _ _ _ _ _ Ht Hfind) as Htruthy.
  destruct (find_in_ids _ _ _ _ _ _ Hfind) as (_ & _ & Hdoc).
  set (t1 := blocked_task w reason doc).
  assert (Hid1 : Task.id t1 = Task.id doc)
    by now apply blocked_task_id.
  destruct (mutation_keeps_queue agent i t1 doc w taskId Hr Ht Hfind Hid1)
    as (Hr1 & Ht1 & Hids1 & Hfind1).
  set (w1 := put_collection agent active
               (TaskQueue.mutated i t1 (loaded agent active w)) w) in *.
  assert (Htruthy1 : JS.truthy (Task.id t1) = true) by now rewrite Hid1.
  set (t2 := unblocked_task w1 t1).
  assert (Hid2 : Task.id t2 = Task.id t1)
    by now apply unblocked_task_id.
  destruct (mutation_keeps_queue agent i t2 t1 w1 taskId Hr1 Ht1 Hfind1 Hid2)
    as (_ & _ & Hids2 & Hfind2).
  exists t1, w1, t2,
    (put_collection agent active
       (TaskQueue.mutated i t2 (loaded agent active w1)) w1).
  split; [rewrite blockTask_eq by assumption; now rewrite Hfind|].
  split; [unfold t1, blocked_task; now rewrite Hreason|].
  split; [unfold t1, blocked_task; now rewrite Hreason|].
  split; [rewrite unblockTask_eq by assumption; now rewrite Hfind1|].
  split; [reflexivity|]. split; [reflexivity|].
  split; [now rewrite Hid2, Hid1|].
  split; [exact Hfind2|].
  intros c. now rewrite Hids2, Hids1.
Qed.

Lemma unblockTask_undoes_blockTask_witness :
  exists t1 w1 t2 w2,
    TaskQueue.blockTask "y" "t1" "waiting for x" w_scenario = (Ok t1, w1) /\
    Task.status t1 = "blocked" /\
    Task.blockReason (Task.metadata t1) = Some "waiting for x" /\
    TaskQueue.unblockTask "y" "t1" w1 = (Ok t2, w2) /\
    Task.status t2 = "in_progress" /\
    Task.blockReason (Task.metadata t2) = None /\
    Task.id t2 = "t1" /\
    find_in "y" "t1" active w2 = Some (0, t2) /\
    forall c, ids "y" c w2 = ids "y" c w_scenario.
Proof.
  apply (unblockTask_undoes_blockTask "y" "t1" "waiting for x" w_scenario 0
           (Fixture.task "t1" "in_progress" "x" [] ["d1"])).
  - intros c. destruct c; discriminate.
  - intros c. destruct c; vm_compute; repeat constructor.
  - reflexivity.
  - reflexivity.
Defined.

(** ** Relationships *)

Lemma appendToContext_run agent content w d c :
  fs w !! agent = Some d -> context_md d = Content c ->
  exists c',
    Agent.appendToContext agent content w
    = (Ok tt, set_fs (<[agent := Agent.with_context (Content c') d]> (fs w)) w).
Proof.
  intros Hd Hc.
  unfold Agent.appendToContext, Agent.updateContext, Agent.readContext,
    Date_now, Agent.write_dir, bind.
  rewrite Hd, Hc, Hd. eexists. reflexivity.
Qed.

Lemma remove_from_pushed peer e l :
  find (fun c => String.eqb (Relationship.agentId c) peer) l = None ->
  Relationship.agentId e = peer ->
  RelationshipManager.remove_from peer (JS.push l e) = (l, true).
Proof.
  intros Hnone He. unfold RelationshipManager.remove_from, JS.push.
  rewrite findIndex_app_last.
  - now rewrite splice1_last.
  - intros y Hy. exact (find_none _ _ Hnone y Hy).
  - rewrite He. apply String.eqb_refl.
Qed.

Lemma remove_from_absent peer l :
  find (fun c => String.eqb (Relationship.agentId c) peer) l = None ->
  RelationshipManager.remove_from peer l = (l, false).
Proof.
  intros Hnone. unfold RelationshipManager.remove_from.
  rewrite findIndex_none; [reflexivity|].
  intros y Hy. exact (find_none _ _ Hnone y Hy).
Qed.

Lemma add_run k line agent peer type w d r c :
  fs w !! agent = Some d ->
  relationships_json d = Content r ->
  context_md d = Content c ->
  find (fun e => String.eqb (Relationship.agentId e) peer) (category k r)
  = None ->
  exists c',
    RelationshipManager.add k line agent peer type w
    = (Ok tt,
       set_fs (<[agent :=
                   Agent.with_context (Content c')
                     (Agent.with_relationships
                        (Content (push_to k (Relationship.mk peer type
                                               (clock w) "active" None) r))
                        d)]> (fs w)) w).
Proof.
  intros Hd Hrel Hc Hnone.
  unfold RelationshipManager.add. unfold bind at 1.
  rewrite getRelationships_run, Hd, Hrel, Hnone.
  unfold Date_now, bind at 1. unfold bind at 1.
  unfold Agent.updateRelationships, Agent.write_dir at 1. rewrite Hd.
  set (d1 := Agent.with_relationships _ d).
  set (w1 := set_fs (<[agent := d1]> (fs w)) w).
  destruct (appendToContext_run agent line w1 d1 c) as [c' Hrun].
  { unfold w1. cbn [fs set_fs]. apply lookup_insert_eq. }
  { exact Hc. }
  rewrite Hrun. exists c'. unfold w1, set_fs. cbn.
  now rewrite insert_insert_eq.
Qed.

(** X16.  [removeRelationship] undoes an [add...]: when the peer is in no
    category of a readable registry, adding it to one of the four
    categories and then removing it succeeds, reports a removal, and leaves
    [relationships.json] with its former content; a second removal reports
    that there was nothing to remove and changes nothing. *)
Theorem removeRelationship_undoes_add k agent peer w d r c :
  fs w !! agent = Some d ->
  relationships_json d = Content r ->
  context_md d = Content c ->
  (forall k', find (fun e => String.eqb (Relationship.agentId e) peer)
                   (category k' r) = None) ->
  exists w1 w2,
    RelationshipManager.addRelationship k agent peer w = (Ok tt, w1) /\
    length (entries_for agent k peer w1) = 1 /\
    RelationshipManager.removeRelationship agent peer w1 = (Ok true, w2) /\
    Agent.getRelationships agent w2 = (Ok r, w2) /\
    RelationshipManager.removeRelationship agent peer w2 = (Ok false, w2).
Proof.
  intros Hd Hrel Hc Hnone.
  assert (Hadd : exists type c',
            RelationshipManager.addRelationship k agent peer w
            = (Ok tt,
               set_fs (<[agent :=
                           Agent.with_context (Content c')
                             (Agent.with_relationships
                                (Content
                                   (push_to k
                                      (Relationship.mk peer type (clock w)
                                         "active" None) r)) d)]> (fs w)) w)).
  { destruct k; cbn [RelationshipManager.addRelationship];
      unfold RelationshipManager.addConsumer, RelationshipManager.addProducer,
        RelationshipManager.addBidirectionalRelationship,
        RelationshipManager.addOptionalRelationship;
      match goal with
      | |- context [RelationshipManager.add ?k ?line _ _ ?type _] =>
          destruct (add_run k line agent peer type w d r c Hd Hrel Hc
                      (Hnone k)) as [c' Hrun];
          exists type, c'; exact Hrun
      end. }
  destruct Hadd as (type & c' & Hadd).
  set (e := Relationship.mk peer type (clock w) "active" None) in *.
  set (d1 := Agent.with_context (Content c')
               (Agent.with_relationships (Content (push_to k e r)) d)) in *.
  set (w1 := set_fs (<[agent := d1]> (fs w)) w) in *.
  assert (Hd1 : fs w1 !! agent = Some d1)
    by (unfold w1; cbn [fs set_fs]; apply lookup_insert_eq).
  pose proof (Hnone consumers) as H1. pose proof (Hnone producers) as H2.
  pose proof (Hnone bidirectional) as H3. pose proof (Hnone optional) as H4.
  cbn [category] in H1, H2, H3, H4.
  assert (Rc : RelationshipManager.remove_from peer
                 (Relationships.consumers (push_to k e r))
               = (Relationships.consumers r,
                  match k with consumers => true | _ => false end)).
  { destruct k; cbn [push_to Relationships.consumers];
      first [now apply remove_from_pushed | now apply remove_from_absent]. }
  assert (Rp : RelationshipManager.remove_from peer
                 (Relationships.producers (push_to k e r))
               = (Relationships.producers r,
                  match k with producers => true | _ => false end)).
  { destruct k; cbn [push_to Relationships.producers];
      first [now apply remove_from_pushed | now apply remove_from_absent]. }
  assert (Rb : RelationshipManager.remove_from peer
                 (Relationships.bidirectional (push_to k e r))
               = (Relationships.bidirectional r,
                  match k with bidirectional => true | _ => false end)).
  { destruct k; cbn [push_to Relationships.bidirectional];
      first [now apply remove_from_pushed | now apply remove_from_absent]. }
  assert (Ro : RelationshipManager.remove_from peer
                 (Relationships.optional (push_to k e r))
               = (Relationships.optional r,
                  match k with optional => true | _ => false end)).
  { destruct k; cbn [push_to Relationships.optional];
      first [now apply remove_from_pushed | now apply remove_from_absent]. }
  set (d1' := Agent.with_relationships (Content r) d1).
  set (w1' := set_fs (<[agent := d1']> (fs w1)) w1).
  destruct (appendToContext_run agent
              (String.append "Removed relationship with " peer) w1' d1' c')
    as [c'' Hctx].
  { unfold w1'. cbn [fs set_fs]. apply lookup_insert_eq. }
  { reflexivity. }
  set (d2 := Agent.with_context (Content c'') d1') in *.
  set (w2 := set_fs (<[agent := d2]> (fs w1')) w1') in *.
  assert (Hd2 : fs w2 !! agent = Some d2)
    by (unfold w2; cbn [fs set_fs]; apply lookup_insert_eq).
  exists w1, w2. split; [exact Hadd|]. split; [|split; [|split]].
  - unfold entries_for, MCPAgentServer.relationships_or_default.
    rewrite Hd1. cbn [d1 relationships_json Agent.with_context
                      Agent.with_relationships].
    rewrite category_push_to_same. unfold JS.push.
    rewrite List.filter_app. cbn. rewrite String.eqb_refl.
    rewrite length_app. cbn.
    assert (Hempty : List.filter
                       (fun e0 => String.eqb (Relationship.agentId e0) peer)
                       (category k r) = []).
    { apply filter_nil_iff. intros y Hy.
      exact (find_none _ _ (Hnone k) y Hy). }
    now rewrite Hempty.
  - unfold RelationshipManager.removeRelationship. unfold bind at 1.
    rewrite getRelationships_run, Hd1.
    cbn [d1 relationships_json Agent.with_context Agent.with_relationships].
    rewrite Rc, Rp, Rb, Ro. cbn [fst snd].
    replace (Relationships.mk _ _ _ _) with r by (now destruct r).
    replace (_ || _ || _ || _) with true by (now destruct k).
    unfold bind at 1. unfold Agent.updateRelationships.
    unfold Agent.write_dir at 1. rewrite Hd1.
    fold d1' w1'. unfold bind at 1. rewrite Hctx. reflexivity.
  - rewrite getRelationships_run, Hd2. reflexivity.
  - unfold RelationshipManager.removeRelationship. unfold bind at 1.
    rewrite getRelationships_run, Hd2.
    cbn [d2 d1' relationships_json Agent.with_context
         Agent.with_relationships].
    rewrite (remove_from_absent peer _ H1), (remove_from_absent peer _ H2),
      (remove_from_absent peer _ H3), (remove_from_absent peer _ H4).
    reflexivity.
Qed.

Lemma removeRelationship_undoes_add_witness :
  exists w1 w2,
    RelationshipManager.addRelationship producers "a" "b" w_alone
    = (Ok tt, w1) /\
    length (entries_for "a" producers "b" w1) = 1 /\
    RelationshipManager.removeRelationship "a" "b" w1 = (Ok true, w2) /\
    Agent.getRelationships "a" w2 = (Ok Relationships.empty, w2) /\
    RelationshipManager.removeRelationship "a" "b" w2 = (Ok false, w2).
Proof.
  eapply (removeRelationship_undoes_add producers "a" "b" w_alone).
  - reflexivity.
  - reflexivity.
  - reflexivity.
  - intros k'. destruct k'; reflexivity.
Defined.

(** ** The proxy *)

(** X17.  The proxy answers every line it reads, and never throws: whatever
    the shared server does, [handleStdinMessage] returns normally and has
    written exactly one line, a result or an error, except for the
    [initialized] notification, for which it writes nothing and sets the
    flag; no other message changes the flag. *)
Theorem proxy_answers_every_line server message s :
  exists s' out,
    MCPProxy.handleStdinMessage server message s = (Ok tt, s') /\
    MCPProxy.stdout s' = MCPProxy.stdout s ++ out /\
    length out = (if is_initialized_notification message then 0 else 1) /\
    MCPProxy.initialized s'
    = MCPProxy.initialized s || is_initialized_notification message.
Proof.
  destruct s as [i out reqs].
  destruct message as [request|]; cbn [is_initialized_notification].
  2:{ eexists _, [_]. cbn. rewrite orb_false_r. repeat split. }
  unfold MCPProxy.handleStdinMessage, try_catch, MCPProxy.handle.
  destruct (String.eqb_spec (MCPProxy.method request) "initialize")
    as [E|_].
  { rewrite E. eexists _, [_]. cbn. rewrite orb_false_r. repeat split. }
  destruct (String.eqb (MCPProxy.method request) "initialized").
  { eexists _, []. cbn. rewrite app_nil_r, orb_true_r. repeat split. }
  destruct (String.eqb (MCPProxy.method request) "tools/list").
  { eexists _, [_]. cbn. rewrite orb_false_r. repeat split. }
  destruct (String.eqb (MCPProxy.method request) "resources/list").
  { eexists _, [_]. cbn. rewrite orb_false_r. repeat split. }
  destruct (String.eqb (MCPProxy.method request) "prompts/list").
  { eexists _, [_]. cbn. rewrite orb_false_r. repeat split. }
  destruct (String.eqb (MCPProxy.method request) "tools/call").
  { destruct (MCPProxy.params request) as [p|].
    - unfold bind, MCPProxy.client_request.
      destruct (server _ _); eexists _, [_]; cbn; rewrite orb_false_r;
        repeat split.
    - eexists _, [_]. cbn. rewrite orb_false_r. repeat split. }
  unfold get, bind, MCPProxy.client_request.
  cbn [MCPProxy.initialized].
  destruct (negb i && negb (JS.includes MCPProxy.allowedBeforeInit
                              (MCPProxy.method request))).
  { eexists _, [_]. cbn. rewrite orb_false_r. repeat split. }
  destruct (server _ _); eexists _, [_]; cbn; rewrite orb_false_r;
    repeat split.
Qed.

(** X18.  After the handshake, a request for a method that the proxy does
    not handle itself is sent to the shared server once, with its
    parameters, and the proxy relays what comes back: the result under the
    id of the request, or the error of the server as error -32603. *)
Theorem proxy_forwards_after_handshake server request s :
  MCPProxy.initialized s = true ->
  ~ In (MCPProxy.method request) handled_before_gate ->
  let method := MCPProxy.method request in
  let params := option_map MCPProxy.raw (MCPProxy.params request) in
  MCPProxy.handleStdinMessage server (Some request) s
  = (Ok tt,
     MCPProxy.mkState true
       (MCPProxy.stdout s
        ++ [match server method params with
            | Ok result => MCPProxy.ForwardedResult (MCPProxy.id request) result
            | Throw error => MCPProxy.Error (error_id request) (-32603) error
            end])
       (MCPProxy.requests s ++ [MCPProxy.mkForwarded method params])).
Proof.
  intros Hinit Hnot.
  destruct s as [i out reqs]. cbn in Hinit. subst i.
  assert (Hne : forall y, In y handled_before_gate ->
                          String.eqb (MCPProxy.method request) y = false)
    by (intros y; now apply not_In_eqb).
  unfold MCPProxy.handleStdinMessage, try_catch, MCPProxy.handle.
  rewrite (Hne "initialize"), (Hne "initialized"), (Hne "tools/list"),
    (Hne "resources/list"), (Hne "prompts/list"), (Hne "tools/call")
    by (cbn; tauto).
  unfold get, bind, MCPProxy.client_request. cbn.
  destruct (server _ _); reflexivity.
Qed.

Lemma proxy_forwards_after_handshake_witness :
  MCPProxy.handleStdinMessage failing_server
    (Some (MCPProxy.mkRequest "4" "task/get" None))
    (MCPProxy.mkState true [] [])
  = (Ok tt,
     MCPProxy.mkState true
       [MCPProxy.Error (Some "4") (-32603) "connection closed"]
       [MCPProxy.mkForwarded "task/get" None]).
Proof.
  apply (proxy_forwards_after_handshake failing_server
           (MCPProxy.mkRequest "4" "task/get" None)
           (MCPProxy.mkState true [] [])).
  - reflexivity.
  - cbn. intros H. repeat destruct H as [H|H]; try discriminate; exact H.
Defined.



(** ** The dispatcher *)

(** X20.  The first registration of an agent that has no directory creates
    it whole: the context with the default text, the three task files
    empty, the relationships empty, the configuration with the capabilities
    and the seven message types, the mailboxes empty; the connection record
    counts one registration; no other agent is touched. *)
Theorem first_registration_initialises agentId capabilities forceUpdate w :
  connectedAgents w !! agentId = None ->
  fs w !! agentId = None ->
  exists w',
    MCPAgentServer.registerAgent agentId capabilities forceUpdate w
    = (Ok (MCPAgentServer.mkRegistration
             (MCPAgentServer.template
                ["Agent "; agentId; " registered"; " successfully"]) false),
       w') /\
    connectedAgents w' !! agentId
    = Some (AgentInfo.mk agentId capabilities (clock w) (clock w) 1) /\
    fs w' !! agentId
    = Some (mkAgentDir
              (Content (MCPAgentServer.defaultContext agentId (clock w)
                          capabilities))
              (Content []) (Content []) (Content [])
              (Content Relationships.empty)
              (Content (McpConfig.mk agentId (Some capabilities)
                          (Some (clock w)) None MCPAgentServer.messageTypes
                          []))
              [] [] []) /\
    forall other, other <> agentId ->
      fs w' !! other = fs w !! other /\
      connectedAgents w' !! other = connectedAgents w !! other.
Proof.
  intros Hnew Hdir. rewrite registerAgent_run, Hnew.
  eexists. split; [reflexivity|].
  unfold world_after_register. rewrite Hnew, Hdir.
  cbn [connectedAgents fs set_connectedAgents set_fs].
  split; [now rewrite lookup_insert_eq|].
  split; [now rewrite lookup_insert_eq|].
  intros other Hne. now rewrite !lookup_insert_ne by congruence.
Qed.

Lemma first_registration_initialises_witness :
  exists w',
    MCPAgentServer.registerAgent "b" [("lang", "rust")] false w_alone
    = (Ok (MCPAgentServer.mkRegistration
             (MCPAgentServer.template
                ["Agent "; "b"; " registered"; " successfully"]) false),
       w') /\
    connectedAgents w' !! "b"
    = Some (AgentInfo.mk "b" [("lang", "rust")] (clock w_alone)
              (clock w_alone) 1) /\
    fs w' !! "b"
    = Some (mkAgentDir
              (Content (MCPAgentServer.defaultContext "b" (clock w_alone)
                          [("lang", "rust")]))
              (Content []) (Content []) (Content [])
              (Content Relationships.empty)
              (Content (McpConfig.mk "b" (Some [("lang", "rust")])
                          (Some (clock w_alone)) None
                          MCPAgentServer.messageTypes []))
              [] [] []) /\
    forall other, other <> "b" ->
      fs w' !! other = fs w_alone !! other /\
      connectedAgents w' !! other = connectedAgents w_alone !! other.
Proof.
  apply (first_registration_initialises "b" [("lang", "rust")] false w_alone);
    reflexivity.
Defined.

(** X21.  [task/update] appends the deliverables it is given to those of
    the task as they are, repetitions included, where [completeTask] adds
    each at most once: the task it returns has the status asked for and the
    stored deliverables followed by the given ones. *)
Theorem updateTaskStatus_appends_deliverables agent taskId status
    deliverables w c i t :
  located agent taskId w = Some (c, i, t) ->
  exists task w',
    MCPAgentServer.updateTaskStatus agent taskId status deliverables w
    = (Ok task, w') /\
    Task.status task = status /\
    Task.deliverables task = Task.deliverables t ++ deliverables /\
    Task.id task = Task.id t.
Proof.
  intros Hloc. rewrite updateTaskStatus_run, Hloc. eexists _, _.
  split; [reflexivity|]. unfold updated_task.
  destruct deliverables as [|x r]; cbn; [now rewrite app_nil_r|auto].
Qed.

Lemma updateTaskStatus_appends_deliverables_witness :
  exists task w',
    MCPAgentServer.updateTaskStatus "y" "t1" "completed" ["d1"] w_scenario
    = (Ok task, w') /\
    Task.status task = "completed" /\
    Task.deliverables task
    = Task.deliverables (Fixture.task "t1" "in_progress" "x" [] ["d1"])
      ++ ["d1"] /\
    Task.id task = Task.id (Fixture.task "t1" "in_progress" "x" [] ["d1"]).
Proof.
  apply (updateTaskStatus_appends_deliverables "y" "t1" "completed" ["d1"]
           w_scenario active 0).
  reflexivity.
Defined.

Lemma keys_is_Some {V : Type} (m : gmap string V) (k : string) :
  In k (map fst (map_to_list m)) <-> is_Some (m !! k).
Proof.
  rewrite in_map_iff. split.
  - intros ([k' v] & <- & Hin). exists v.
    apply elem_of_map_to_list. apply list_elem_of_In. exact Hin.
  - intros [v Hv]. exists (k, v). split; [reflexivity|].
    apply list_elem_of_In. apply elem_of_map_to_list. exact Hv.
Qed.

Lemma bound_in_In table method h :
  bound_in table method h = true <-> In (method, h) table.
Proof.
  unfold bound_in. rewrite existsb_exists. split.
  - intros ([k v] & Hin & Hb). cbn in Hb.
    apply andb_true_iff in Hb. destruct Hb as [Hk Hv].
    apply String.eqb_eq in Hk. apply bool_decide_eq_true in Hv.
    now subst.
  - intros Hin. exists (method, h). split; [exact Hin|]. cbn.
    rewrite String.eqb_refl. cbn. now apply bool_decide_eq_true.
Qed.

Lemma served_methods_resolve :
  forallb resolves_as_bound served_methods = true.
Proof. vm_compute. reflexivity. Qed.

Lemma method_table_resolves :
  forallb (fun p => resolves_as_bound (fst p)) method_table = true.
Proof. vm_compute. reflexivity. Qed.

Lemma method_table_functional :
  forallb (fun p =>
             forallb (fun q => negb (String.eqb (fst p) (fst q))
                               || bool_decide (snd p = snd q))
                     method_table)
          method_table = true.
Proof. vm_compute. reflexivity. Qed.

(** X22.  Method resolution in the dispatcher.  A request whose method is
    a string resolves to a handler exactly when the method table binds the
    method to it: the twelve methods and the nine aliases, each bound to
    its function object.  A method that the table does not bind is answered
    [Method not found:] followed by the method, and a request without a
    method [Method not found: undefined]. *)
Theorem resolve_spec method h :
  (MCPAgentServer.resolve_request (Some method) = Ok h
   <-> In (method, h) method_table) /\
  (In method (map fst method_table) \/
   MCPAgentServer.resolve_request (Some method)
   = Throw ("Method not found: " +:+ method)) /\
  MCPAgentServer.resolve_request None = Throw "Method not found: undefined".
Proof.
  cbn [MCPAgentServer.resolve_request].
  assert (Hkey : In method served_methods
                 <-> is_Some (MCPAgentServer.messageHandlers !! method))
    by exact (keys_is_Some MCPAgentServer.messageHandlers method).
  assert (Hyes : In method served_methods ->
                 exists h', MCPAgentServer.resolve method = Ok h' /\
                            In (method, h') method_table).
  { intros Hin. pose proof served_methods_resolve as Hall.
    rewrite forallb_forall in Hall. specialize (Hall method Hin).
    unfold resolves_as_bound in Hall.
    destruct (MCPAgentServer.resolve method) as [h'|];
      [|discriminate Hall].
    exists h'. split; [reflexivity|]. apply bound_in_In. exact Hall. }
  assert (Hno : ~ In method served_methods ->
                MCPAgentServer.resolve method
                = Throw ("Method not found: " +:+ method)).
  { intros Hnot. unfold MCPAgentServer.resolve, MCPAgentServer.Map_has.
    destruct (MCPAgentServer.messageHandlers !! method) as [v|] eqn:Hv.
    - exfalso. apply Hnot. apply Hkey. exists v. reflexivity.
    - rewrite orb_true_r. unfold MCPAgentServer.template. cbn [fold_right].
      rewrite append_nil_r. reflexivity. }
  split; [|split].
  - split.
    + intros Hh.
      destruct (in_dec string_dec method served_methods) as [Hin|Hnot].
      * destruct (Hyes Hin) as (h' & Hh' & Hb). rewrite Hh' in Hh.
        injection Hh as <-. exact Hb.
      * rewrite (Hno Hnot) in Hh. discriminate Hh.
    + intros Hin. pose proof method_table_resolves as Hall.
      rewrite forallb_forall in Hall. specialize (Hall (method, h) Hin).
      unfold resolves_as_bound in Hall. cbn [fst] in Hall.
      destruct (MCPAgentServer.resolve method) as [h'|];
        [|discriminate Hall].
      apply bound_in_In in Hall.
      pose proof method_table_functional as Hfun.
      rewrite forallb_forall in Hfun. specialize (Hfun (method, h') Hall).
      rewrite forallb_forall in Hfun. specialize (Hfun (method, h) Hin).
      cbn [fst snd] in Hfun. rewrite String.eqb_refl in Hfun.
      cbn [negb orb] in Hfun. apply bool_decide_eq_true in Hfun.
      rewrite Hfun. reflexivity.
  - destruct (in_dec string_dec method served_methods) as [Hin|Hnot].
    + left. destruct (Hyes Hin) as (h' & _ & Hb).
      apply (in_map fst method_table (method, h')). exact Hb.
    + right. exact (Hno Hnot).
  - reflexivity.
Qed.
